(** * Task classification and dispatch: a shallow embedding

    The development follows the Python sources under [backend/app/routers]:
    [qwen_model.py], [cerebras_qwen.py], [ai_classifier.py], [analyze.py]
    and [tasks.py].  Each Python module is a Rocq [Module] of the same name
    and each function keeps its Python name.

    Conventions of the embedding.
    - A Python [str] is a [string]; characters are bytes, and [str.lower]
      acts on the ASCII letters only.
    - A Python call that may raise returns a [result]; code that also
      touches the network, the clock or [logs.json] lives in the monad [M]
      over a [World].
    - Everything outside the repository (HTTP servers, model libraries,
      [os.environ], [random], [uuid], [time]) is an oracle of the record
      [Runtime]. *)

From Stdlib Require Import String Ascii List Bool Arith ZArith NArith QArith Qround Lia Lqa.
From Stdlib Require Import DecimalString Permutation Sorted.
Import ListNotations.

Local Open Scope list_scope.
Local Open Scope string_scope.

(* ================================================================== *)
(** * Python string primitives *)
(* ================================================================== *)

Module Py.

(** [c.lower()] for one character: [A]..[Z] are shifted to [a]..[z]. *)
Definition lower_char (c : ascii) : ascii :=
  let n := N_of_ascii c in
  if (65 <=? n)%N && (n <=? 90)%N then ascii_of_N (n + 32) else c.

(** [s.lower()] *)
Fixpoint lower (s : string) : string :=
  match s with
  | EmptyString => EmptyString
  | String c t => String (lower_char c) (lower t)
  end.

(** [s.replace(old, new)] for a one-character [old]: every occurrence of
    the character is replaced, left to right. *)
Fixpoint replace (old : ascii) (new : string) (s : string) : string :=
  match s with
  | EmptyString => EmptyString
  | String c t =>
      if Ascii.eqb c old then new ++ replace old new t
      else String c (replace old new t)
  end.

(** [s.startswith(p)] *)
Definition startswith (s p : string) : bool := String.prefix p s.

(** [needle in hay] on strings: [needle] occurs at some offset of [hay]. *)
Fixpoint contains (needle hay : string) : bool :=
  if String.prefix needle hay then true
  else match hay with
       | EmptyString => false
       | String _ t => contains needle t
       end.

(** [any(k in text for k in keywords)] *)
Definition any_in (keywords : list string) (text : string) : bool :=
  existsb (fun k => contains k text) keywords.

(** Truth value of a string: only the empty string is false. *)
Definition truthy (s : string) : bool :=
  match s with EmptyString => false | _ => true end.

(** [a or b] on strings. *)
Definition or_ (a b : string) : string := if truthy a then a else b.

(** [s[:n]] *)
Definition take (n : nat) (s : string) : string := String.substring 0 n s.

(** [str(n)] for an integer. *)
Definition str_int (z : Z) : string := NilZero.string_of_int (Z.to_int z).

(** [s.isascii()]: every character is below 128.  A text of such
    characters has one byte for each character, and on it [lower], [take]
    and [strip] below are [str.lower], [s[:n]] and [str.strip]; on other
    texts they work on the bytes of the characters. *)
Fixpoint isascii (s : string) : bool :=
  match s with
  | EmptyString => true
  | String c t => (N_of_ascii c <? 128)%N && isascii t
  end.

(** The substring relation the boolean test [contains] decides. *)
Definition occurs (needle hay : string) : Prop :=
  exists pre post, hay = pre ++ needle ++ post.

(** Python's ASCII white space: tab, line feed, vertical tab, form feed,
    carriage return, the four separators 28..31 and the space. *)
Definition is_space (c : ascii) : bool :=
  let n := N_of_ascii c in
  ((9 <=? n)%N && (n <=? 13)%N) || ((28 <=? n)%N && (n <=? 32)%N).

(** [s.lstrip()], [s.rstrip()] and [s.strip()] *)
Fixpoint lstrip (s : string) : string :=
  match s with
  | EmptyString => EmptyString
  | String c t => if is_space c then lstrip t else s
  end.

Fixpoint rstrip (s : string) : string :=
  match s with
  | EmptyString => EmptyString
  | String c t =>
      match rstrip t with
      | EmptyString => if is_space c then EmptyString else String c EmptyString
      | t' => String c t'
      end
  end.

Definition strip (s : string) : string := lstrip (rstrip s).

(** [sep.join(parts)] *)
Definition join (sep : string) (parts : list string) : string :=
  String.concat sep parts.

(** [seq[:n]] on a list, for any integer [n]: a negative [n] counts from
    the end. *)
Definition slice_to {A : Type} (n : Z) (seq : list A) : list A :=
  if (0 <=? n)%Z then firstn (Z.to_nat n) seq
  else firstn (Z.to_nat (Z.of_nat (length seq) + n)) seq.

End Py.

(* ================================================================== *)
(** * Exceptions and results *)
(* ================================================================== *)

(** The exceptions the routers distinguish.  [ConnectionError], [Timeout]
    and [RequestException] are the [requests.exceptions] classes (the first
    two are subclasses of the third); [HTTPException] is FastAPI's;
    [Exception] stands for any other subclass of Python's [Exception]
    ([ValueError], [AttributeError], [OSError], ...). *)
Inductive exn : Type :=
| ConnectionError (msg : string)
| Timeout (msg : string)
| RequestException (msg : string)
| HTTPException (status_code : Z) (detail : string)
| Exception (msg : string).

(** [str(e)] *)
Definition str_exn (e : exn) : string :=
  match e with
  | ConnectionError m | Timeout m | RequestException m | Exception m => m
  | HTTPException _ d => d
  end.

(** [isinstance(e, requests.exceptions.RequestException)] *)
Definition is_RequestException (e : exn) : bool :=
  match e with
  | ConnectionError _ | Timeout _ | RequestException _ => true
  | _ => false
  end.

Inductive result (A : Type) : Type :=
| Ret (a : A)
| Raise (e : exn).
Arguments Ret {A} a.
Arguments Raise {A} e.

(** A value read out of a JSON document or returned by a library: the
    routers only ever ask whether it is a string. *)
Inductive pyval : Type :=
| PStr (s : string)
| PNonStr.

(** A decoded JSON body: an object (a [dict], keys unique) or any other
    JSON value. *)
Inductive json : Type :=
| JDict (fields : list (string * pyval))
| JOther.

(** What an HTTP call does: it raises, or it returns a response with a
    status code, a text and the outcome of [response.json()]. *)
Inductive http : Type :=
| Fault (e : exn)
| Response (status_code : Z) (text : string) (body : result json).

(** [d.get(key, default)] on a decoded body; on a value that is not a
    [dict] the attribute lookup raises. *)
Fixpoint assoc {V : Type} (key : string) (fields : list (string * V)) : option V :=
  match fields with
  | [] => None
  | (k, v) :: rest => if String.eqb k key then Some v else assoc key rest
  end.

Definition get (j : json) (key : string) (default : pyval) : result pyval :=
  match j with
  | JDict fields =>
      Ret (match assoc key fields with Some v => v | None => default end)
  | JOther => Raise (Exception "AttributeError: object has no attribute 'get'")
  end.

(** A method of [str] called on a value: a value that is not a string has
    no such attribute. *)
Definition as_str (v : pyval) : result string :=
  match v with
  | PStr s => Ret s
  | PNonStr => Raise (Exception "AttributeError: object is not a str")
  end.

(** [round(x, ndigits)]: to the nearest multiple of [10^-ndigits], a tie
    going to the even neighbour. *)
Definition round_half_even (x : Q) : Z :=
  let f := Qfloor x in
  match ((x - inject_Z f) ?= (1 # 2))%Q with
  | Lt => f
  | Gt => (f + 1)%Z
  | Eq => if Z.even f then f else (f + 1)%Z
  end.

Definition round_ (x : Q) (ndigits : nat) : Q :=
  let p := inject_Z (10 ^ Z.of_nat ndigits) in
  (inject_Z (round_half_even (x * p)) / p)%Q.

(* ================================================================== *)
(** * The world outside the routers *)
(* ================================================================== *)

(** One row of [logs.json], as [analyze_image] builds it (keys [id],
    [timestamp], [task], [model], [latency], [result]). *)
Record LogEntry : Type := mkLogEntry {
  log_id : string;
  log_timestamp : string;
  log_task : string;
  log_model : string;
  log_latency : Q;
  log_result : pyval
}.

(** The file [logs.json]: absent, not decodable as JSON, or a JSON list of
    rows. *)
Inductive logs_json : Type :=
| Missing
| Corrupt
| Logs (entries : list LogEntry).

(** The state the routers read and change: the URLs probed with HEAD so
    far (oldest first), the number of clock readings taken, and
    [logs.json]. *)
Record World : Type := mkWorld {
  probed : list string;
  clock_reads : nat;
  logs_file : logs_json
}.

(** Code outside the repository, as oracles. *)
Record Runtime : Type := mkRuntime {
  (** [os.environ.get(name)] *)
  environ : string -> option string;
  (** [int(s)] and [float(s)] on the text of an environment variable *)
  int_ : string -> result Z;
  float_ : string -> result Q;
  (** [session.head(url, timeout=5)], given the URLs probed before it *)
  session_head : list string -> string -> http;
  (** [session.post(url, json={"prompt": prompt, ...})] of the Cerebras client *)
  session_post : string -> string -> http;
  (** [requests.post(url, json={"prompt": prompt, ...})] of the Qwen API *)
  requests_post : string -> string -> http;
  (** the [transformers] pipeline of [call_qwen_model_local] *)
  qwen_local : string -> result string;
  (** [client.post(url, json={"image_path": p, "question": q})] *)
  client_post : string -> string -> string -> http;
  (** [random._randbelow(n)], the index [random.choice] draws *)
  randbelow : nat -> nat;
  (** the k-th reading of [time.time()], in seconds *)
  time_time : nat -> Q;
  (** [str(uuid.uuid4())] and [datetime.now().isoformat()] of the request *)
  uuid4 : string;
  now_isoformat : string;
  (** saving the upload and captioning it ([analyze_image], lines 43-59):
      the path written and the caption *)
  save_and_caption : string -> result (string * string);
  (** loading ResNet-50 and preprocessing the image, then the forward pass
      ([medical_task]) *)
  resnet_prepare : string -> result unit;
  resnet_forward : string -> result unit
}.

(** The monad of the routers: state passing over [World] with exceptions.
    State changes made before an exception is raised are kept. *)
Definition M (A : Type) : Type := World -> result A * World.

Definition ret {A : Type} (a : A) : M A := fun w => (Ret a, w).

Definition raise {A : Type} (e : exn) : M A := fun w => (Raise e, w).

Definition bind {A B : Type} (c : M A) (k : A -> M B) : M B :=
  fun w =>
    match c w with
    | (Ret a, w') => k a w'
    | (Raise e, w') => (Raise e, w')
    end.

Definition lift {A : Type} (r : result A) : M A := fun w => (r, w).

(** [try: body  except <classes>: handler]; an exception outside the
    caught classes propagates. *)
Definition try_except {A : Type} (body : M A) (caught : exn -> bool)
  (handler : exn -> M A) : M A :=
  fun w =>
    match body w with
    | (Ret a, w') => (Ret a, w')
    | (Raise e, w') => if caught e then handler e w' else (Raise e, w')
    end.

(** [except Exception] and a bare [except] catch every exception of the
    model. *)
Definition any_exception (e : exn) : bool := true.

Declare Scope monad_scope.
Delimit Scope monad_scope with monad.
Notation "x <- c1 ;; c2" := (bind c1 (fun x => c2))
  (at level 61, c1 at next level, right associativity) : monad_scope.
Notation "' pat <- c1 ;; c2" := (bind c1 (fun x => match x with pat => c2 end))
  (at level 61, pat pattern, c1 at next level, right associativity) : monad_scope.
Local Open Scope monad_scope.

(** [os.getenv(name, default)] *)
Definition getenv (rt : Runtime) (name default : string) : string :=
  match environ rt name with Some v => v | None => default end.

(** [time.time()] *)
Definition time (rt : Runtime) : M Q :=
  fun w => (Ret (time_time rt (clock_reads w)),
            mkWorld (probed w) (S (clock_reads w)) (logs_file w)).

(* ------------------------------------------------------------------ *)
(** ** Further values and oracles *)
(* ------------------------------------------------------------------ *)

(** A decoded JSON document with its nesting. *)
#[warnings="-register-all"]
Inductive jvalue : Type :=
| JNull
| JBool (b : bool)
| JNumber (q : Q)
| JString (s : string)
| JArray (items : list jvalue)
| JObject (fields : list (string * jvalue)).

(** [v.get(key, default)]: only a [dict] has the method. *)
Definition jget (v : jvalue) (key : string) (default : jvalue) : result jvalue :=
  match v with
  | JObject fields =>
      Ret (match assoc key fields with Some x => x | None => default end)
  | _ => Raise (Exception "AttributeError: object has no attribute 'get'")
  end.

(** [v[0]]: the first item of a list or the first character of a string;
    an empty one raises [IndexError], a [dict] decoded from JSON has no
    key [0], and the other values are not subscriptable. *)
Definition jfirst (v : jvalue) : result jvalue :=
  match v with
  | JArray (x :: _) => Ret x
  | JArray [] => Raise (Exception "IndexError: list index out of range")
  | JString (String c _) => Ret (JString (String c EmptyString))
  | JString EmptyString => Raise (Exception "IndexError: string index out of range")
  | JObject _ => Raise (Exception "KeyError: 0")
  | _ => Raise (Exception "TypeError: object is not subscriptable")
  end.

(** One message of a chat: a [dict] whose [role] and [content], when
    present, are strings. *)
Record chat_message : Type := mkMessage {
  role : option string;
  content : option string
}.

(** The outcome of the chat request: like [http], the body with its
    nesting. *)
Inductive chat_http : Type :=
| ChatFault (e : exn)
| ChatResponse (status_code : Z) (text : string) (body : result jvalue).

(** A value of the Python objects PaddleOCR hands back. *)
#[warnings="-register-all"]
Inductive pyobj : Type :=
| ONone
| OStr (s : string)
| OFloat (q : Q)
| OList (items : list pyobj)
| OTuple (items : list pyobj).

(** What [ocr.ocr(path)] returns: [None], or a list of lines, each [None]
    or a list of detections. *)
Definition paddle_result : Type := option (list (option (list pyobj))).

(** The libraries and services the task handlers and the chat client call. *)
Record Host : Type := mkHost {
  (** [session.post(url, json={"messages": messages, ...})] *)
  chat_post : string -> list chat_message -> chat_http;
  (** [os.path.exists(path)] *)
  path_exists : string -> bool;
  (** [Image.open(path)] and the conversion to RGB *)
  image_open : string -> result unit;
  (** [pytesseract.image_to_string(image, lang='eng', config=psm)] on the
      image at a path *)
  image_to_string : string -> string -> result string;
  (** [paddleocr.PaddleOCR(...).ocr(path)] *)
  paddle_ocr : string -> result paddle_result;
  (** the POST to [/metrics/record] with a model name, a latency and a task *)
  metrics_post : string -> Q -> string -> result unit;
  (** BLIP: the caption of the image at a path, and the answer to a
      question about it *)
  blip_caption : string -> result string;
  blip_answer : string -> string -> result string
}.

(** The arithmetic of Python's [float] that [leaderboard.py] and
    [metrics.py] use on latencies.  A latency is the rational number the
    [float] stands for; the sum and the quotient of two [float]s and
    [round(x, ndigits)] are the [float]s Python computes, each rounded to
    a binary fraction, so they are taken as given operations and nothing
    is assumed of them.  Comparisons of [float]s are exact. *)
Record FloatArith : Type := mkFloatArith {
  (** [a + b] *)
  fadd : Q -> Q -> Q;
  (** [a / b] *)
  fdiv : Q -> Q -> Q;
  (** [round(x, ndigits)] *)
  fround : Q -> nat -> Q
}.

(* ================================================================== *)
(** * qwen_model.py: the response normalizer *)
(* ================================================================== *)

Module qwen_model.

(** [call_qwen_model_local]: the model and tokenizer are loaded and run by
    [transformers]; whatever they raise propagates. *)
Definition call_qwen_model_local (rt : Runtime) (prompt : string) : M string :=
  lift (qwen_local rt prompt).

(** [call_qwen_model_api].  The two conversions of the request data stand
    before the [try]; the timeout conversion and the request stand inside
    it, where only [RequestException] is caught. *)
Definition call_qwen_model_api (rt : Runtime) (prompt : string) : M pyval :=
  let url := getenv rt "QWEN_API_URL" "http://localhost:8000/qwen/predict" in
  _max_tokens <- lift (int_ rt (getenv rt "QWEN_MAX_TOKENS" "100")) ;;
  _temperature <- lift (float_ rt (getenv rt "QWEN_TEMPERATURE" "0.7")) ;;
  try_except
    (_timeout <- lift (int_ rt (getenv rt "QWEN_API_TIMEOUT" "30")) ;;
     match requests_post rt url prompt with
     | Fault e => raise e
     | Response status_code _ body =>
         if (status_code =? 200)%Z then
           result <- lift body ;;
           inner <- lift (get result "text" (PStr "No response text")) ;;
           lift (get result "response" inner)
         else
           ret (PStr ("Error: API call failed with status " ++ Py.str_int status_code))
     end)
    is_RequestException
    (fun e => ret (PStr ("Error: Failed to call Qwen API - " ++ str_exn e))).

Definition valid_tasks : list string :=
  ["OCR"; "Image Captioning"; "Visual QA"; "Image Classification";
   "Object Detection"; "Style Transfer"; "Medical Diagnosis"; "Other"].

(** The [for task in valid_tasks] loop with its early [return], and the
    [return "Other"] after it. *)
Fixpoint first_task (tasks : list string) (response : string) : string :=
  match tasks with
  | [] => "Other"
  | task :: rest =>
      if Py.contains (Py.lower task) response then task
      else first_task rest response
  end.

(** [response.lower().replace(".", "").replace(",", "").replace("?", "").replace("!", "")] *)
Definition clean (response : string) : string :=
  Py.replace "!" "" (Py.replace "?" "" (Py.replace "," "" (Py.replace "." "" (Py.lower response)))).

Definition parse_task_from_response (response : string) : string :=
  first_task valid_tasks (clean response).

End qwen_model.

(* ================================================================== *)
(** * cerebras_qwen.py: endpoint probing and the Cerebras tier *)
(* ================================================================== *)

Module cerebras_qwen.

Record CerebrasConfig : Type := mkCerebrasConfig {
  api_url : string;
  api_key : option string;
  model_name : string;
  max_tokens : Z;
  temperature : Q;
  timeout : Z;
  fallback_urls : list string
}.

(** The [dict] that [generate] returns: [success] is [True] with a
    [response], or [False] with an [error]; both carry [latency] and
    [model]. *)
Inductive generated : Type :=
| Success (response : pyval) (latency : Q) (model : string)
| Failure (error : string) (latency : Q) (model : string).

Section WithRuntime.
Variable rt : Runtime.

(** [_test_endpoint_connectivity]: one HEAD request, recorded in the
    world; the bare [except] turns every fault into [False]. *)
Definition _test_endpoint_connectivity (url : string) : M bool :=
  fun w =>
    let reachable :=
      match session_head rt (probed w) url with
      | Response status_code _ _ => (status_code <? 500)%Z
      | Fault _ => false
      end in
    (Ret reachable, mkWorld (probed w ++ [url])%list (clock_reads w) (logs_file w)).

(** The [for url in urls_to_try] loop of [_find_working_endpoint]. *)
Fixpoint try_urls (urls_to_try : list string) : M (option string) :=
  match urls_to_try with
  | [] => ret None
  | url :: rest =>
      ok <- _test_endpoint_connectivity url ;;
      if ok then ret (Some url) else try_urls rest
  end.

Definition _find_working_endpoint (config : CerebrasConfig) : M (option string) :=
  try_urls (api_url config :: fallback_urls config).

(** [not working_url] on an [Optional[str]]: [None] and the empty string
    are false. *)
Definition found (working_url : option string) : option string :=
  match working_url with
  | Some url => if Py.truthy url then Some url else None
  | None => None
  end.

(** [generate(prompt)] without keyword arguments. *)
Definition generate (config : CerebrasConfig) (prompt : string) : M generated :=
  start_time <- time rt ;;
  working_url <- _find_working_endpoint config ;;
  match found working_url with
  | None =>
      now <- time rt ;;
      ret (Failure "No working Cerebras API endpoint found. Please check your network connection and API configuration."
             (now - start_time) (model_name config))
  | Some url =>
      try_except
        (match session_post rt url prompt with
         | Fault e => raise e
         | Response status_code text body =>
             now <- time rt ;;
             let latency := (now - start_time)%Q in
             if (status_code =? 200)%Z then
               result <- lift body ;;
               inner <- lift (get result "response" (PStr "")) ;;
               response <- lift (get result "text" inner) ;;
               ret (Success response latency (model_name config))
             else
               ret (Failure ("API call error with status " ++ Py.str_int status_code ++ ": " ++ text)
                      latency (model_name config))
         end)
        is_RequestException
        (fun e =>
           now <- time rt ;;
           let msg :=
             match e with
             | ConnectionError m =>
                 "Connection error: " ++ m ++ ". Please check your network connection and API endpoint."
             | Timeout m =>
                 "Request timeout: " ++ m ++ ". Please try again or increase timeout."
             | _ => "Request failed: " ++ str_exn e
             end in
           ret (Failure msg (now - start_time) (model_name config)))
  end.

Definition get_cerebras_config : M CerebrasConfig :=
  let primary_url :=
    getenv rt "CEREBRAS_API_URL" "https://api.cerebras.com/v1/chat/completions" in
  let fallback_urls :=
    ["https://api.cerebras.com/v1/completions";
     "https://api.cerebras.com/chat/completions";
     "https://api.cerebras.com/completions";
     "https://cerebras-api.com/v1/chat/completions";
     "https://cerebras-api.com/v1/completions"] in
  max_tokens <- lift (int_ rt (getenv rt "CEREBRAS_MAX_TOKENS" "100")) ;;
  temperature <- lift (float_ rt (getenv rt "CEREBRAS_TEMPERATURE" "0.7")) ;;
  timeout <- lift (int_ rt (getenv rt "CEREBRAS_TIMEOUT" "30")) ;;
  ret (mkCerebrasConfig primary_url (environ rt "CEREBRAS_API_KEY")
         (getenv rt "CEREBRAS_MODEL_NAME" "qwen-7b")
         max_tokens temperature timeout fallback_urls).

End WithRuntime.

(** [_fallback_response]: the rule-based answer computed from the prompt
    (the [error_msg] argument is only printed). *)
Definition _fallback_response (prompt : string) (error_msg : option string) : string :=
  let prompt_lower := Py.lower prompt in
  if Py.contains "classify" prompt_lower || Py.contains "task" prompt_lower then
    if Py.any_in ["text"; "extract"; "read"; "ocr"] prompt_lower then "OCR"
    else if Py.any_in ["describe"; "caption"; "what is this"] prompt_lower then "Image Captioning"
    else if Py.any_in ["what color"; "how many"; "count"; "visual qa"; "vqa"] prompt_lower then "Visual QA"
    else if Py.any_in ["classify"; "category"; "type"] prompt_lower then "Image Classification"
    else if Py.any_in ["detect"; "objects"; "find"] prompt_lower then "Object Detection"
    else if Py.any_in ["style"; "art"; "transfer"] prompt_lower then "Style Transfer"
    else if Py.any_in ["medical"; "diagnosis"; "health"] prompt_lower then "Medical Diagnosis"
    else "Other"
  else
    "Fallback response: I'm currently using a simplified response system. Your prompt was: '"
      ++ Py.take 100 prompt ++ "...'".

(** [call_cerebras_qwen] *)
Definition call_cerebras_qwen (rt : Runtime) (prompt : string) : M pyval :=
  config <- get_cerebras_config rt ;;
  working_url <- _find_working_endpoint rt config ;;
  match found working_url with
  | None => ret (PStr (_fallback_response prompt None))
  | Some _ =>
      result <- generate rt config prompt ;;
      match result with
      | Success response _ _ => ret response
      | Failure error _ _ => ret (PStr (_fallback_response prompt (Some error)))
      end
  end.

(** The module's own copy of the normalizer: the same text as
    [qwen_model.parse_task_from_response]. *)
Definition parse_task_from_response (response : string) : string :=
  qwen_model.first_task
    ["OCR"; "Image Captioning"; "Visual QA"; "Image Classification";
     "Object Detection"; "Style Transfer"; "Medical Diagnosis"; "Other"]
    (Py.replace "!" "" (Py.replace "?" "" (Py.replace "," ""
       (Py.replace "." "" (Py.lower response))))).

(** The f-string prompt of [classify_task_with_cerebras_qwen]. *)
Definition prompt_of (question image : string) : string :=
  "
Classify the AI task based on the question and image description.

Question: " ++ question ++ "
Image: " ++ image ++ "

Respond with exactly one of these options:
- OCR
- Image Captioning
- Visual QA
- Image Classification
- Object Detection
- Style Transfer
- Medical Diagnosis
- Other

Task:".

(** [image_context or "No image context provided"] *)
Definition image_or_default (image_context : option string) : string :=
  match image_context with
  | Some s => Py.or_ s "No image context provided"
  | None => "No image context provided"
  end.

(** [classify_task_with_cerebras_qwen].  [response.lower()] is the first
    method called on the response; [task_mapping] is built and never
    read. *)
Definition classify_task_with_cerebras_qwen (rt : Runtime)
  (question : string) (image_context : option string) : M string :=
  let prompt := prompt_of question (image_or_default image_context) in
  value <- call_cerebras_qwen rt prompt ;;
  response <- lift (as_str value) ;;
  if Py.startswith response "Fallback response:" then ret response
  else ret (Py.or_ (parse_task_from_response response) "Other").

(** The [for message in reversed(messages)] loop of
    [_fallback_chat_response]: the content of the first message from the
    user, the empty string when the key is absent or no message is from
    the user. *)
Fixpoint last_user (reversed_messages : list chat_message) : string :=
  match reversed_messages with
  | [] => ""
  | message :: rest =>
      match role message with
      | Some r =>
          if String.eqb r "user"
          then match content message with Some c => c | None => "" end
          else last_user rest
      | None => last_user rest
      end
  end.

(** [_fallback_chat_response] (the [error_msg] argument is only printed). *)
Definition _fallback_chat_response (messages : list chat_message)
  (error_msg : option string) : string :=
  let last_user_message := last_user (rev messages) in
  if Py.truthy last_user_message then
    "Fallback response: I'm currently using a simplified response system. Your message was: '"
      ++ Py.take 100 last_user_message ++ "...'"
  else "Fallback response: I'm currently using a simplified response system.".

(** [call_cerebras_qwen_chat(messages)].  On status 200 the answer is
    [result.get("choices", [{}])[0].get("message", {}).get("content", "")];
    of what this raises only the [requests] exceptions are caught. *)
Definition call_cerebras_qwen_chat (rt : Runtime) (host : Host)
  (messages : list chat_message) : M jvalue :=
  config <- get_cerebras_config rt ;;
  working_url <- _find_working_endpoint rt config ;;
  match found working_url with
  | None => ret (JString (_fallback_chat_response messages None))
  | Some url =>
      try_except
        (match chat_post host url messages with
         | ChatFault e => raise e
         | ChatResponse status_code text body =>
             if (status_code =? 200)%Z then
               result <- lift body ;;
               choices <- lift (jget result "choices" (JArray [JObject []])) ;;
               choice <- lift (jfirst choices) ;;
               message <- lift (jget choice "message" (JObject [])) ;;
               lift (jget message "content" (JString ""))
             else
               ret (JString (_fallback_chat_response messages
                      (Some ("API call failed with status " ++ Py.str_int status_code
                               ++ ": " ++ text))))
         end)
        is_RequestException
        (fun e =>
           let msg :=
             match e with
             | ConnectionError m => "Connection error - " ++ m
             | Timeout m => "Request timeout - " ++ m
             | _ => "Request failed - " ++ str_exn e
             end in
           ret (JString (_fallback_chat_response messages (Some msg))))
  end.

(** One entry of [all_tests] in [test_cerebras_connectivity]. *)
Record connectivity_test : Type := mkTest {
  test_url : string;
  test_reachable : bool;
  test_status_code : option Z;
  test_error : option string
}.

(** The [dict] [test_cerebras_connectivity] returns. *)
Record connectivity : Type := mkConnectivity {
  report_primary_url : string;
  report_fallback_urls : list string;
  working_endpoint : option string;
  all_tests : list connectivity_test
}.

(** [client.session.head(url, timeout=5)] with its three [except]
    clauses: the entry of [all_tests] for one URL.  The probe is recorded
    in the world. *)
Definition test_one (rt : Runtime) (url : string) : M connectivity_test :=
  fun w =>
    let test_result :=
      match session_head rt (probed w) url with
      | Response status_code _ _ => mkTest url true (Some status_code) None
      | Fault (ConnectionError m) => mkTest url false None (Some ("Connection error: " ++ m))
      | Fault (Timeout m) => mkTest url false None (Some ("Timeout: " ++ m))
      | Fault e => mkTest url false None (Some ("Error: " ++ str_exn e))
      end in
    (Ret test_result, mkWorld (probed w ++ [url])%list (clock_reads w) (logs_file w)).

(** The [for url in urls_to_test] loop: the working endpoint and the
    entries appended to [all_tests]. *)
Fixpoint test_each (rt : Runtime) (urls_to_test : list string)
  : M (option string * list connectivity_test) :=
  match urls_to_test with
  | [] => ret (None, [])
  | url :: rest =>
      test_result <- test_one rt url ;;
      let working :=
        test_reachable test_result
        && match test_status_code test_result with
           | Some status_code => (status_code <? 500)%Z
           | None => false
           end in
      if working then ret (Some url, [test_result])
      else
        ' (found_url, tests) <- test_each rt rest ;;
        ret (found_url, test_result :: tests)
  end.

Definition test_cerebras_connectivity (rt : Runtime) : M connectivity :=
  config <- get_cerebras_config rt ;;
  ' (found_url, tests) <- test_each rt (api_url config :: fallback_urls config) ;;
  ret (mkConnectivity (api_url config) (fallback_urls config) found_url tests).

End cerebras_qwen.

(* ================================================================== *)
(** * ai_classifier.py: the classifier cascade and the keyword classifier *)
(* ================================================================== *)

Module ai_classifier.

(** [prompt_template.format(question=..., image_context=...)] *)
Definition prompt_template_format (question image_context : string) : string :=
  "
Classify the AI task based on the question and image description.

Question: " ++ question ++ "
Image: " ++ image_context ++ "

Respond with exactly one of these options:
- OCR
- Image Captioning
- Visual QA
- Image Classification
- Object Detection
- Style Transfer
- Medical Diagnosis
- Other

Task:".

(** The two Qwen tiers: the second [try] statement of
    [classify_task_with_qwen] with its [finally].  The inner [try] either
    returns a label ([Some]) or falls through to the local model
    ([None]). *)
Definition qwen_tiers (rt : Runtime) (start_time : Q)
  (question : string) (image_context : option string) : M string :=
  let prompt :=
    prompt_template_format question
      (cerebras_qwen.image_or_default image_context) in
  task <-
    try_except
      (returned <-
         try_except
           (value <- qwen_model.call_qwen_model_api rt prompt ;;
            response <- lift (as_str value) ;;
            if negb (Py.startswith response "Error:")
            then ret (Some (qwen_model.parse_task_from_response response))
            else ret None)
           any_exception
           (fun _ => ret None) ;;
       match returned with
       | Some task => ret task
       | None =>
           response <- qwen_model.call_qwen_model_local rt prompt ;;
           ret (qwen_model.parse_task_from_response response)
       end)
      any_exception
      (fun _ => ret "Other") ;;
  now <- time rt ;;
  let _latency := (now - start_time)%Q in
  ret task.

Definition classify_task_with_qwen (rt : Runtime)
  (question : string) (image_context : option string) : M string :=
  start_time <- time rt ;;
  let use_cerebras :=
    String.eqb (Py.lower (getenv rt "USE_CEREBRAS_QWEN" "false")) "true" in
  if use_cerebras then
    try_except
      (result <- cerebras_qwen.classify_task_with_cerebras_qwen rt question image_context ;;
       now <- time rt ;;
       let _latency := (now - start_time)%Q in
       ret result)
      any_exception
      (fun _ => qwen_tiers rt start_time question image_context)
  else qwen_tiers rt start_time question image_context.

Definition medical_keywords : list string :=
  ["medical"; "diagnosis"; "health"; "doctor"; "patient"; "disease";
   "condition"; "symptoms"; "diagnose"].
Definition ocr_keywords : list string :=
  ["text"; "read"; "extract"; "ocr"; "words"; "letters"; "characters"; "document"].
Definition classification_keywords : list string :=
  ["classify"; "category"; "type"; "kind"; "sort"; "group"; "label"].
Definition object_keywords : list string :=
  ["objects"; "items"; "things"; "find"; "locate"; "bounding box";
   "coordinates"; "detect"].
Definition style_keywords : list string :=
  ["style"; "art"; "transform"; "convert"; "change style"; "make it look like"].
Definition caption_keywords : list string :=
  ["describe"; "caption"; "what is this"; "what do you see"; "scene";
   "picture"; "image"].
Definition vqa_keywords : list string :=
  ["what color"; "how many"; "count"; "identify"; "recognize"].

Definition mock_classify_task (question : string) : string :=
  let question_lower := Py.lower question in
  if Py.any_in medical_keywords question_lower then "Medical Diagnosis"
  else if Py.any_in ocr_keywords question_lower then "OCR"
  else if Py.any_in classification_keywords question_lower then "Image Classification"
  else if Py.any_in object_keywords question_lower then "Object Detection"
  else if Py.any_in style_keywords question_lower then "Style Transfer"
  else if Py.any_in caption_keywords question_lower then "Image Captioning"
  else if Py.any_in vqa_keywords question_lower then "Visual QA"
  else if Py.startswith question_lower "what"
          || Py.startswith question_lower "where"
          || Py.startswith question_lower "how" then "Visual QA"
  else "Other".

End ai_classifier.

(* ================================================================== *)
(** * tasks.py: the handlers behind [/task/other] and [/task/medical] *)
(* ================================================================== *)

Module tasks.

Record TaskRequest : Type := mkTaskRequest {
  image_path : string;
  question : string
}.

(** The [dict] every handler returns (keys [result], [latency],
    [model_name]). *)
Record TaskReply : Type := mkTaskReply {
  reply_result : pyval;
  reply_latency : Q;
  reply_model_name : string
}.

Definition other_task (rt : Runtime) (request : TaskRequest) : M TaskReply :=
  start_time <- time rt ;;
  try_except
    (let response := "Task not supported" in
     now <- time rt ;;
     let latency := (now - start_time)%Q in
     ret (mkTaskReply (PStr response) (round_ latency 4) "None"))
    any_exception
    (fun _ =>
       now <- time rt ;;
       let latency := (now - start_time)%Q in
       ret (mkTaskReply (PStr "Task processing completed") (round_ latency 4) "None")).

(** [medical_task]: the class index is a tensor, not a string. *)
Definition medical_task (rt : Runtime) (request : TaskRequest) : M TaskReply :=
  start_time <- time rt ;;
  try_except
    (_inputs <- lift (resnet_prepare rt (image_path request)) ;;
     diagnosis <-
       try_except
         (_logits <- lift (resnet_forward rt (image_path request)) ;;
          ret PNonStr)
         any_exception
         (fun _ => ret (PStr "Unable to generate medical diagnosis")) ;;
     now <- time rt ;;
     let latency := (now - start_time)%Q in
     ret (mkTaskReply diagnosis (round_ latency 4) "ResNet-50"))
    any_exception
    (fun _ =>
       now <- time rt ;;
       let latency := (now - start_time)%Q in
       ret (mkTaskReply (PStr "Unable to perform medical analysis") (round_ latency 4) "ResNet-50")).

(** The routes of the router (prefix [/task]) whose handlers are embedded
    here; [/ocr], [/caption], [/vqa] and [/simocr] run model libraries and
    are left out. *)
Definition router : list (string * (Runtime -> TaskRequest -> M TaskReply)) :=
  [("/task/medical", medical_task);
   ("/task/other", other_task)].

(** The five page segmentation modes [ocr_task] tries. *)
Definition psm_modes : list string :=
  ["--psm 6"; "--psm 8"; "--psm 13"; "--psm 3"; "--psm 11"].

(** The [for psm in psm_modes] loop: the first text that is not blank; a
    mode that raises is skipped. *)
Fixpoint first_text (host : Host) (image_path : string) (modes : list string) : string :=
  match modes with
  | [] => ""
  | psm :: rest =>
      match image_to_string host image_path psm with
      | Ret detected_text =>
          if Py.truthy (Py.strip detected_text) then detected_text
          else first_text host image_path rest
      | Raise _ => first_text host image_path rest
      end
  end.

(** The shape test on a detection:
    [isinstance(item, list) and len(item) >= 2 and isinstance(item[1], list)
     and len(item[1]) >= 2]; it yields [item[0]], [item[1][0]] and
    [item[1][1]]. *)
Definition detection (item : pyobj) : option (pyobj * pyobj * pyobj) :=
  match item with
  | OList (bbox :: OList (detected_text :: confidence :: _) :: _) =>
      Some (bbox, detected_text, confidence)
  | _ => None
  end.

(** The test on a detected text: a string, not blank, more than one
    character once stripped, and free of the string the handlers ban. *)
Definition meaningful (detected_text : pyobj) : option string :=
  match detected_text with
  | OStr s =>
      if Py.truthy s
         && Py.truthy (Py.strip s)
         && (1 <? String.length (Py.strip s))%nat
         && negb (Py.contains "naotoeeeeeeiee" (Py.lower s))
      then Some s else None
  | _ => None
  end.

(** The two loops of [ocr_task] over the PaddleOCR result: the texts kept,
    in order. *)
Fixpoint ocr_line_parts (line : list pyobj) : list string :=
  match line with
  | [] => []
  | item :: rest =>
      match detection item with
      | Some (_, detected_text, _) =>
          match meaningful detected_text with
          | Some s => s :: ocr_line_parts rest
          | None => ocr_line_parts rest
          end
      | None => ocr_line_parts rest
      end
  end.

Fixpoint ocr_text_parts (result : list (option (list pyobj))) : list string :=
  match result with
  | [] => []
  | None :: rest => ocr_text_parts rest
  | Some line :: rest => (ocr_line_parts line ++ ocr_text_parts rest)%list
  end.

(** The text [ocr_task] takes from a PaddleOCR result. *)
Definition paddle_text (result : paddle_result) : string :=
  match result with
  | None | Some [] | Some (None :: _) | Some (Some [] :: _) => "No text found in image"
  | Some lines =>
      match ocr_text_parts lines with
      | [] => "No text found in image"
      | text_parts => Py.join " " text_parts
      end
  end.

(** The POST to [/metrics/record]: whatever it raises is dropped. *)
Definition record_quietly (host : Host) (model_name : string) (latency : Q)
  (task : string) : M unit :=
  try_except (lift (metrics_post host model_name latency task))
    any_exception (fun _ => ret tt).

(** [ocr_task].  The first inner [try] returns the pytesseract reply
    ([Some]) or falls through to PaddleOCR ([None]); the exception the
    PaddleOCR handler raises is caught by the outer [except] at once. *)
Definition ocr_task (rt : Runtime) (host : Host) (request : TaskRequest) : M TaskReply :=
  start_time <- time rt ;;
  try_except
    (if negb (path_exists host (image_path request)) then
       ret (mkTaskReply (PStr "Image file not found") 0 "pytesseract")
     else
       returned <-
         try_except
           (_image <- lift (image_open host (image_path request)) ;;
            let text := first_text host (image_path request) psm_modes in
            if Py.truthy (Py.strip text) then
              now <- time rt ;;
              let latency := (now - start_time)%Q in
              _ <- record_quietly host "pytesseract" latency "OCR" ;;
              ret (Some (mkTaskReply (PStr (Py.strip text)) (round_ latency 4) "pytesseract"))
            else ret None)
           any_exception
           (fun _ => ret None) ;;
       match returned with
       | Some reply => ret reply
       | None =>
           try_except
             (result <- lift (paddle_ocr host (image_path request)) ;;
              let text := paddle_text result in
              now <- time rt ;;
              let latency := (now - start_time)%Q in
              _ <- record_quietly host "PaddleOCR" latency "OCR" ;;
              ret (mkTaskReply
                     (PStr (if Py.truthy (Py.strip text) then Py.strip text
                            else "No text found in image"))
                     (round_ latency 4) "PaddleOCR"))
             any_exception
             (fun _ => raise (Exception "Both pytesseract and PaddleOCR failed"))
       end)
    any_exception
    (fun _ =>
       now <- time rt ;;
       let latency := (now - start_time)%Q in
       ret (mkTaskReply (PStr "No text detected in image") (round_ latency 4) "pytesseract")).

(** One entry of [text_results] in [simocr_task]. *)
Record text_result : Type := mkTextResult {
  result_text : string;
  result_confidence : pyobj;
  result_bbox : pyobj
}.

(** The two loops of [simocr_task] over the PaddleOCR result. *)
Fixpoint simocr_line_results (line : list pyobj) : list text_result :=
  match line with
  | [] => []
  | item :: rest =>
      match detection item with
      | Some (bbox, detected_text, confidence) =>
          match meaningful detected_text with
          | Some s => mkTextResult s confidence bbox :: simocr_line_results rest
          | None => simocr_line_results rest
          end
      | None => simocr_line_results rest
      end
  end.

Fixpoint simocr_text_results (result : list (option (list pyobj))) : list text_result :=
  match result with
  | [] => []
  | None :: rest => simocr_text_results rest
  | Some line :: rest => (simocr_line_results line ++ simocr_text_results rest)%list
  end.

(** [simocr_task]: the 404 it raises for a missing file is raised inside
    its own [try]. *)
Definition simocr_task (rt : Runtime) (host : Host) (request : TaskRequest) : M TaskReply :=
  start_time <- time rt ;;
  try_except
    (if negb (path_exists host (image_path request)) then
       raise (HTTPException 404 "Image file not found")
     else
       result <- lift (paddle_ocr host (image_path request)) ;;
       let result_text :=
         match result with
         | None => "No text found in image"
         | Some [] => "No text found in image"
         | Some lines =>
             match simocr_text_results lines with
             | [] => "No text found in image"
             | text_results => Py.join " " (map result_text text_results)
             end
         end in
       now <- time rt ;;
       let latency := (now - start_time)%Q in
       ret (mkTaskReply (PStr result_text) (round_ latency 4) "PaddleOCR (Simple)"))
    any_exception
    (fun _ =>
       now <- time rt ;;
       let latency := (now - start_time)%Q in
       ret (mkTaskReply (PStr "No text detected in image") (round_ latency 4)
              "PaddleOCR (Simple)")).

Definition caption_task (rt : Runtime) (host : Host) (request : TaskRequest) : M TaskReply :=
  start_time <- time rt ;;
  try_except
    (caption <- lift (blip_caption host (image_path request)) ;;
     now <- time rt ;;
     let latency := (now - start_time)%Q in
     ret (mkTaskReply (PStr caption) (round_ latency 4) "BLIP-2"))
    any_exception
    (fun _ =>
       now <- time rt ;;
       let latency := (now - start_time)%Q in
       ret (mkTaskReply (PStr "Unable to generate image caption") (round_ latency 4) "BLIP-2")).

Definition vqa_task (rt : Runtime) (host : Host) (request : TaskRequest) : M TaskReply :=
  start_time <- time rt ;;
  try_except
    (answer <- lift (blip_answer host (image_path request) (question request)) ;;
     now <- time rt ;;
     let latency := (now - start_time)%Q in
     ret (mkTaskReply (PStr answer) (round_ latency 4) "BLIP-2"))
    any_exception
    (fun _ =>
       now <- time rt ;;
       let latency := (now - start_time)%Q in
       ret (mkTaskReply (PStr "Unable to answer visual question") (round_ latency 4) "BLIP-2")).

End tasks.

(* ================================================================== *)
(** * analyze.py: dispatch, the analyze request and the result lookup *)
(* ================================================================== *)

Module analyze.

Definition task_mapping : list (string * string) :=
  [("OCR", "pytesseract");
   ("Image Captioning", "caption");
   ("Visual QA", "vqa");
   ("Image Classification", "other");
   ("Object Detection", "other");
   ("Style Transfer", "other");
   ("Medical Diagnosis", "medical");
   ("Other", "other")].

(** [seq[i]] for the index [random.choice] drew. *)
Definition choice (seq : list string) (i : nat) : result string :=
  match nth_error seq i with
  | Some x => Ret x
  | None => Raise (Exception "IndexError: list index out of range")
  end.

(** Lines 133-152 of [handle_task]: the endpoint and [model_used] chosen
    for a task, [draw] being the index [random.choice] draws. *)
Definition route (task : string) (draw : nat) : result (string * string) :=
  let model_used := "pytesseract" in
  let endpoint :=
    match assoc task task_mapping with Some e => e | None => "other" end in
  if String.eqb task "OCR" then
    match choice ["ocr"; "simocr"] draw with
    | Raise e => Raise e
    | Ret endpoint =>
        if String.eqb endpoint "simocr" then Ret (endpoint, "simocr")
        else if String.eqb endpoint "ocr" then Ret (endpoint, "pytesseract")
        else Ret (endpoint, model_used)
    end
  else Ret (endpoint, model_used).

Definition handle_task (rt : Runtime) (task image_path question : string)
  : M (pyval * string) :=
  try_except
    ('(endpoint, model_used) <- lift (route task (randbelow rt 2)) ;;
     let url := "http://localhost:8000/task/" ++ endpoint in
     match client_post rt url image_path question with
     | Fault e => raise e
     | Response status_code _ body =>
         if (status_code =? 200)%Z then
           result_data <- lift body ;;
           result <- lift (get result_data "result" (PStr "Task completed successfully")) ;;
           ret (result, model_used)
         else
           ret (PStr ("Task handling failed with status " ++ Py.str_int status_code),
                model_used)
     end)
    any_exception
    (fun _ => ret (PStr "Task handling failed due to an error", "error")).

(** [os.path.basename] on a POSIX path. *)
Fixpoint basename (path : string) : string :=
  match path with
  | EmptyString => EmptyString
  | String c t =>
      if Ascii.eqb c "/" then basename t
      else if Py.contains "/" t then basename t
      else path
  end.

(** The JSON body [analyze_image] answers with. *)
Record Analysis : Type := mkAnalysis {
  analysis_id : string;
  analysis_task : string;
  analysis_question : string;
  analysis_filename : string;
  analysis_result : pyval;
  analysis_latency : Q;
  analysis_model : string
}.

Inductive reply : Type :=
| JSONResponse (status_code : Z) (error : string)
| Analyzed (body : Analysis).

(** Reading [logs.json] in [analyze_image]: an absent file and a file that
    fails to decode both give the empty list. *)
Definition read_logs (f : logs_json) : list LogEntry :=
  match f with
  | Missing => []
  | Corrupt => []
  | Logs entries => entries
  end.

(** [logs.append(log_entry)] and the [json.dump] that writes the file back. *)
Definition append_log (log_entry : LogEntry) : M unit :=
  fun w =>
    (Ret tt,
     mkWorld (probed w) (clock_reads w)
       (Logs (read_logs (logs_file w) ++ [log_entry])%list)).

Definition analyze_image (rt : Runtime)
  (question content_type filename : string) : M reply :=
  total_start_time <- time rt ;;
  if negb (existsb (String.eqb content_type) ["image/jpeg"; "image/png"]) then
    ret (JSONResponse 400 "Only JPG and PNG images are allowed")
  else
    '(file_path, image_context) <- lift (save_and_caption rt filename) ;;
    classification_start_time <- time rt ;;
    task <- ai_classifier.classify_task_with_qwen rt question (Some image_context) ;;
    now <- time rt ;;
    let _classification_latency := (now - classification_start_time)%Q in
    task_handling_start_time <- time rt ;;
    '(result, model_used) <- handle_task rt task file_path question ;;
    now <- time rt ;;
    let _task_latency := (now - task_handling_start_time)%Q in
    now <- time rt ;;
    let total_latency := (now - total_start_time)%Q in
    let log_entry :=
      mkLogEntry (uuid4 rt) (now_isoformat rt) task model_used
        (round_ total_latency 2) result in
    _ <- append_log log_entry ;;
    ret (Analyzed
           (mkAnalysis (log_id log_entry) task question (basename file_path)
              result total_latency model_used)).

(** [get_result]: the first row whose [id] is [result_id]. *)
Definition get_result (result_id : string) : M LogEntry :=
  fun w =>
    match logs_file w with
    | Missing => (Raise (HTTPException 404 "No results found"), w)
    | Corrupt => (Raise (Exception "JSONDecodeError"), w)
    | Logs logs =>
        match find (fun entry => String.eqb (log_id entry) result_id) logs with
        | Some result_entry => (Ret result_entry, w)
        | None =>
            (Raise (HTTPException 404 ("Result not found for ID: " ++ result_id)), w)
        end
    end.

End analyze.

(* ================================================================== *)
(** * qwen_api.py: the endpoint behind [/qwen/predict] *)
(* ================================================================== *)

Module qwen_api.

Record QwenRequest : Type := mkQwenRequest {
  prompt : string;
  max_tokens : option Z;
  temperature : option Q
}.

Record QwenResponse : Type := mkQwenResponse {
  response : string;
  latency : Q;
  model : string
}.

(** The [if]/[elif] chain of [predict] on the lower-cased prompt. *)
Definition response_text (prompt : string) : string :=
  if Py.any_in ["text"; "read"; "extract"; "ocr"; "words"] prompt then "OCR"
  else if Py.any_in ["describe"; "caption"; "what is this"] prompt then "Image Captioning"
  else if Py.any_in ["what color"; "how many"; "count"] prompt then "Visual QA"
  else if Py.any_in ["classify"; "category"; "type"] prompt then "Image Classification"
  else if Py.any_in ["objects"; "items"; "detect"] prompt then "Object Detection"
  else if Py.any_in ["style"; "art"; "transform"] prompt then "Style Transfer"
  else if Py.any_in ["medical"; "diagnosis"; "health"] prompt then "Medical Diagnosis"
  else "Other".

Definition predict (rt : Runtime) (request : QwenRequest) : M QwenResponse :=
  start_time <- time rt ;;
  try_except
    (let prompt := Py.lower (prompt request) in
     let response_text := response_text prompt in
     now <- time rt ;;
     let latency := (now - start_time)%Q in
     ret (mkQwenResponse response_text (round_ latency 4) "qwen-api"))
    any_exception
    (fun _ => raise (HTTPException 500 "Model prediction error occurred")).

End qwen_api.

(* ================================================================== *)
(** * Sorting as Python sorts *)
(* ================================================================== *)

(** [sorted(seq, key=key)] and [seq.sort(key=key)] on rational keys: the
    result is ordered by key and items of equal key keep their order. *)
Fixpoint insert_by {A : Type} (key : A -> Q) (x : A) (sorted : list A) : list A :=
  match sorted with
  | [] => [x]
  | y :: rest =>
      if Qle_bool (key x) (key y) then x :: y :: rest
      else y :: insert_by key x rest
  end.

Definition sorted_by {A : Type} (key : A -> Q) (seq : list A) : list A :=
  fold_right (insert_by key) [] seq.

(* ================================================================== *)
(** * leaderboard.py: models by average latency *)
(* ================================================================== *)

Module leaderboard.

(** A value of [model_stats]: the keys [model], [total_latency], [runs]. *)
Record Stats : Type := mkStats {
  stats_model : string;
  total_latency : Q;
  runs : nat
}.

(** A row of the answer: the keys [model], [average_latency], [runs]. *)
Record Row : Type := mkRow {
  row_model : string;
  average_latency : Q;
  row_runs : nat
}.

(** One turn of the [for log in logs] loop on the [dict] [model_stats],
    kept in insertion order: a new model is entered with total 0 and no
    run, then the latency is added and the run counted. *)
Fixpoint count_run (fl : FloatArith) (model : string) (latency : Q)
  (model_stats : list (string * Stats)) : list (string * Stats) :=
  match model_stats with
  | [] => [(model, mkStats model (fadd fl 0 latency) 1)]
  | (k, stats) :: rest =>
      if String.eqb k model
      then (k, mkStats (stats_model stats) (fadd fl (total_latency stats) latency)
                 (S (runs stats))) :: rest
      else (k, stats) :: count_run fl model latency rest
  end.

Definition group (fl : FloatArith) (logs : list LogEntry) : list (string * Stats) :=
  fold_left
    (fun model_stats log => count_run fl (log_model log) (log_latency log) model_stats)
    logs [].

(** The rows before sorting. *)
Definition rows_of (fl : FloatArith) (model_stats : list (string * Stats)) : list Row :=
  map (fun entry =>
         let stats := snd entry in
         let avg_latency :=
           fdiv fl (total_latency stats) (inject_Z (Z.of_nat (runs stats))) in
         mkRow (fst entry) (fround fl avg_latency 2) (runs stats))
    model_stats.

(** [if task: logs = [log for log in logs if log["task"] == task]] *)
Definition filter_task (task : option string) (logs : list LogEntry) : list LogEntry :=
  match task with
  | Some t =>
      if Py.truthy t then filter (fun log => String.eqb (log_task log) t) logs else logs
  | None => logs
  end.

(** [str(e)] in the last handler; an [HTTPException] prints as its
    status code, a colon and its detail. *)
Definition str_of (e : exn) : string :=
  match e with
  | HTTPException status_code detail => Py.str_int status_code ++ ": " ++ detail
  | _ => str_exn e
  end.

(** [json.load] raised: the exception [get_result] lets through on a
    file that does not decode. *)
Definition is_JSONDecodeError (e : exn) : bool :=
  match e with
  | Exception m => String.eqb m "JSONDecodeError"
  | _ => false
  end.

(** The body of the [try]. *)
Definition leaderboard_of (fl : FloatArith) (task : option string) : M (list Row) :=
  fun w =>
    match logs_file w with
    | Missing => (Raise (HTTPException 500 "Logs file not found"), w)
    | Corrupt => (Raise (Exception "JSONDecodeError"), w)
    | Logs logs =>
        (Ret (sorted_by average_latency
                (rows_of fl (group fl (filter_task task logs)))), w)
    end.

(** [get_leaderboard]: of the two [except] clauses the first that matches
    handles the exception. *)
Definition get_leaderboard (fl : FloatArith) (task : option string) : M (list Row) :=
  try_except (leaderboard_of fl task)
    any_exception
    (fun e =>
       if is_JSONDecodeError e
       then raise (HTTPException 500 "Invalid JSON in logs file")
       else raise (HTTPException 500 (str_of e))).

End leaderboard.

(* ================================================================== *)
(** * metrics.py: the metrics kept in memory *)
(* ================================================================== *)

Module metrics.

Record ModelMetric : Type := mkModelMetric {
  model_name : string;
  latency : Q;
  timestamp : Q;
  task : string
}.

(** [record_metric]: the list [model_metrics] is passed in and handed
    back with the new metric at its end. *)
Definition record_metric (rt : Runtime) (model_name : string) (latency : Q)
  (task : string) (model_metrics : list ModelMetric)
  : M (string * list ModelMetric) :=
  now <- time rt ;;
  let metric := mkModelMetric model_name latency now task in
  ret ("Metric recorded successfully", (model_metrics ++ [metric])%list).

(** [model_fastest.get(name)] and [model_fastest[name] = metric] on a
    [dict] kept in insertion order. *)
Fixpoint put (metric : ModelMetric) (model_fastest : list (string * ModelMetric))
  : list (string * ModelMetric) :=
  match model_fastest with
  | [] => [(model_name metric, metric)]
  | (k, m) :: rest =>
      if String.eqb k (model_name metric) then (k, metric) :: rest
      else (k, m) :: put metric rest
  end.

(** One turn of the loop over [sorted_metrics]. *)
Definition keep_fastest (model_fastest : list (string * ModelMetric))
  (metric : ModelMetric) : list (string * ModelMetric) :=
  match assoc (model_name metric) model_fastest with
  | None => put metric model_fastest
  | Some known =>
      if negb (Qle_bool (latency known) (latency metric))
      then put metric model_fastest
      else model_fastest
  end.

(** A row of the leaderboard: the keys [model_name], [latency], [task]. *)
Record Fastest : Type := mkFastest {
  fastest_model_name : string;
  fastest_latency : Q;
  fastest_task : string
}.

Definition get_leaderboard (limit : Z) (model_metrics : list ModelMetric) : list Fastest :=
  let sorted_metrics := sorted_by latency model_metrics in
  let model_fastest := fold_left keep_fastest sorted_metrics [] in
  let fastest_models := Py.slice_to limit (sorted_by latency (map snd model_fastest)) in
  map (fun metric => mkFastest (model_name metric) (latency metric) (task metric))
    fastest_models.

(** A latency or [float('inf')]. *)
Inductive pyfloat : Type :=
| Inf
| Fin (q : Q).

(** [min(a, x)] and [max(a, x)]: the first argument unless the second is
    strictly smaller (larger). *)
Definition min_ (a : pyfloat) (x : Q) : pyfloat :=
  match a with
  | Inf => Fin x
  | Fin q => if negb (Qle_bool q x) then Fin x else Fin q
  end.

Definition max_ (a x : Q) : Q := if negb (Qle_bool x a) then x else a.

(** A value of [stats] while the metrics are read. *)
Record Running : Type := mkRunning {
  count : nat;
  total_latency : Q;
  min_latency : pyfloat;
  max_latency : Q
}.

(** The same with the average added. *)
Record ModelStats : Type := mkModelStats {
  running : Running;
  avg_latency : Q
}.

Fixpoint tally (fl : FloatArith) (metric : ModelMetric) (stats : list (string * Running))
  : list (string * Running) :=
  match stats with
  | [] =>
      [(model_name metric,
        mkRunning 1 (fadd fl 0 (latency metric)) (min_ Inf (latency metric))
          (max_ 0 (latency metric)))]
  | (k, r) :: rest =>
      if String.eqb k (model_name metric)
      then (k, mkRunning (S (count r)) (fadd fl (total_latency r) (latency metric))
                 (min_ (min_latency r) (latency metric))
                 (max_ (max_latency r) (latency metric))) :: rest
      else (k, r) :: tally fl metric rest
  end.

Definition get_model_stats (fl : FloatArith) (model_metrics : list ModelMetric)
  : list (string * ModelStats) :=
  let stats := fold_left (fun stats metric => tally fl metric stats) model_metrics [] in
  map (fun entry =>
         (fst entry,
          mkModelStats (snd entry)
            (fdiv fl (total_latency (snd entry))
               (inject_Z (Z.of_nat (count (snd entry)))))))
    stats.

End metrics.

(* ================================================================== *)
(** * Notions used to state the properties *)
(* ================================================================== *)

(** The value a computation returns and the world it leaves. *)
Definition value {A : Type} (r : result A * World) : result A := fst r.
Definition world {A : Type} (r : result A * World) : World := snd r.

(** The characters the normalizer removes. *)
Definition punctuation : list ascii := ["."; ","; "?"; "!"]%char.

(** Removing the punctuation characters from a text. *)
Fixpoint strip (s : string) : string :=
  match s with
  | EmptyString => EmptyString
  | String c t =>
      if existsb (Ascii.eqb c) punctuation then strip t else String c (strip t)
  end.

(** The text the normalizer searches: punctuation stripped, then
    lower-cased. *)
Definition normal_form (raw : string) : string := Py.lower (strip raw).

(** A raw response mentions a label when the label's lower-cased display
    string is a substring of the normal form of the response. *)
Definition mentions (raw label : string) : Prop :=
  Py.occurs (Py.lower label) (normal_form raw).

(** A HEAD probe of [url], issued after the probes [history], answers with
    a status code below 500. *)
Definition reachable (rt : Runtime) (history : list string) (url : string) : Prop :=
  exists status_code text body,
    session_head rt history url = Response status_code text body
    /\ (status_code < 500)%Z.

(** The world after the URLs [urls] have been probed in turn. *)
Definition after_probes (w : World) (urls : list string) : World :=
  mkWorld (probed w ++ urls)%list (clock_reads w) (logs_file w).

(** The three numeric settings [get_cerebras_config] converts are
    well-formed. *)
Definition cerebras_settings_parse (rt : Runtime) : Prop :=
  (exists n, int_ rt (getenv rt "CEREBRAS_MAX_TOKENS" "100") = Ret n)
  /\ (exists x, float_ rt (getenv rt "CEREBRAS_TEMPERATURE" "0.7") = Ret x)
  /\ (exists n, int_ rt (getenv rt "CEREBRAS_TIMEOUT" "30") = Ret n).

(** The candidate URLs of the Cerebras client built from the environment. *)
Definition cerebras_candidates (rt : Runtime) : list string :=
  [getenv rt "CEREBRAS_API_URL" "https://api.cerebras.com/v1/chat/completions";
   "https://api.cerebras.com/v1/completions";
   "https://api.cerebras.com/chat/completions";
   "https://api.cerebras.com/completions";
   "https://cerebras-api.com/v1/chat/completions";
   "https://cerebras-api.com/v1/completions"].

(** The feature flag [USE_CEREBRAS_QWEN]. *)
Definition cerebras_selected (rt : Runtime) : bool :=
  String.eqb (Py.lower (getenv rt "USE_CEREBRAS_QWEN" "false")) "true".

(** The Qwen API tier fails: the request faults or answers with a status
    other than 200. *)
Definition qwen_api_fails (rt : Runtime) : Prop :=
  forall url prompt,
    match requests_post rt url prompt with
    | Fault _ => True
    | Response status_code _ _ => status_code <> 200%Z
    end.

(** The local Qwen tier fails: loading or running the model raises. *)
Definition qwen_local_fails (rt : Runtime) : Prop :=
  forall prompt, exists e, qwen_local rt prompt = Raise e.

(** No Cerebras endpoint answers a probe. *)
Definition cerebras_unreachable (rt : Runtime) : Prop :=
  forall history url, In url (cerebras_candidates rt) -> ~ reachable rt history url.

(** Every call to a task handler raises. *)
Definition handler_throws (rt : Runtime) : Prop :=
  forall url image_path question,
    exists e, client_post rt url image_path question = Fault e.

(** Clock readings never decrease. *)
Definition clock_monotone (rt : Runtime) : Prop :=
  forall i j, (i <= j)%nat -> (time_time rt i <= time_time rt j)%Q.

(** The ids of the rows of [logs.json]. *)
Definition ids (f : logs_json) : list string := map log_id (analyze.read_logs f).

(** [w'] comes after [w] in a run that left [logs.json] alone: the file is
    the same and no clock reading was given back. *)
Definition later (w w' : World) : Prop :=
  logs_file w' = logs_file w /\ (clock_reads w <= clock_reads w')%nat.

(** A computation that leaves [logs.json] alone, whether it returns or
    raises. *)
Definition quiet {A : Type} (c : M A) : Prop :=
  forall w, later w (world (c w)).

(** Run from [w], the computation returns a value satisfying [Q]. *)
Definition returns {A : Type} (c : M A) (w : World) (Q : A -> Prop) : Prop :=
  exists a w', c w = (Ret a, w') /\ Q a.

(** Run from [w], the computation raises or returns a value satisfying [Q]. *)
Definition ensures {A : Type} (c : M A) (w : World) (Q : A -> Prop) : Prop :=
  match c w with
  | (Ret a, _) => Q a
  | (Raise _, _) => True
  end.

(* ------------------------------------------------------------------ *)
(** ** Sample runtimes and worlds *)
(* ------------------------------------------------------------------ *)

Definition world0 : World := mkWorld [] 0 Missing.

(** Nothing answers: every request faults and the local model is not
    installed. *)
Definition offline : Runtime :=
  {| environ := fun _ => None;
     int_ := fun _ => Ret 100%Z;
     float_ := fun _ => Ret (7 # 10);
     session_head := fun _ _ => Fault (ConnectionError "connection refused");
     session_post := fun _ _ => Fault (ConnectionError "connection refused");
     requests_post := fun _ _ => Fault (ConnectionError "connection refused");
     qwen_local := fun _ => Raise (Exception "OSError: qwen-model is not a local folder");
     client_post := fun _ _ _ => Fault (ConnectionError "connection refused");
     randbelow := fun _ => 0%nat;
     time_time := fun k => inject_Z (Z.of_nat k);
     uuid4 := "0b4f6c1e";
     now_isoformat := "2024-01-01T00:00:00";
     save_and_caption := fun f => Ret ("/srv/uploads/" ++ f, "a red stop sign");
     resnet_prepare := fun _ => Ret tt;
     resnet_forward := fun _ => Ret tt |}.

(** [rt] with other environment variables. *)
Definition with_environ (rt : Runtime) (env : string -> option string) : Runtime :=
  {| environ := env;
     int_ := int_ rt; float_ := float_ rt;
     session_head := session_head rt; session_post := session_post rt;
     requests_post := requests_post rt; qwen_local := qwen_local rt;
     client_post := client_post rt; randbelow := randbelow rt;
     time_time := time_time rt; uuid4 := uuid4 rt;
     now_isoformat := now_isoformat rt;
     save_and_caption := save_and_caption rt;
     resnet_prepare := resnet_prepare rt; resnet_forward := resnet_forward rt |}.

(** [rt] with another Cerebras server. *)
Definition with_cerebras (rt : Runtime)
  (head : list string -> string -> http) (post : string -> string -> http) : Runtime :=
  {| environ := environ rt;
     int_ := int_ rt; float_ := float_ rt;
     session_head := head; session_post := post;
     requests_post := requests_post rt; qwen_local := qwen_local rt;
     client_post := client_post rt; randbelow := randbelow rt;
     time_time := time_time rt; uuid4 := uuid4 rt;
     now_isoformat := now_isoformat rt;
     save_and_caption := save_and_caption rt;
     resnet_prepare := resnet_prepare rt; resnet_forward := resnet_forward rt |}.

(** The environment that selects the Cerebras tier. *)
Definition cerebras_env (name : string) : option string :=
  if String.eqb name "USE_CEREBRAS_QWEN" then Some "true" else None.

(** Offline, with the Cerebras tier selected. *)
Definition offline_cerebras : Runtime := with_environ offline cerebras_env.

(** The Cerebras tier selected and answering; the completion it returns
    starts with the words of the client's own generic fallback text. *)
Definition busy_cerebras : Runtime :=
  with_cerebras offline_cerebras
    (fun _ _ => Response 200 "" (Raise (Exception "no body")))
    (fun _ _ =>
       Response 200 ""
         (Ret (JDict [("text", PStr "Fallback response: the model is busy")]))).

(** The body a handler reply is serialised to. *)
Definition reply_body (result : pyval) (model_name : string) : json :=
  JDict [("result", result); ("latency", PNonStr); ("model_name", PStr model_name)].

(** The Qwen API answers Medical Diagnosis, and the medical handler answers
    with a class index and its model name. *)
Definition clinic : Runtime :=
  {| environ := fun _ => None;
     int_ := fun _ => Ret 100%Z;
     float_ := fun _ => Ret (7 # 10);
     session_head := fun _ _ => Fault (ConnectionError "connection refused");
     session_post := fun _ _ => Fault (ConnectionError "connection refused");
     requests_post := fun _ _ =>
       Response 200 "" (Ret (JDict [("response", PStr "Medical Diagnosis")]));
     qwen_local := fun _ => Raise (Exception "OSError: qwen-model is not a local folder");
     client_post := fun url _ _ =>
       if String.eqb url "http://localhost:8000/task/medical"
       then Response 200 "" (Ret (reply_body PNonStr "ResNet-50"))
       else Response 404 "Not Found" (Raise (Exception "JSONDecodeError"));
     randbelow := fun _ => 1%nat;
     time_time := fun k => inject_Z (Z.of_nat k);
     uuid4 := "5d0c2a77";
     now_isoformat := "2024-01-01T00:00:00";
     save_and_caption := fun f => Ret ("/srv/uploads/" ++ f, "a chest x-ray");
     resnet_prepare := fun _ => Ret tt;
     resnet_forward := fun _ => Ret tt |}.

(** A Cerebras deployment whose primary URL answers 503, whose first
    fallback times out and whose second fallback answers 404. *)
Definition flaky_head (history : list string) (url : string) : http :=
  if String.eqb url "https://api.cerebras.com/v1/chat/completions"
  then Response 503 "Service Unavailable" (Raise (Exception "no body"))
  else if String.eqb url "https://api.cerebras.com/v1/completions"
  then Fault (Timeout "timed out after 5 seconds")
  else Response 404 "Not Found" (Raise (Exception "no body")).

Definition flaky : Runtime :=
  with_cerebras offline_cerebras flaky_head
    (fun _ _ => Response 404 "Not Found" (Raise (Exception "no body"))).

Definition default_config : cerebras_qwen.CerebrasConfig :=
  cerebras_qwen.mkCerebrasConfig
    "https://api.cerebras.com/v1/chat/completions" None "qwen-7b" 100 (7 # 10) 30
    ["https://api.cerebras.com/v1/completions";
     "https://api.cerebras.com/chat/completions";
     "https://api.cerebras.com/completions";
     "https://cerebras-api.com/v1/chat/completions";
     "https://cerebras-api.com/v1/completions"].

(** The two identities an OCR dispatch can take: endpoint and model. *)
Definition ocr_identity : string * string := ("ocr", "pytesseract").
Definition simocr_identity : string * string := ("simocr", "simocr").

(* ------------------------------------------------------------------ *)
(** ** Further notions *)
(* ------------------------------------------------------------------ *)

(** The world after one more clock reading. *)
Definition tick (w : World) : World :=
  mkWorld (probed w) (S (clock_reads w)) (logs_file w).

(** The answer [call_qwen_model_api] reads out of a decoded body: the
    field [response], else the field [text], else a fixed text. *)
Definition api_answer (fields : list (string * pyval)) : pyval :=
  match assoc "response" fields with
  | Some v => v
  | None =>
      match assoc "text" fields with
      | Some v => v
      | None => PStr "No response text"
      end
  end.

(** The three numeric settings [call_qwen_model_api] converts are
    well-formed. *)
Definition qwen_settings_parse (rt : Runtime) : Prop :=
  (exists n, int_ rt (getenv rt "QWEN_MAX_TOKENS" "100") = Ret n)
  /\ (exists x, float_ rt (getenv rt "QWEN_TEMPERATURE" "0.7") = Ret x)
  /\ (exists n, int_ rt (getenv rt "QWEN_API_TIMEOUT" "30") = Ret n).

(** The URL [call_qwen_model_api] posts to. *)
Definition qwen_api_url (rt : Runtime) : string :=
  getenv rt "QWEN_API_URL" "http://localhost:8000/qwen/predict".

(** The Qwen API is the application's own [/qwen/predict]: a request is
    answered with status 200 and the response [predict] computes for the
    prompt sent. *)
Definition served_by_predict (rt : Runtime) : Prop :=
  forall url prompt,
    exists text latency,
      requests_post rt url prompt
      = Response 200 text
          (Ret (JDict [("response", PStr (qwen_api.response_text (Py.lower prompt)));
                       ("latency", latency);
                       ("model", PStr "qwen-api")])).

(** No completion request of the Cerebras client is answered with status
    200: it is answered with another status or fails with an exception of
    [requests]. *)
Definition cerebras_never_completes (rt : Runtime) : Prop :=
  forall url prompt,
    match session_post rt url prompt with
    | Response status_code _ _ => status_code <> 200%Z
    | Fault e => is_RequestException e = true
    end.

(** [rt] with another Qwen API and another local model. *)
Definition with_qwen (rt : Runtime)
  (post : string -> string -> http) (local : string -> result string) : Runtime :=
  {| environ := environ rt;
     int_ := int_ rt; float_ := float_ rt;
     session_head := session_head rt; session_post := session_post rt;
     requests_post := post; qwen_local := local;
     client_post := client_post rt; randbelow := randbelow rt;
     time_time := time_time rt; uuid4 := uuid4 rt;
     now_isoformat := now_isoformat rt;
     save_and_caption := save_and_caption rt;
     resnet_prepare := resnet_prepare rt; resnet_forward := resnet_forward rt |}.

(** The default deployment: the Qwen API is [/qwen/predict] itself. *)
Definition self_served : Runtime :=
  with_qwen offline
    (fun _ prompt =>
       Response 200 ""
         (Ret (JDict [("response", PStr (qwen_api.response_text (Py.lower prompt)));
                      ("latency", PNonStr);
                      ("model", PStr "qwen-api")])))
    (qwen_local offline).

(** A Qwen API that answers without the field [response]. *)
Definition terse_api : Runtime :=
  with_qwen offline
    (fun _ _ => Response 200 "" (Ret (JDict [("text", PStr "It is Visual QA.")])))
    (qwen_local offline).

(** The Qwen API is down and the local model answers. *)
Definition local_only : Runtime :=
  with_qwen offline (requests_post offline)
    (fun _ => Ret "Task: Object Detection").

(** The Cerebras tier selected; its endpoint answers the probes and
    refuses the completion with status 401. *)
Definition unauthorized_cerebras : Runtime :=
  with_cerebras offline_cerebras
    (fun _ _ => Response 200 "" (Raise (Exception "no body")))
    (fun _ _ => Response 401 "invalid api key" (Raise (Exception "no body"))).

(** Every keyword of [mock_classify_task], in the order the groups are
    tested. *)
Definition mock_keywords : list string :=
  (ai_classifier.medical_keywords ++ ai_classifier.ocr_keywords
   ++ ai_classifier.classification_keywords ++ ai_classifier.object_keywords
   ++ ai_classifier.style_keywords ++ ai_classifier.caption_keywords
   ++ ai_classifier.vqa_keywords)%list.

(** The question starts with one of the three question words. *)
Definition question_word (question_lower : string) : bool :=
  Py.startswith question_lower "what"
  || Py.startswith question_lower "where"
  || Py.startswith question_lower "how".

(** No message of the list is from the user. *)
Definition no_user (messages : list chat_message) : Prop :=
  forall m, In m messages -> role m <> Some "user".

(** The primary URL of the Cerebras client. *)
Definition cerebras_primary (rt : Runtime) : string :=
  getenv rt "CEREBRAS_API_URL" "https://api.cerebras.com/v1/chat/completions".

(** The search of the Cerebras client from the world [w]: [url] is the
    first of its candidates whose probe answers with a status below 500,
    each candidate being probed after the ones before it; or no candidate
    does. *)
Definition first_reachable (rt : Runtime) (w : World) (url : string) : Prop :=
  exists pre post,
    cerebras_candidates rt = (pre ++ url :: post)%list
    /\ (forall i u, nth_error pre i = Some u ->
                    ~ reachable rt (probed w ++ firstn i pre)%list u)
    /\ reachable rt (probed w ++ pre)%list url.

Definition none_reachable (rt : Runtime) (w : World) : Prop :=
  forall i u,
    nth_error (cerebras_candidates rt) i = Some u ->
    ~ reachable rt (probed w ++ firstn i (cerebras_candidates rt))%list u.

(** The Cerebras tier selected; only the second candidate answers the
    probe. *)
Definition second_cerebras : Runtime :=
  with_cerebras offline_cerebras
    (fun _ url =>
       if String.eqb url "https://api.cerebras.com/v1/completions"
       then Response 200 "" (Raise (Exception "no body"))
       else Fault (ConnectionError "connection refused"))
    (fun _ _ => Fault (ConnectionError "connection refused")).

(** A host on which nothing is installed and nothing answers. *)
Definition bare_host : Host :=
  {| chat_post := fun _ _ => ChatFault (ConnectionError "connection refused");
     path_exists := fun _ => false;
     image_open := fun _ => Raise (Exception "FileNotFoundError");
     image_to_string := fun _ _ => Raise (Exception "TesseractNotFoundError");
     paddle_ocr := fun _ => Raise (Exception "RuntimeError: model not found");
     metrics_post := fun _ _ _ => Raise (Exception "ConnectError");
     blip_caption := fun _ => Raise (Exception "OSError: Salesforce/BLIP-2 not found");
     blip_answer := fun _ _ => Raise (Exception "OSError: Salesforce/BLIP-2 not found") |}.

(** [host] with another chat server. *)
Definition with_chat (host : Host)
  (post : string -> list chat_message -> chat_http) : Host :=
  {| chat_post := post;
     path_exists := path_exists host;
     image_open := image_open host;
     image_to_string := image_to_string host;
     paddle_ocr := paddle_ocr host;
     metrics_post := metrics_post host;
     blip_caption := blip_caption host;
     blip_answer := blip_answer host |}.

(** A chat server that answers with a completion. *)
Definition chatty_host : Host :=
  with_chat bare_host
    (fun _ _ =>
       ChatResponse 200 ""
         (Ret (JObject
                 [("choices",
                   JArray [JObject [("message",
                                     JObject [("role", JString "assistant");
                                              ("content", JString "Hello!")])]])]))).

(** A chat server that answers with no choice. *)
Definition mute_host : Host :=
  with_chat bare_host
    (fun _ _ => ChatResponse 200 "" (Ret (JObject [("choices", JArray [])]))).

(** A chat server that refuses every completion with status 503. *)
Definition down_host : Host :=
  with_chat bare_host
    (fun _ _ => ChatResponse 503 "overloaded" (Raise (Exception "no body"))).

(** A conversation. *)
Definition conversation : list chat_message :=
  [mkMessage (Some "system") (Some "You are a helpful assistant.");
   mkMessage (Some "user") (Some "What is in this image?");
   mkMessage (Some "assistant") (Some "A red stop sign.")].

(** A handler behind [/task/vqa] that answers with status 503, and one
    behind the other routes that answers 200 without a result. *)
Definition overloaded : Runtime :=
  {| environ := environ offline;
     int_ := int_ offline; float_ := float_ offline;
     session_head := session_head offline; session_post := session_post offline;
     requests_post := requests_post offline; qwen_local := qwen_local offline;
     client_post := fun url _ _ =>
       if String.eqb url "http://localhost:8000/task/vqa"
       then Response 503 "Service Unavailable" (Raise (Exception "JSONDecodeError"))
       else Response 200 "{}" (Ret (JDict []));
     randbelow := randbelow offline;
     time_time := time_time offline; uuid4 := uuid4 offline;
     now_isoformat := now_isoformat offline;
     save_and_caption := save_and_caption offline;
     resnet_prepare := resnet_prepare offline;
     resnet_forward := resnet_forward offline |}.

(** The string the OCR handlers ban. *)
Definition banned_text : string := "naotoeeeeeeiee".


(** A detection as PaddleOCR builds it: the text and its confidence are a
    tuple. *)
Definition tuple_detection (item : pyobj) : Prop :=
  exists bbox detected_text confidence,
    item = OList [bbox; OTuple [detected_text; confidence]].

(** The texts of the detections of a PaddleOCR result are of ASCII
    characters. *)
Definition ascii_texts (lines : list (option (list pyobj))) : Prop :=
  forall line item bbox s confidence,
    In (Some line) lines -> In item line ->
    tasks.detection item = Some (bbox, OStr s, confidence) ->
    Py.isascii s = true.


(** A PaddleOCR result of one line with three detections: a sign, a
    single letter and a tuple-shaped one. *)
Definition sign_lines : list (option (list pyobj)) :=
  [Some [OList [OList []; OList [OStr "STOP"; OFloat (95 # 100)]];
         OList [OList []; OList [OStr " x "; OFloat (40 # 100)]];
         OList [OList []; OTuple [OStr "YIELD"; OFloat (90 # 100)]]]].

(** Arithmetic without rounding error, for the sample runs. *)
Definition exact_arithmetic : FloatArith :=
  {| fadd := Qplus; fdiv := Qdiv; fround := round_ |}.

(** The rows of a log that name a model, their number, and the sum of
    their latencies, added as [float]s in the order of the log starting
    from 0. *)
Definition rows_of_model (model : string) (logs : list LogEntry) : list LogEntry :=
  filter (fun log => String.eqb (log_model log) model) logs.

Definition runs_of (model : string) (logs : list LogEntry) : nat :=
  length (rows_of_model model logs).

Definition total_of (fl : FloatArith) (model : string) (logs : list LogEntry) : Q :=
  fold_left (fadd fl) (map log_latency (rows_of_model model logs)) 0.

(** A log of four runs of three models. *)
Definition sample_logs : list LogEntry :=
  [mkLogEntry "a1" "2024-01-01T00:00:00" "OCR" "pytesseract" (150 # 100) (PStr "STOP");
   mkLogEntry "a2" "2024-01-01T00:01:00" "OCR" "simocr" (50 # 100) (PStr "STOP");
   mkLogEntry "a3" "2024-01-01T00:02:00" "Visual QA" "pytesseract" (250 # 100) (PStr "red");
   mkLogEntry "a4" "2024-01-01T00:03:00" "Other" "error" (10 # 100)
     (PStr "Task handling failed due to an error")].

Definition sample_world : World := mkWorld [] 0 (Logs sample_logs).

(** The metrics recorded for a model, in the order they were recorded, and
    the model names recorded, each once. *)
Definition metrics_of (model : string) (model_metrics : list metrics.ModelMetric)
  : list metrics.ModelMetric :=
  filter (fun metric => String.eqb (metrics.model_name metric) model) model_metrics.

Definition models_of (model_metrics : list metrics.ModelMetric) : list string :=
  nodup string_dec (map metrics.model_name model_metrics).

(** Four metrics of three models. *)
Definition sample_metrics : list metrics.ModelMetric :=
  [metrics.mkModelMetric "pytesseract" (150 # 100) 1 "OCR";
   metrics.mkModelMetric "PaddleOCR" (320 # 100) 2 "OCR";
   metrics.mkModelMetric "pytesseract" (90 # 100) 3 "OCR";
   metrics.mkModelMetric "BLIP-2" (210 # 100) 4 "Visual QA"].

(** What a value of [stats] says of the metrics of its model: their
    number, the sum of their latencies added as [float]s from 0 in the
    order recorded, a smallest latency that one of them has, and a largest
    latency that is one of theirs or the 0 the search starts from. *)
Definition summarises (fl : FloatArith) (r : metrics.Running)
  (mine : list metrics.ModelMetric) : Prop :=
  metrics.count r = length mine
  /\ (1 <= metrics.count r)%nat
  /\ metrics.total_latency r = fold_left (fadd fl) (map metrics.latency mine) 0
  /\ (exists q,
        metrics.min_latency r = metrics.Fin q
        /\ (exists metric, In metric mine /\ metrics.latency metric = q)
        /\ forall metric, In metric mine -> (q <= metrics.latency metric)%Q)
  /\ (0 <= metrics.max_latency r)%Q
  /\ (forall metric, In metric mine -> (metrics.latency metric <= metrics.max_latency r)%Q)
  /\ (metrics.max_latency r = 0
      \/ exists metric, In metric mine /\ metrics.latency metric = metrics.max_latency r).

(* ================================================================== *)
(** * Lemmas on the string primitives *)
(* ================================================================== *)

Lemma append_nil_r (s : string) : s ++ "" = s.
Proof. induction s as [|c t IH]; simpl; [reflexivity | now rewrite IH]. Qed.

Lemma append_assoc (a b c : string) : (a ++ b) ++ c = a ++ (b ++ c).
Proof. induction a as [|x t IH]; simpl; [reflexivity | now rewrite IH]. Qed.

Lemma prefix_nil (s : string) : String.prefix "" s = true.
Proof. destruct s; reflexivity. Qed.

Lemma prefix_append (p rest : string) : String.prefix p (p ++ rest) = true.
Proof.
  induction p as [|c t IH]; simpl.
  - apply prefix_nil.
  - destruct (ascii_dec c c) as [_|Hne]; [exact IH | now elim Hne].
Qed.

Lemma prefix_split (p s : string) :
  String.prefix p s = true -> exists rest, s = p ++ rest.
Proof.
  revert s. induction p as [|c t IH]; intros s H.
  - exists s. reflexivity.
  - destruct s as [|d u]; simpl in H; [discriminate|].
    destruct (ascii_dec c d) as [->|_]; [|discriminate].
    destruct (IH u H) as [rest ->]. exists rest. reflexivity.
Qed.

Lemma contains_unfold (needle hay : string) :
  Py.contains needle hay =
  if String.prefix needle hay then true
  else match hay with
       | EmptyString => false
       | String _ t => Py.contains needle t
       end.
Proof. destruct hay; reflexivity. Qed.

Lemma contains_occurs (needle hay : string) :
  Py.contains needle hay = true <-> Py.occurs needle hay.
Proof.
  split.
  - induction hay as [|c t IH]; rewrite contains_unfold; intro H.
    + destruct (String.prefix needle "") eqn:E; [|discriminate].
      apply prefix_split in E. destruct E as [rest E].
      exists "", rest. exact E.
    + destruct (String.prefix needle (String c t)) eqn:E.
      * apply prefix_split in E. destruct E as [rest E].
        exists "", rest. exact E.
      * destruct (IH H) as (pre & post & ->).
        exists (String c pre), post. reflexivity.
  - intros (pre & post & ->). induction pre as [|c t IH].
    + rewrite contains_unfold. cbn [String.append].
      now rewrite prefix_append.
    + change (String c t ++ needle ++ post) with (String c (t ++ needle ++ post)).
      rewrite contains_unfold, IH. now destruct (String.prefix _ _).
Qed.

Lemma occurs_append_l (needle a b : string) :
  Py.occurs needle a -> Py.occurs needle (a ++ b).
Proof.
  intros (pre & post & ->). exists pre, (post ++ b).
  now rewrite !append_assoc.
Qed.

Lemma occurs_append_r (needle a b : string) :
  Py.occurs needle b -> Py.occurs needle (a ++ b).
Proof.
  intros (pre & post & ->). exists (a ++ pre), post.
  now rewrite !append_assoc.
Qed.

Lemma lower_append (a b : string) :
  Py.lower (a ++ b) = Py.lower a ++ Py.lower b.
Proof. induction a as [|c t IH]; simpl; [reflexivity | now rewrite IH]. Qed.

Lemma any_in_true (keywords : list string) (text : string) :
  Py.any_in keywords text = true <->
  exists k, In k keywords /\ Py.occurs k text.
Proof.
  unfold Py.any_in. rewrite existsb_exists.
  split; intros (k & Hin & H); exists k; split; auto; now apply contains_occurs.
Qed.

(** Lower-casing neither creates nor destroys a punctuation character. *)
Lemma lower_char_punctuation (c p : ascii) :
  In p punctuation -> Ascii.eqb (Py.lower_char c) p = Ascii.eqb c p.
Proof.
  intros Hp. simpl in Hp.
  destruct Hp as [<-|[<-|[<-|[<-|[]]]]];
    destruct c as [[] [] [] [] [] [] [] []]; reflexivity.
Qed.

Lemma replace_delete_cons (p c : ascii) (t : string) :
  Py.replace p "" (String c t)
  = if Ascii.eqb c p then Py.replace p "" t else String c (Py.replace p "" t).
Proof. reflexivity. Qed.

(** The four deletions of [clean], done in one pass. *)
Lemma delete_all_cons (c : ascii) (t : string) :
  let del s :=
    Py.replace "!" "" (Py.replace "?" "" (Py.replace "," "" (Py.replace "." "" s))) in
  del (String c t)
  = if existsb (Ascii.eqb c) punctuation then del t else String c (del t).
Proof.
  cbv zeta. unfold punctuation, existsb.
  rewrite replace_delete_cons.
  destruct (Ascii.eqb c ".") eqn:E1; [reflexivity|].
  rewrite replace_delete_cons.
  destruct (Ascii.eqb c ",") eqn:E2; [reflexivity|].
  rewrite replace_delete_cons.
  destruct (Ascii.eqb c "?") eqn:E3; [reflexivity|].
  rewrite replace_delete_cons.
  destruct (Ascii.eqb c "!") eqn:E4; reflexivity.
Qed.

(** The normalizer's text is the normal form: stripping and lower-casing
    commute. *)
Lemma clean_normal_form (response : string) :
  qwen_model.clean response = normal_form response.
Proof.
  unfold qwen_model.clean, normal_form.
  induction response as [|c t IH]; [reflexivity|].
  cbn [Py.lower strip].
  rewrite delete_all_cons.
  assert (E : existsb (Ascii.eqb (Py.lower_char c)) punctuation
              = existsb (Ascii.eqb c) punctuation).
  { unfold punctuation, existsb.
    rewrite !lower_char_punctuation by (simpl; tauto). reflexivity. }
  rewrite E. destruct (existsb (Ascii.eqb c) punctuation).
  - exact IH.
  - cbn [Py.lower]. now rewrite IH.
Qed.

(* ================================================================== *)
(** * The response normalizer *)
(* ================================================================== *)

Section FirstTask.
Variable text : string.

Lemma first_task_hit (pre : list string) (task : string) (post : list string) :
  Py.contains (Py.lower task) text = true ->
  (forall l, In l pre -> Py.contains (Py.lower l) text = false) ->
  qwen_model.first_task (pre ++ task :: post)%list text = task.
Proof.
  intros Hhit Hpre. induction pre as [|l pre IH]; simpl.
  - now rewrite Hhit.
  - assert (Hl : Py.contains (Py.lower l) text = false) by (apply Hpre; now left).
    rewrite Hl. apply IH.
    intros l' Hin. apply Hpre. now right.
Qed.

Lemma first_task_miss (tasks : list string) :
  (forall l, In l tasks -> Py.contains (Py.lower l) text = false) ->
  qwen_model.first_task tasks text = "Other".
Proof.
  induction tasks as [|l tasks IH]; intros Hall; simpl; [reflexivity|].
  assert (Hl : Py.contains (Py.lower l) text = false) by (apply Hall; now left).
  rewrite Hl. apply IH.
  intros l' Hin. apply Hall. now right.
Qed.

Lemma first_hit_split (tasks : list string) :
  (exists l, In l tasks /\ Py.contains (Py.lower l) text = true) ->
  exists pre task post,
    tasks = (pre ++ task :: post)%list
    /\ Py.contains (Py.lower task) text = true
    /\ (forall l, In l pre -> Py.contains (Py.lower l) text = false).
Proof.
  induction tasks as [|l tasks IH]; intros (x & Hin & Hx); [contradiction|].
  destruct (Py.contains (Py.lower l) text) eqn:El.
  - exists [], l, tasks. repeat split; auto. intros ? [].
  - destruct Hin as [->|Hin]; [congruence|].
    destruct IH as (pre & task & post & -> & Ht & Hpre); [now exists x|].
    exists (l :: pre), task, post. repeat split; auto.
    intros l' [<-|Hl']; auto.
Qed.

End FirstTask.

(** C3. [parse_task_from_response] searches the response with the
    punctuation characters [.], [,], [?], [!] removed and the letters
    lower-cased, and returns the first label of the vocabulary, in its
    declared order, whose lower-cased display string occurs there: the
    result is always a label; the earliest mentioned label wins; a response
    that mentions exactly one label yields it; a response that mentions
    none yields [Other]. *)
Theorem parse_task_from_response_first_match (response : string) :
  let task := qwen_model.parse_task_from_response response in
  qwen_model.valid_tasks
  = ["OCR"; "Image Captioning"; "Visual QA"; "Image Classification";
     "Object Detection"; "Style Transfer"; "Medical Diagnosis"; "Other"]
  /\ qwen_model.clean response = Py.lower (strip response)
  /\ In task qwen_model.valid_tasks
  /\ ((exists label, In label qwen_model.valid_tasks /\ mentions response label) ->
      exists pre post,
        qwen_model.valid_tasks = (pre ++ task :: post)%list
        /\ mentions response task
        /\ forall label, In label pre -> ~ mentions response label)
  /\ (forall pre label post,
        qwen_model.valid_tasks = (pre ++ label :: post)%list ->
        mentions response label ->
        (forall earlier, In earlier pre -> ~ mentions response earlier) ->
        task = label)
  /\ (forall label,
        In label qwen_model.valid_tasks ->
        mentions response label ->
        (forall other, In other qwen_model.valid_tasks ->
                       mentions response other -> other = label) ->
        task = label)
  /\ ((forall label, In label qwen_model.valid_tasks -> ~ mentions response label) ->
      task = "Other").
Proof.
  cbv zeta. unfold qwen_model.parse_task_from_response, mentions.
  rewrite clean_normal_form. set (text := normal_form response).
  assert (Hno : forall l, ~ Py.occurs (Py.lower l) text ->
                          Py.contains (Py.lower l) text = false).
  { intros l H. destruct (Py.contains (Py.lower l) text) eqn:E; [|reflexivity].
    elim H. now apply contains_occurs. }
  assert (Hfirst : (exists label, In label qwen_model.valid_tasks
                                  /\ Py.occurs (Py.lower label) text) ->
          exists pre post,
            qwen_model.valid_tasks = (pre ++ qwen_model.first_task qwen_model.valid_tasks text :: post)%list
            /\ Py.occurs (Py.lower (qwen_model.first_task qwen_model.valid_tasks text)) text
            /\ forall label, In label pre -> ~ Py.occurs (Py.lower label) text).
  { intros (label & Hin & Hocc).
    destruct (first_hit_split text qwen_model.valid_tasks) as (pre & t & post & E & Ht & Hpre).
    { exists label. split; [exact Hin | now apply contains_occurs]. }
    exists pre, post. rewrite E at 2 3.
    rewrite (first_task_hit text pre t post Ht Hpre).
    repeat split; [exact E | now apply contains_occurs |].
    intros l Hl Hocc'. apply contains_occurs in Hocc'.
    rewrite (Hpre l Hl) in Hocc'. discriminate. }
  assert (Hnone : (forall label, In label qwen_model.valid_tasks ->
                                 ~ Py.occurs (Py.lower label) text) ->
                  qwen_model.first_task qwen_model.valid_tasks text = "Other").
  { intros H. apply first_task_miss. intros l Hl. apply Hno. now apply H. }
  split; [reflexivity|].
  split; [reflexivity|].
  split.
  { destruct (existsb (fun l => Py.contains (Py.lower l) text) qwen_model.valid_tasks) eqn:E.
    - apply existsb_exists in E. destruct E as (l & Hl & Hc).
      destruct Hfirst as (pre & post & E & _).
      { exists l. split; [exact Hl | now apply contains_occurs]. }
      rewrite E at 2. apply in_or_app. right. now left.
    - rewrite first_task_miss.
      + simpl. tauto.
      + intros l Hl. destruct (Py.contains (Py.lower l) text) eqn:Hc; [|reflexivity].
        assert (existsb (fun l => Py.contains (Py.lower l) text) qwen_model.valid_tasks = true)
          by (apply existsb_exists; now exists l).
        congruence. }
  split; [exact Hfirst|].
  split.
  { intros pre label post E Hocc Hpre. rewrite E.
    apply first_task_hit; [now apply contains_occurs|].
    intros l Hl. apply Hno. now apply Hpre. }
  split; [|exact Hnone].
  intros label Hin Hocc Huniq.
  destruct Hfirst as (pre & post & E & Ht & _); [now exists label|].
  apply Huniq; [|exact Ht].
  rewrite E at 2. apply in_or_app. right. now left.
Qed.

(** The response of the example mentions two labels; the earlier one in
    the vocabulary is returned. *)
Lemma parse_task_from_response_first_match_witness :
  qwen_model.parse_task_from_response "The task is Visual QA, or maybe OCR!" = "OCR".
Proof.
  destruct (parse_task_from_response_first_match "The task is Visual QA, or maybe OCR!")
    as (_ & _ & _ & _ & Hfirst & _).
  apply (Hfirst [] "OCR"
           ["Image Captioning"; "Visual QA"; "Image Classification";
            "Object Detection"; "Style Transfer"; "Medical Diagnosis"; "Other"]).
  - reflexivity.
  - exists "the task is visual qa or maybe ", "". reflexivity.
  - intros earlier [].
Defined.

(* ================================================================== *)
(** * The keyword classifier *)
(* ================================================================== *)

(** A medical keyword decides the label, whatever else the question holds. *)
Lemma mock_classify_task_medical (question keyword : string) :
  In keyword ai_classifier.medical_keywords ->
  Py.occurs keyword (Py.lower question) ->
  ai_classifier.mock_classify_task question = "Medical Diagnosis".
Proof.
  intros Hin Hocc. unfold ai_classifier.mock_classify_task.
  replace (Py.any_in ai_classifier.medical_keywords (Py.lower question)) with true;
    [reflexivity|].
  symmetry. apply any_in_true. now exists keyword.
Qed.

(** C9. In [mock_classify_task] the medical keywords are tested before the
    OCR keywords: a question that holds a keyword of each group is
    labelled Medical Diagnosis, and so is "read the patient's diagnosis". *)
Theorem mock_classify_task_medical_before_ocr :
  (forall question medical ocr,
      In medical ai_classifier.medical_keywords ->
      In ocr ai_classifier.ocr_keywords ->
      Py.occurs medical (Py.lower question) ->
      Py.occurs ocr (Py.lower question) ->
      ai_classifier.mock_classify_task question = "Medical Diagnosis"
      /\ ai_classifier.mock_classify_task question <> "OCR")
  /\ ai_classifier.mock_classify_task "read the patient's diagnosis" = "Medical Diagnosis".
Proof.
  split; [|reflexivity].
  intros question medical ocr Hm _ Hom _.
  rewrite (mock_classify_task_medical question medical Hm Hom).
  split; [reflexivity | discriminate].
Qed.

Lemma mock_classify_task_medical_before_ocr_witness :
  ai_classifier.mock_classify_task "Please READ the text in this patient chart"
  = "Medical Diagnosis".
Proof.
  destruct mock_classify_task_medical_before_ocr as [H _].
  apply (H "Please READ the text in this patient chart" "patient" "read").
  - simpl. tauto.
  - simpl. tauto.
  - exists "please read the text in this ", " chart". reflexivity.
  - exists "please ", " the text in this patient chart". reflexivity.
Defined.

(* ================================================================== *)
(** * The endpoint prober *)
(* ================================================================== *)

Lemma after_probes_nil (w : World) : after_probes w [] = w.
Proof. destruct w as [p c l]. unfold after_probes. simpl. now rewrite app_nil_r. Qed.

Lemma after_probes_app (w : World) (a b : list string) :
  after_probes (after_probes w a) b = after_probes w (a ++ b)%list.
Proof. unfold after_probes. simpl. now rewrite app_assoc. Qed.

(** One probe: it is recorded, it never raises, and it answers [True]
    exactly for a reachable URL. *)
Lemma test_endpoint_connectivity_spec (rt : Runtime) (url : string) (w : World) :
  exists ok,
    cerebras_qwen._test_endpoint_connectivity rt url w = (Ret ok, after_probes w [url])
    /\ (ok = true <-> reachable rt (probed w) url).
Proof.
  unfold cerebras_qwen._test_endpoint_connectivity, reachable, after_probes.
  destruct (session_head rt (probed w) url) as [e|status text body].
  - exists false. split; [reflexivity|].
    split; [discriminate|]. intros (s & t & b & H & _). discriminate.
  - exists (status <? 500)%Z. split; [reflexivity|].
    rewrite Z.ltb_lt. split.
    + intro H. now exists status, text, body.
    + intros (s & t & b & H & Hlt). now injection H as -> _ _.
Qed.

(** The loop over the candidates: it stops at the first reachable one, and
    the probes it issued are exactly the candidates up to that one. *)
Lemma try_urls_spec (rt : Runtime) (urls : list string) (w : World) :
  (exists pre url post,
      urls = (pre ++ url :: post)%list
      /\ (forall i u, nth_error pre i = Some u ->
                      ~ reachable rt (probed w ++ firstn i pre)%list u)
      /\ reachable rt (probed w ++ pre)%list url
      /\ cerebras_qwen.try_urls rt urls w
         = (Ret (Some url), after_probes w (pre ++ [url])%list))
  \/ ((forall i u, nth_error urls i = Some u ->
                   ~ reachable rt (probed w ++ firstn i urls)%list u)
      /\ cerebras_qwen.try_urls rt urls w = (Ret None, after_probes w urls)).
Proof.
  revert w. induction urls as [|url rest IH]; intro w.
  - right. split.
    + intros [|i] u H; discriminate.
    + simpl. unfold ret. now rewrite after_probes_nil.
  - cbn [cerebras_qwen.try_urls]. unfold bind.
    destruct (test_endpoint_connectivity_spec rt url w) as (ok & -> & Hok).
    destruct ok.
    + left. exists [], url, rest. repeat split.
      * intros [|i] u H; discriminate.
      * rewrite app_nil_r. now apply Hok.
    + assert (Hun : ~ reachable rt (probed w) url).
      { intro H. apply Hok in H. discriminate. }
      destruct (IH (after_probes w [url]))
        as [(pre & u & post & -> & Hpre & Hu & Hrun) | (Hall & Hrun)].
      * left. exists (url :: pre), u, post. repeat split.
        -- intros [|i] v Hv.
           ++ injection Hv as <-. simpl. now rewrite app_nil_r.
           ++ simpl in Hv. specialize (Hpre i v Hv).
              simpl in Hpre. rewrite <- app_assoc in Hpre. exact Hpre.
        -- simpl in Hu. rewrite <- app_assoc in Hu. exact Hu.
        -- rewrite Hrun. now rewrite after_probes_app.
      * right. split.
        -- intros [|i] v Hv.
           ++ injection Hv as <-. simpl. now rewrite app_nil_r.
           ++ simpl in Hv. specialize (Hall i v Hv).
              simpl in Hall. rewrite <- app_assoc in Hall. exact Hall.
        -- rewrite Hrun. now rewrite after_probes_app.
Qed.

(** C4. [_find_working_endpoint] probes the candidates in order.  It
    returns the first candidate whose probe answers with a status below
    500, a probe that raises counting as unreachable; the probes it issued
    are the candidates up to and including the returned one, so no later
    candidate is probed; when no candidate is reachable it returns [None]
    after probing each candidate once.  It never raises. *)
Theorem find_working_endpoint_first_reachable
  (rt : Runtime) (config : cerebras_qwen.CerebrasConfig) (w : World) :
  let urls := cerebras_qwen.api_url config :: cerebras_qwen.fallback_urls config in
  (forall url e,
      session_head rt (probed w) url = Fault e ->
      value (cerebras_qwen._test_endpoint_connectivity rt url w) = Ret false)
  /\ ((exists pre url post,
         urls = (pre ++ url :: post)%list
         /\ (forall i u, nth_error pre i = Some u ->
                         ~ reachable rt (probed w ++ firstn i pre)%list u)
         /\ reachable rt (probed w ++ pre)%list url
         /\ value (cerebras_qwen._find_working_endpoint rt config w) = Ret (Some url)
         /\ probed (world (cerebras_qwen._find_working_endpoint rt config w))
            = (probed w ++ pre ++ [url])%list)
      \/ ((forall i u, nth_error urls i = Some u ->
                       ~ reachable rt (probed w ++ firstn i urls)%list u)
          /\ value (cerebras_qwen._find_working_endpoint rt config w) = Ret None
          /\ probed (world (cerebras_qwen._find_working_endpoint rt config w))
             = (probed w ++ urls)%list)).
Proof.
  cbv zeta. split.
  { intros url e H. unfold cerebras_qwen._test_endpoint_connectivity, value.
    cbn [fst]. now rewrite H. }
  unfold cerebras_qwen._find_working_endpoint.
  destruct (try_urls_spec rt
              (cerebras_qwen.api_url config :: cerebras_qwen.fallback_urls config) w)
    as [(pre & url & post & E & Hpre & Hu & Hrun) | (Hall & Hrun)].
  - left. exists pre, url, post. rewrite Hrun. repeat split; assumption.
  - right. rewrite Hrun. repeat split; assumption.
Qed.

Lemma find_working_endpoint_first_reachable_witness :
  value (cerebras_qwen._test_endpoint_connectivity flaky
           "https://api.cerebras.com/v1/completions" world0) = Ret false.
Proof.
  refine (proj1 (find_working_endpoint_first_reachable flaky default_config world0)
            "https://api.cerebras.com/v1/completions"
            (Timeout "timed out after 5 seconds") _).
  reflexivity.
Defined.

(** On the flaky deployment the prober passes the 503 and the timeout,
    stops at the 404 and leaves the last three candidates alone. *)
Example find_working_endpoint_flaky :
  cerebras_qwen._find_working_endpoint flaky default_config world0
  = (Ret (Some "https://api.cerebras.com/chat/completions"),
     mkWorld ["https://api.cerebras.com/v1/chat/completions";
              "https://api.cerebras.com/v1/completions";
              "https://api.cerebras.com/chat/completions"] 0 Missing).
Proof. reflexivity. Qed.

(** With nothing reachable every candidate is probed once, in order. *)
Example find_working_endpoint_offline :
  cerebras_qwen._find_working_endpoint offline default_config world0
  = (Ret None,
     mkWorld ["https://api.cerebras.com/v1/chat/completions";
              "https://api.cerebras.com/v1/completions";
              "https://api.cerebras.com/chat/completions";
              "https://api.cerebras.com/completions";
              "https://cerebras-api.com/v1/chat/completions";
              "https://cerebras-api.com/v1/completions"] 0 Missing).
Proof. reflexivity. Qed.

(** A probe that raises makes its URL unreachable. *)
Lemma fault_unreachable (rt : Runtime) (history : list string) (url : string) (e : exn) :
  session_head rt history url = Fault e -> ~ reachable rt history url.
Proof. intros H (s & t & b & H' & _). congruence. Qed.

(** A probe answered with a server error makes its URL unreachable. *)
Lemma server_error_unreachable (rt : Runtime) (history : list string) (url : string)
  (status : Z) (text : string) (body : result json) :
  session_head rt history url = Response status text body ->
  (500 <= status)%Z -> ~ reachable rt history url.
Proof. intros H Hge (s & t & b & H' & Hlt). rewrite H in H'. injection H' as -> _ _. lia. Qed.

(* ================================================================== *)
(** * Reasoning about computations in [M] *)
(* ================================================================== *)

Lemma later_refl (w : World) : later w w.
Proof. split; [reflexivity | apply Nat.le_refl]. Qed.

Lemma later_trans (a b c : World) : later a b -> later b c -> later a c.
Proof. intros [E1 L1] [E2 L2]. split; [congruence | lia]. Qed.

Lemma quiet_ret {A : Type} (a : A) : quiet (ret a).
Proof. intro w. apply later_refl. Qed.

Lemma quiet_raise {A : Type} (e : exn) : quiet (@raise A e).
Proof. intro w. apply later_refl. Qed.

Lemma quiet_lift {A : Type} (r : result A) : quiet (lift r).
Proof. intro w. apply later_refl. Qed.

Lemma quiet_time (rt : Runtime) : quiet (time rt).
Proof. intro w. split; simpl; [reflexivity | lia]. Qed.

Lemma quiet_bind {A B : Type} (c : M A) (k : A -> M B) :
  quiet c -> (forall a, quiet (k a)) -> quiet (bind c k).
Proof.
  intros Hc Hk w. unfold bind. specialize (Hc w).
  destruct (c w) as [[a|e] w1]; simpl in Hc.
  - eapply later_trans; [exact Hc | apply Hk].
  - exact Hc.
Qed.

Lemma quiet_try_except {A : Type} (body : M A) (caught : exn -> bool) (handler : exn -> M A) :
  quiet body -> (forall e, quiet (handler e)) -> quiet (try_except body caught handler).
Proof.
  intros Hb Hh w. unfold try_except. specialize (Hb w).
  destruct (body w) as [[a|e] w1]; simpl in Hb; [exact Hb|].
  destruct (caught e); [|exact Hb].
  eapply later_trans; [exact Hb | apply Hh].
Qed.

Lemma quiet_test_endpoint (rt : Runtime) (url : string) :
  quiet (cerebras_qwen._test_endpoint_connectivity rt url).
Proof. intro w. split; simpl; [reflexivity | apply Nat.le_refl]. Qed.

Ltac quiet_step :=
  first
    [ apply quiet_ret | apply quiet_raise | apply quiet_lift | apply quiet_time
    | apply quiet_test_endpoint | apply quiet_bind | apply quiet_try_except
    | progress intros
    | match goal with
      | |- quiet (match ?x with _ => _ end) => destruct x
      | |- quiet (let _ := _ in _) => cbv zeta
      end ].

Ltac quiet_auto := repeat quiet_step.

Lemma returns_ret {A : Type} (a : A) (w : World) (Q : A -> Prop) :
  Q a -> returns (ret a) w Q.
Proof. intro H. now exists a, w. Qed.

Lemma returns_bind {A B : Type} (c : M A) (k : A -> M B) (w : World)
  (P : A -> Prop) (Q : B -> Prop) :
  returns c w P -> (forall a w', P a -> returns (k a) w' Q) -> returns (bind c k) w Q.
Proof.
  intros (a & w1 & E & Ha) Hk. unfold returns, bind. rewrite E.
  exact (Hk a w1 Ha).
Qed.

Lemma returns_weaken {A : Type} (c : M A) (w : World) (P Q : A -> Prop) :
  returns c w P -> (forall a, P a -> Q a) -> returns c w Q.
Proof. intros (a & w1 & E & Ha) H. exists a, w1. auto. Qed.

Lemma ensures_of_returns {A : Type} (c : M A) (w : World) (Q : A -> Prop) :
  returns c w Q -> ensures c w Q.
Proof. intros (a & w1 & E & Ha). unfold ensures. now rewrite E. Qed.

Lemma ensures_ret {A : Type} (a : A) (w : World) (Q : A -> Prop) :
  Q a -> ensures (ret a) w Q.
Proof. intro H. exact H. Qed.

Lemma ensures_raise {A : Type} (e : exn) (w : World) (Q : A -> Prop) :
  ensures (raise e) w Q.
Proof. exact I. Qed.

Lemma ensures_bind {A B : Type} (c : M A) (k : A -> M B) (w : World)
  (P : A -> Prop) (Q : B -> Prop) :
  ensures c w P -> (forall a w', P a -> ensures (k a) w' Q) -> ensures (bind c k) w Q.
Proof.
  unfold ensures, bind. intros Hc Hk.
  destruct (c w) as [[a|e] w1]; [|exact I].
  exact (Hk a w1 Hc).
Qed.

Lemma ensures_true {A : Type} (c : M A) (w : World) : ensures c w (fun _ => True).
Proof. unfold ensures. now destruct (c w) as [[a|e] w1]. Qed.

Lemma ensures_try_except {A : Type} (body : M A) (caught : exn -> bool)
  (handler : exn -> M A) (w : World) (Q : A -> Prop) :
  ensures body w Q -> (forall e w', ensures (handler e) w' Q) ->
  ensures (try_except body caught handler) w Q.
Proof.
  unfold ensures, try_except. intros Hb Hh.
  destruct (body w) as [[a|e] w1]; [exact Hb|].
  destruct (caught e); [apply Hh | exact I].
Qed.

(** A [try] whose handler catches everything and returns cannot raise. *)
Lemma returns_try_except_any {A : Type} (body : M A) (handler : exn -> M A)
  (w : World) (Q : A -> Prop) :
  ensures body w Q -> (forall e w', returns (handler e) w' Q) ->
  returns (try_except body any_exception handler) w Q.
Proof.
  unfold ensures, returns, try_except. intros Hb Hh.
  destruct (body w) as [[a|e] w1]; [now exists a, w1 | apply Hh].
Qed.

Lemma returns_time (rt : Runtime) (w : World) : returns (time rt) w (fun _ => True).
Proof. unfold returns, time. eauto. Qed.

(* ================================================================== *)
(** * The routers leave [logs.json] alone until the row is appended *)
(* ================================================================== *)

Create HintDb quiet.

Ltac quiet_calls := repeat first [ solve [ auto with quiet nocore ] | quiet_step ].

Lemma quiet_try_urls (rt : Runtime) (urls : list string) :
  quiet (cerebras_qwen.try_urls rt urls).
Proof.
  induction urls as [|url rest IH]; cbn [cerebras_qwen.try_urls]; quiet_auto.
  exact IH.
Qed.
#[local] Hint Resolve quiet_try_urls : quiet.

Lemma quiet_find_working_endpoint (rt : Runtime) (config : cerebras_qwen.CerebrasConfig) :
  quiet (cerebras_qwen._find_working_endpoint rt config).
Proof. apply quiet_try_urls. Qed.
#[local] Hint Resolve quiet_find_working_endpoint : quiet.

Lemma quiet_generate (rt : Runtime) (config : cerebras_qwen.CerebrasConfig) (prompt : string) :
  quiet (cerebras_qwen.generate rt config prompt).
Proof. unfold cerebras_qwen.generate. quiet_calls. Qed.
#[local] Hint Resolve quiet_generate : quiet.

Lemma quiet_get_cerebras_config (rt : Runtime) :
  quiet (cerebras_qwen.get_cerebras_config rt).
Proof. unfold cerebras_qwen.get_cerebras_config. quiet_calls. Qed.
#[local] Hint Resolve quiet_get_cerebras_config : quiet.

Lemma quiet_call_cerebras_qwen (rt : Runtime) (prompt : string) :
  quiet (cerebras_qwen.call_cerebras_qwen rt prompt).
Proof. unfold cerebras_qwen.call_cerebras_qwen. quiet_calls. Qed.
#[local] Hint Resolve quiet_call_cerebras_qwen : quiet.

Lemma quiet_classify_task_with_cerebras_qwen (rt : Runtime)
  (question : string) (image_context : option string) :
  quiet (cerebras_qwen.classify_task_with_cerebras_qwen rt question image_context).
Proof. unfold cerebras_qwen.classify_task_with_cerebras_qwen. quiet_calls. Qed.
#[local] Hint Resolve quiet_classify_task_with_cerebras_qwen : quiet.

Lemma quiet_call_qwen_model_api (rt : Runtime) (prompt : string) :
  quiet (qwen_model.call_qwen_model_api rt prompt).
Proof. unfold qwen_model.call_qwen_model_api. quiet_calls. Qed.
#[local] Hint Resolve quiet_call_qwen_model_api : quiet.

Lemma quiet_call_qwen_model_local (rt : Runtime) (prompt : string) :
  quiet (qwen_model.call_qwen_model_local rt prompt).
Proof. unfold qwen_model.call_qwen_model_local. quiet_calls. Qed.
#[local] Hint Resolve quiet_call_qwen_model_local : quiet.

Lemma quiet_qwen_tiers (rt : Runtime) (start_time : Q)
  (question : string) (image_context : option string) :
  quiet (ai_classifier.qwen_tiers rt start_time question image_context).
Proof. unfold ai_classifier.qwen_tiers. quiet_calls. Qed.
#[local] Hint Resolve quiet_qwen_tiers : quiet.

Lemma quiet_classify_task_with_qwen (rt : Runtime)
  (question : string) (image_context : option string) :
  quiet (ai_classifier.classify_task_with_qwen rt question image_context).
Proof. unfold ai_classifier.classify_task_with_qwen. quiet_calls. Qed.

Lemma handle_task_world (rt : Runtime) (task image_path question : string) (w : World) :
  world (analyze.handle_task rt task image_path question w) = w.
Proof.
  unfold analyze.handle_task, try_except, bind, lift, ret, raise, world.
  destruct (analyze.route task (randbelow rt 2)) as [[endpoint model_used]|e]; simpl;
    [|reflexivity].
  destruct (client_post rt _ image_path question) as [e|status text body]; simpl;
    [reflexivity|].
  destruct (status =? 200)%Z; [|reflexivity].
  destruct body as [j|e]; simpl; [|reflexivity].
  destruct (get j "result" _); reflexivity.
Qed.

(* ================================================================== *)
(** * The Cerebras tier *)
(* ================================================================== *)

(** The prompt of the classifier holds the words of its own template. *)
Lemma prompt_mentions_classify (question image : string) :
  Py.occurs "classify" (Py.lower (cerebras_qwen.prompt_of question image)).
Proof.
  unfold cerebras_qwen.prompt_of. rewrite lower_append.
  apply occurs_append_l. apply contains_occurs. reflexivity.
Qed.

Lemma prompt_mentions_ocr (question image : string) :
  Py.occurs "ocr" (Py.lower (cerebras_qwen.prompt_of question image)).
Proof.
  unfold cerebras_qwen.prompt_of. rewrite !lower_append.
  do 4 apply occurs_append_r. apply contains_occurs. reflexivity.
Qed.

(** On the classifier's prompt the rule-based fallback answers OCR. *)
Lemma fallback_response_prompt (question image : string) (error_msg : option string) :
  cerebras_qwen._fallback_response (cerebras_qwen.prompt_of question image) error_msg = "OCR".
Proof.
  unfold cerebras_qwen._fallback_response.
  replace (Py.contains "classify" (Py.lower (cerebras_qwen.prompt_of question image)))
    with true by (symmetry; apply contains_occurs, prompt_mentions_classify).
  replace (Py.any_in ["text"; "extract"; "read"; "ocr"]
             (Py.lower (cerebras_qwen.prompt_of question image)))
    with true; [reflexivity|].
  symmetry. apply any_in_true. exists "ocr". split; [simpl; tauto|].
  apply prompt_mentions_ocr.
Qed.

Lemma get_cerebras_config_parses (rt : Runtime) (w : World) :
  cerebras_settings_parse rt ->
  exists config,
    cerebras_qwen.get_cerebras_config rt w = (Ret config, w)
    /\ cerebras_qwen.api_url config :: cerebras_qwen.fallback_urls config
       = cerebras_candidates rt.
Proof.
  intros ((n1 & E1) & (x & E2) & (n2 & E3)).
  unfold cerebras_qwen.get_cerebras_config, bind, lift, ret.
  rewrite E1, E2, E3. eexists. split; reflexivity.
Qed.

Lemma try_urls_unreachable (rt : Runtime) (urls : list string) (w : World) :
  (forall history url, In url urls -> ~ reachable rt history url) ->
  cerebras_qwen.try_urls rt urls w = (Ret None, after_probes w urls).
Proof.
  intro Hun.
  destruct (try_urls_spec rt urls w)
    as [(pre & url & post & -> & _ & Hu & _) | (_ & Hrun)]; [|exact Hrun].
  elim (Hun (probed w ++ pre)%list url); [|exact Hu].
  apply in_or_app. right. now left.
Qed.

(** With no reachable endpoint the Cerebras tier answers OCR after one
    round of probes. *)
Lemma classify_task_with_cerebras_qwen_unreachable (rt : Runtime)
  (question : string) (image_context : option string) (w : World) :
  cerebras_settings_parse rt ->
  cerebras_unreachable rt ->
  cerebras_qwen.classify_task_with_cerebras_qwen rt question image_context w
  = (Ret "OCR", after_probes w (cerebras_candidates rt)).
Proof.
  intros Hcfg Hun.
  unfold cerebras_qwen.classify_task_with_cerebras_qwen,
    cerebras_qwen.call_cerebras_qwen, bind.
  destruct (get_cerebras_config_parses rt w Hcfg) as (config & -> & Eurls).
  unfold cerebras_qwen._find_working_endpoint. rewrite Eurls.
  rewrite (try_urls_unreachable rt (cerebras_candidates rt) w Hun).
  cbn [cerebras_qwen.found]. unfold ret, lift.
  rewrite fallback_response_prompt. reflexivity.
Qed.

(** C10. When no Cerebras endpoint is reachable (and the numeric settings
    of the client are well-formed), [classify_task_with_cerebras_qwen]
    returns OCR for every question and image context, and so does the
    cascade when the Cerebras tier is selected: the rule-based fallback
    scans the whole prompt, whose template always holds [classify] and
    [ocr]. *)
Theorem cerebras_unreachable_answers_ocr (rt : Runtime)
  (question : string) (image_context : option string) (w : World) :
  cerebras_settings_parse rt ->
  cerebras_unreachable rt ->
  let prompt :=
    cerebras_qwen.prompt_of question (cerebras_qwen.image_or_default image_context) in
  value (cerebras_qwen.classify_task_with_cerebras_qwen rt question image_context w)
  = Ret "OCR"
  /\ (cerebras_selected rt = true ->
      value (ai_classifier.classify_task_with_qwen rt question image_context w)
      = Ret "OCR")
  /\ Py.occurs "classify" (Py.lower prompt)
  /\ Py.occurs "ocr" (Py.lower prompt)
  /\ (forall error_msg, cerebras_qwen._fallback_response prompt error_msg = "OCR").
Proof.
  intros Hcfg Hun. cbv zeta.
  split; [|split; [|split; [|split]]].
  - now rewrite classify_task_with_cerebras_qwen_unreachable.
  - intro Hsel.
    unfold ai_classifier.classify_task_with_qwen, bind, time.
    unfold cerebras_selected in Hsel. rewrite Hsel.
    unfold try_except, bind.
    rewrite classify_task_with_cerebras_qwen_unreachable by assumption.
    reflexivity.
  - apply prompt_mentions_classify.
  - apply prompt_mentions_ocr.
  - intro error_msg. apply fallback_response_prompt.
Qed.

Lemma cerebras_unreachable_answers_ocr_witness :
  value (ai_classifier.classify_task_with_qwen offline_cerebras
           "what color is the car" None world0) = Ret "OCR".
Proof.
  assert (Hcfg : cerebras_settings_parse offline_cerebras)
    by (repeat split; eexists; reflexivity).
  assert (Hun : cerebras_unreachable offline_cerebras).
  { intros history url _ (s & t & b & H & _). simpl in H. discriminate. }
  destruct (cerebras_unreachable_answers_ocr offline_cerebras
              "what color is the car" None world0 Hcfg Hun)
    as (_ & H & _).
  apply H. reflexivity.
Defined.

(* ================================================================== *)
(** * The classifier cascade *)
(* ================================================================== *)

Lemma first_task_in_or_other (tasks : list string) (text : string) :
  In (qwen_model.first_task tasks text) tasks
  \/ qwen_model.first_task tasks text = "Other".
Proof.
  induction tasks as [|l tasks IH]; simpl; [now right|].
  destruct (Py.contains (Py.lower l) text); [left; now left|].
  destruct IH as [IH|IH]; [left; now right | now right].
Qed.

(** The normalizer never leaves the vocabulary. *)
Lemma parse_task_in_vocabulary (response : string) :
  In (qwen_model.parse_task_from_response response) qwen_model.valid_tasks.
Proof.
  unfold qwen_model.parse_task_from_response.
  destruct (first_task_in_or_other qwen_model.valid_tasks (qwen_model.clean response))
    as [H|H]; [exact H|].
  rewrite H. simpl. tauto.
Qed.

Lemma ensures_raises {A : Type} (c : M A) (w w' : World) (e : exn) (Q : A -> Prop) :
  c w = (Raise e, w') -> ensures c w Q.
Proof. intro E. unfold ensures. now rewrite E. Qed.

(** The inner [try] of the Qwen tiers returns a label of the vocabulary or
    falls through; it never raises. *)
Lemma qwen_api_tier_returns (rt : Runtime) (prompt : string) (w : World) :
  returns
    (try_except
       (value <- qwen_model.call_qwen_model_api rt prompt ;;
        response <- lift (as_str value) ;;
        if negb (Py.startswith response "Error:")
        then ret (Some (qwen_model.parse_task_from_response response))
        else ret None)
       any_exception
       (fun _ => ret None))
    w
    (fun returned =>
       match returned with
       | Some task => In task qwen_model.valid_tasks
       | None => True
       end).
Proof.
  apply returns_try_except_any.
  - eapply ensures_bind; [apply ensures_true|]. intros v w1 _.
    eapply ensures_bind; [apply ensures_true|]. intros response w2 _.
    destruct (negb (Py.startswith response "Error:")); apply ensures_ret;
      [apply parse_task_in_vocabulary | exact I].
  - intros e w1. now apply returns_ret.
Qed.

(** The Qwen tiers always return a label of the vocabulary. *)
Lemma qwen_tiers_returns_label (rt : Runtime) (start_time : Q)
  (question : string) (image_context : option string) (w : World) :
  returns (ai_classifier.qwen_tiers rt start_time question image_context) w
    (fun task => In task qwen_model.valid_tasks).
Proof.
  unfold ai_classifier.qwen_tiers. cbv zeta.
  eapply returns_bind with (P := fun task => In task qwen_model.valid_tasks).
  - apply returns_try_except_any.
    + eapply ensures_bind.
      * apply ensures_of_returns. apply qwen_api_tier_returns.
      * intros [task|] w1 H.
        -- apply ensures_ret. exact H.
        -- eapply ensures_bind; [apply ensures_true|]. intros response w2 _.
           apply ensures_ret. apply parse_task_in_vocabulary.
    + intros e w1. apply returns_ret. simpl. tauto.
  - intros task w1 Htask.
    eapply returns_bind; [apply returns_time|].
    intros now w2 _. now apply returns_ret.
Qed.

(** The cascade never raises: every [raise] below it is caught. *)
Lemma classify_task_with_qwen_returns (rt : Runtime)
  (question : string) (image_context : option string) (w : World) :
  returns (ai_classifier.classify_task_with_qwen rt question image_context) w
    (fun _ => True).
Proof.
  unfold ai_classifier.classify_task_with_qwen.
  eapply returns_bind; [apply returns_time|]. intros start_time w1 _.
  cbv zeta.
  destruct (String.eqb _ "true").
  - apply returns_try_except_any; [apply ensures_true|].
    intros e w2. eapply returns_weaken; [apply qwen_tiers_returns_label | auto].
  - eapply returns_weaken; [apply qwen_tiers_returns_label | auto].
Qed.

(** With the Cerebras tier not selected the cascade returns a label of the
    vocabulary. *)
Lemma classify_task_with_qwen_label (rt : Runtime)
  (question : string) (image_context : option string) (w : World) :
  cerebras_selected rt = false ->
  returns (ai_classifier.classify_task_with_qwen rt question image_context) w
    (fun task => In task qwen_model.valid_tasks).
Proof.
  intro Hsel. unfold ai_classifier.classify_task_with_qwen.
  eapply returns_bind; [apply returns_time|]. intros start_time w1 _.
  cbv zeta. unfold cerebras_selected in Hsel. rewrite Hsel.
  apply qwen_tiers_returns_label.
Qed.

(** When the API tier fails, [call_qwen_model_api] raises or returns a
    text that starts with [Error:]. *)
Lemma call_qwen_model_api_fails (rt : Runtime) (prompt : string) (w : World) :
  qwen_api_fails rt ->
  ensures (qwen_model.call_qwen_model_api rt prompt) w
    (fun v => exists s, v = PStr s /\ Py.startswith s "Error:" = true).
Proof.
  intro Hfail. unfold qwen_model.call_qwen_model_api. cbv zeta.
  eapply ensures_bind; [apply ensures_true|]. intros _m w1 _.
  eapply ensures_bind; [apply ensures_true|]. intros _t w2 _.
  apply ensures_try_except.
  - eapply ensures_bind; [apply ensures_true|]. intros _to w3 _.
    specialize (Hfail (getenv rt "QWEN_API_URL" "http://localhost:8000/qwen/predict") prompt).
    destruct (requests_post rt _ prompt) as [e|status text body].
    + apply ensures_raise.
    + apply Z.eqb_neq in Hfail. rewrite Hfail. apply ensures_ret.
      eexists. split; reflexivity.
  - intros e w3. apply ensures_ret.
    eexists. split; reflexivity.
Qed.

(** When the API tier and the local tier both fail, the Qwen tiers return
    Other. *)
Lemma qwen_tiers_fail_other (rt : Runtime) (start_time : Q)
  (question : string) (image_context : option string) (w : World) :
  qwen_api_fails rt -> qwen_local_fails rt ->
  returns (ai_classifier.qwen_tiers rt start_time question image_context) w
    (fun task => task = "Other").
Proof.
  intros Hapi Hlocal. unfold ai_classifier.qwen_tiers. cbv zeta.
  eapply returns_bind with (P := fun task => task = "Other").
  - apply returns_try_except_any.
    + eapply ensures_bind with (P := fun returned => returned = None).
      * apply ensures_of_returns. apply returns_try_except_any.
        -- eapply ensures_bind; [now apply call_qwen_model_api_fails|].
           intros v w1 (s & -> & Hs).
           unfold lift, as_str, ensures, bind. rewrite Hs. reflexivity.
        -- intros e w1. now apply returns_ret.
      * intros returned w1 ->.
        unfold qwen_model.call_qwen_model_local.
        destruct (Hlocal (ai_classifier.prompt_template_format question
                            (cerebras_qwen.image_or_default image_context))) as [e He].
        eapply ensures_raises. unfold bind, lift. rewrite He. reflexivity.
    + intros e w1. now apply returns_ret.
  - intros task w1 ->.
    eapply returns_bind; [apply returns_time|].
    intros now w2 _. now apply returns_ret.
Qed.

(** The copy of the normalizer in [cerebras_qwen.py] is the normalizer. *)
Lemma cerebras_parse_task_from_response (response : string) :
  cerebras_qwen.parse_task_from_response response
  = qwen_model.parse_task_from_response response.
Proof. reflexivity. Qed.

(** The Cerebras tier raises, returns a label of the vocabulary, or hands
    back a text that starts with [Fallback response:]. *)
Lemma classify_task_with_cerebras_qwen_ensures (rt : Runtime)
  (question : string) (image_context : option string) (w : World) :
  ensures (cerebras_qwen.classify_task_with_cerebras_qwen rt question image_context) w
    (fun task => In task qwen_model.valid_tasks
                 \/ Py.startswith task "Fallback response:" = true).
Proof.
  unfold cerebras_qwen.classify_task_with_cerebras_qwen. cbv zeta.
  eapply ensures_bind; [apply ensures_true|]. intros v w1 _.
  eapply ensures_bind; [apply ensures_true|]. intros response w2 _.
  destruct (Py.startswith response "Fallback response:") eqn:E; apply ensures_ret.
  - now right.
  - left. rewrite cerebras_parse_task_from_response.
    pose proof (parse_task_in_vocabulary response) as H.
    destruct (qwen_model.parse_task_from_response response) as [|c t];
      [simpl in H; intuition discriminate | exact H].
Qed.

(** What the cascade returns is a label of the vocabulary or such a
    text. *)
Lemma classify_task_with_qwen_label_or_text (rt : Runtime)
  (question : string) (image_context : option string) (w : World) :
  returns (ai_classifier.classify_task_with_qwen rt question image_context) w
    (fun task => In task qwen_model.valid_tasks
                 \/ Py.startswith task "Fallback response:" = true).
Proof.
  unfold ai_classifier.classify_task_with_qwen.
  eapply returns_bind; [apply returns_time|]. intros start_time w1 _.
  cbv zeta.
  destruct (String.eqb _ "true").
  - apply returns_try_except_any.
    + eapply ensures_bind; [apply classify_task_with_cerebras_qwen_ensures|].
      intros task w2 H.
      eapply ensures_bind; [apply ensures_true|]. intros now w3 _.
      now apply ensures_ret.
    + intros e w2. eapply returns_weaken; [apply qwen_tiers_returns_label|].
      intros task H. now left.
  - eapply returns_weaken; [apply qwen_tiers_returns_label|].
    intros task H. now left.
Qed.

(** C1. The cascade does not always return a label of the vocabulary, and
    its default on total failure is not always Other.  With the Cerebras
    tier selected and answering, a completion that starts with
    [Fallback response:] is returned unchanged by
    [classify_task_with_cerebras_qwen], and by [classify_task_with_qwen]
    after it: the value returned is not one of the eight labels.  With the
    Cerebras tier selected and nothing reachable, the cascade answers OCR.
    (The cascade never raises, and apart from such a text it always
    returns a label: [classify_task_with_qwen_label_or_text].) *)
Theorem classify_task_with_qwen_passes_fallback_text :
  cerebras_selected busy_cerebras = true
  /\ value (ai_classifier.classify_task_with_qwen busy_cerebras
              "what color is the car" (Some "a red car") world0)
     = Ret "Fallback response: the model is busy"
  /\ ~ In "Fallback response: the model is busy" qwen_model.valid_tasks
  /\ value (ai_classifier.classify_task_with_qwen offline_cerebras
              "what color is the car" (Some "a red car") world0)
     = Ret "OCR".
Proof.
  split; [reflexivity|]. split; [reflexivity|]. split; [|reflexivity].
  simpl. intros [H|[H|[H|[H|[H|[H|[H|[H|[]]]]]]]]]; discriminate.
Qed.

(** C2, as stated, fails: with every remote tier unreachable and the local
    model missing, the cascade answers Other for both questions of the
    claim, although the keyword classifier would answer Visual QA and
    OCR. *)
Lemma cascade_skips_keyword_classifier :
  cerebras_selected offline = false
  /\ qwen_api_fails offline
  /\ qwen_local_fails offline
  /\ value (ai_classifier.classify_task_with_qwen offline
              "what color is the car" None world0) = Ret "Other"
  /\ ai_classifier.mock_classify_task "what color is the car" = "Visual QA"
  /\ value (ai_classifier.classify_task_with_qwen offline
              "read the text on this sign" None world0) = Ret "Other"
  /\ ai_classifier.mock_classify_task "read the text on this sign" = "OCR"
  /\ ~ (forall rt question image_context w,
          qwen_api_fails rt -> qwen_local_fails rt ->
          (forall history url, ~ reachable rt history url) ->
          value (ai_classifier.classify_task_with_qwen rt question image_context w)
          = Ret (ai_classifier.mock_classify_task question)).
Proof.
  assert (Hapi : qwen_api_fails offline) by (intros url prompt; exact I).
  assert (Hlocal : qwen_local_fails offline) by (intro prompt; eexists; reflexivity).
  split; [reflexivity|]. split; [exact Hapi|]. split; [exact Hlocal|].
  do 4 (split; [reflexivity|]).
  intro H.
  specialize (H offline "what color is the car" None world0 Hapi Hlocal).
  assert (Hun : forall history url, ~ reachable offline history url).
  { intros history url (s & t & b & E & _). discriminate. }
  specialize (H Hun). vm_compute in H. discriminate.
Qed.

(** C2, amended. When the Cerebras tier is not selected and both Qwen
    tiers fail, the cascade returns Other for every question and image
    context; the keyword classifier is not consulted.  Called on its own,
    [mock_classify_task] labels "read the text on this sign" OCR and "what
    color is the car" Visual QA. *)
Theorem cascade_failure_returns_other (rt : Runtime)
  (question : string) (image_context : option string) (w : World) :
  cerebras_selected rt = false ->
  qwen_api_fails rt ->
  qwen_local_fails rt ->
  value (ai_classifier.classify_task_with_qwen rt question image_context w) = Ret "Other"
  /\ ai_classifier.mock_classify_task "read the text on this sign" = "OCR"
  /\ ai_classifier.mock_classify_task "what color is the car" = "Visual QA".
Proof.
  intros Hsel Hapi Hlocal. split; [|split; reflexivity].
  unfold ai_classifier.classify_task_with_qwen, bind, time.
  unfold cerebras_selected in Hsel. rewrite Hsel.
  destruct (qwen_tiers_fail_other rt
              (time_time rt (clock_reads w)) question image_context
              (mkWorld (probed w) (S (clock_reads w)) (logs_file w)) Hapi Hlocal)
    as (task & w1 & -> & ->).
  reflexivity.
Qed.

Lemma cascade_failure_returns_other_witness :
  value (ai_classifier.classify_task_with_qwen offline
           "read the text on this sign" None world0) = Ret "Other".
Proof.
  refine (proj1 (cascade_failure_returns_other offline
                   "read the text on this sign" None world0 _ _ _)).
  - reflexivity.
  - intros url prompt. exact I.
  - intro prompt. eexists. reflexivity.
Defined.

(* ================================================================== *)
(** * The dispatch table *)
(* ================================================================== *)

Lemma route_not_ocr (task : string) (draw : nat) :
  task <> "OCR" ->
  analyze.route task draw
  = Ret (match assoc task analyze.task_mapping with Some e => e | None => "other" end,
         "pytesseract").
Proof.
  intro H. unfold analyze.route.
  destruct (String.eqb_spec task "OCR") as [E|_]; [contradiction | reflexivity].
Qed.

Lemma other_task_reply (rt : Runtime) (request : tasks.TaskRequest) (w : World) :
  returns (tasks.other_task rt request) w
    (fun reply => tasks.reply_result reply = PStr "Task not supported"
                  /\ tasks.reply_model_name reply = "None").
Proof.
  unfold tasks.other_task, returns, bind, try_except, time, ret. simpl.
  eexists _, _. split; [reflexivity|]. split; reflexivity.
Qed.

(** The routing of [handle_task].  The endpoint of a label other than OCR
    does not depend on the index [random.choice] draws: each label of the
    vocabulary has the endpoint [task_mapping] gives; Other goes to
    [/task/other], whose handler reports "Task not supported".  For OCR
    the index drawn decides: 0 gives the identity (ocr, pytesseract) and 1
    gives (simocr, simocr).  How often each index is drawn is a matter of
    Python's random generator, of which nothing is said here. *)
Lemma route_table :
  (forall task d1 d2,
      task <> "OCR" -> analyze.route task d1 = analyze.route task d2)
  /\ (forall task d,
        In task qwen_model.valid_tasks -> task <> "OCR" ->
        exists endpoint,
          assoc task analyze.task_mapping = Some endpoint
          /\ analyze.route task d = Ret (endpoint, "pytesseract"))
  /\ (forall d, analyze.route "Other" d = Ret ("other", "pytesseract"))
  /\ assoc ("/task/" ++ "other") tasks.router = Some tasks.other_task
  /\ (forall rt request w,
        returns (tasks.other_task rt request) w
          (fun reply => tasks.reply_result reply = PStr "Task not supported"
                        /\ tasks.reply_model_name reply = "None"))
  /\ (forall d, (d < 2)%nat ->
        (analyze.route "OCR" d = Ret ocr_identity <-> d = 0%nat)
        /\ (analyze.route "OCR" d = Ret simocr_identity <-> d = 1%nat)).
Proof.
  split; [|split; [|split; [|split; [|split]]]].
  - intros task d1 d2 H. now rewrite !route_not_ocr.
  - intros task d Hin Hne. rewrite route_not_ocr by assumption.
    simpl in Hin.
    destruct Hin as [<-|[<-|[<-|[<-|[<-|[<-|[<-|[<-|[]]]]]]]]];
      try (now elim Hne); eexists; split; reflexivity.
  - intro d. reflexivity.
  - reflexivity.
  - apply other_task_reply.
  - intros d Hd. assert (E : d = 0%nat \/ d = 1%nat) by lia.
    destruct E as [-> | ->]; split; split; intro H;
      try reflexivity; try discriminate.
Qed.

(* ================================================================== *)
(** * Handler invocation *)
(* ================================================================== *)

(** [handle_task] never raises and leaves the world as it found it; the
    model name it reports is the one the routing chose, or [error]. *)
Lemma handle_task_returns (rt : Runtime) (task image_path question : string) (w : World) :
  exists result model_used,
    analyze.handle_task rt task image_path question w = (Ret (result, model_used), w)
    /\ (model_used = "error"
        \/ exists endpoint,
             analyze.route task (randbelow rt 2) = Ret (endpoint, model_used)).
Proof.
  unfold analyze.handle_task, try_except, bind, lift, ret, raise, any_exception.
  destruct (analyze.route task (randbelow rt 2)) as [[endpoint model_used]|e]; simpl.
  - destruct (client_post rt _ image_path question) as [e|status text body]; simpl.
    + eexists _, _. split; [reflexivity | now left].
    + destruct (status =? 200)%Z.
      * destruct body as [j|e]; simpl.
        -- destruct (get j "result" _) as [r|e]; simpl;
             eexists _, _; (split; [reflexivity|]); [right; now exists endpoint | now left].
        -- eexists _, _. split; [reflexivity | now left].
      * eexists _, _. split; [reflexivity|]. right. now exists endpoint.
  - eexists _, _. split; [reflexivity | now left].
Qed.

(** When the call to the handler raises, the fault is wrapped. *)
Lemma handle_task_throws (rt : Runtime) (task image_path question : string) (w : World) :
  handler_throws rt ->
  analyze.handle_task rt task image_path question w
  = (Ret (PStr "Task handling failed due to an error", "error"), w).
Proof.
  intro Hthrows.
  unfold analyze.handle_task, try_except, bind, lift, ret, raise, any_exception.
  destruct (analyze.route task (randbelow rt 2)) as [[endpoint model_used]|e];
    cbn -[String.append]; [|reflexivity].
  destruct (Hthrows ("http://localhost:8000/task/" ++ endpoint) image_path question)
    as [e ->].
  reflexivity.
Qed.

Lemma medical_task_reply (rt : Runtime) (request : tasks.TaskRequest) (w : World) :
  returns (tasks.medical_task rt request) w
    (fun reply => tasks.reply_model_name reply = "ResNet-50").
Proof.
  unfold tasks.medical_task.
  eapply returns_bind; [apply returns_time|]. intros start_time w1 _.
  apply returns_try_except_any.
  - eapply ensures_bind; [apply ensures_true|]. intros _i w2 _.
    eapply ensures_bind; [apply ensures_true|]. intros diagnosis w3 _.
    eapply ensures_bind; [apply ensures_true|]. intros now w4 _.
    now apply ensures_ret.
  - intros e w2.
    eapply returns_bind; [apply returns_time|]. intros now w3 _.
    now apply returns_ret.
Qed.

(** C6. Dispatch of Medical Diagnosis always chooses the endpoint
    [medical], whose handler [medical_task] reports the model ResNet-50;
    but the model name [handle_task] returns for it, which [analyze_image]
    writes to the log, is [pytesseract] (or [error]), never ResNet-50.  In
    the sample run the request is classified Medical Diagnosis, the handler
    answers with model name ResNet-50, and the row logged names
    [pytesseract]. *)
Theorem medical_dispatch_records_pytesseract :
  (forall d, analyze.route "Medical Diagnosis" d = Ret ("medical", "pytesseract"))
  /\ assoc ("/task/" ++ "medical") tasks.router = Some tasks.medical_task
  /\ (forall rt request w,
        returns (tasks.medical_task rt request) w
          (fun reply => tasks.reply_model_name reply = "ResNet-50"))
  /\ (forall rt image_path question w,
        returns (analyze.handle_task rt "Medical Diagnosis" image_path question) w
          (fun r => snd r = "pytesseract" \/ snd r = "error"))
  /\ (let run := analyze.analyze_image clinic "is this scan healthy"
                   "image/png" "scan.png" world0 in
      map log_task (analyze.read_logs (logs_file (world run))) = ["Medical Diagnosis"]
      /\ map log_model (analyze.read_logs (logs_file (world run))) = ["pytesseract"]).
Proof.
  split; [|split; [|split; [|split]]].
  - intro d. reflexivity.
  - reflexivity.
  - apply medical_task_reply.
  - intros rt image_path question w.
    destruct (handle_task_returns rt "Medical Diagnosis" image_path question w)
      as (r & m & E & [-> | (endpoint & Hroute)]).
    + exists (r, "error"), w. split; [exact E | now right].
    + exists (r, m), w. split; [exact E|]. left.
      change (analyze.route "Medical Diagnosis" (randbelow rt 2))
        with (@Ret (string * string) ("medical", "pytesseract")) in Hroute.
      now injection Hroute as _ <-.
  - cbv zeta. split; vm_compute; reflexivity.
Qed.

(* ================================================================== *)
(** * The analyze request and the log *)
(* ================================================================== *)

Lemma round_half_even_nonneg (x : Q) : (0 <= x)%Q -> (0 <= round_half_even x)%Z.
Proof.
  intro H. unfold round_half_even.
  assert (Hf : (0 <= Qfloor x)%Z).
  { change 0%Z with (Qfloor 0). now apply Qfloor_resp_le. }
  destruct (_ ?= _)%Q; [destruct (Z.even _)| |]; lia.
Qed.

Lemma round_nonneg (x : Q) (ndigits : nat) : (0 <= x)%Q -> (0 <= round_ x ndigits)%Q.
Proof.
  intro H. unfold round_.
  set (p := inject_Z (10 ^ Z.of_nat ndigits)).
  assert (Hp : (0 < p)%Q).
  { unfold p. change 0%Q with (inject_Z 0). rewrite <- Zlt_Qlt.
    apply Z.pow_pos_nonneg; lia. }
  apply Qle_shift_div_l; [exact Hp|].
  rewrite Qmult_0_l. change 0%Q with (inject_Z 0). rewrite <- Zle_Qle.
  apply round_half_even_nonneg. apply Qmult_le_0_compat; [exact H|].
  now apply Qlt_le_weak.
Qed.

Lemma bind_run {A B : Type} (c : M A) (k : A -> M B) (w w' : World) (a : A) :
  c w = (Ret a, w') -> bind c k w = k a w'.
Proof. intro E. unfold bind. now rewrite E. Qed.

Lemma time_run (rt : Runtime) (w : World) :
  time rt w = (Ret (time_time rt (clock_reads w)),
               mkWorld (probed w) (S (clock_reads w)) (logs_file w)).
Proof. reflexivity. Qed.

(** C7. When the call to the handler raises, [analyze_image] still answers:
    the model it reports is [error], the latency it reports is not
    negative (the clock never running backwards), and exactly one row is
    appended to the log, with the same id, the model [error] and a latency
    that is not negative. *)
Theorem handler_fault_is_logged (rt : Runtime)
  (question content_type filename file_path image_context : string) (w : World) :
  In content_type ["image/jpeg"; "image/png"] ->
  save_and_caption rt filename = Ret (file_path, image_context) ->
  handler_throws rt ->
  clock_monotone rt ->
  exists body entry w',
    analyze.analyze_image rt question content_type filename w
    = (Ret (analyze.Analyzed body), w')
    /\ analyze.analysis_model body = "error"
    /\ (0 <= analyze.analysis_latency body)%Q
    /\ logs_file w' = Logs (analyze.read_logs (logs_file w) ++ [entry])%list
    /\ length (analyze.read_logs (logs_file w'))
       = S (length (analyze.read_logs (logs_file w)))
    /\ log_id entry = analyze.analysis_id body
    /\ log_model entry = "error"
    /\ (0 <= log_latency entry)%Q
    /\ log_result entry = analyze.analysis_result body.
Proof.
  intros Hct Hsave Hthrows Hclock.
  unfold analyze.analyze_image.
  erewrite bind_run by apply time_run. cbv beta.
  assert (Ect : existsb (String.eqb content_type) ["image/jpeg"; "image/png"] = true).
  { apply existsb_exists. exists content_type. split; [exact Hct | apply String.eqb_refl]. }
  rewrite Ect. cbn [negb].
  erewrite bind_run by (unfold lift; rewrite Hsave; reflexivity). cbv beta iota.
  erewrite bind_run by apply time_run. cbv beta.
  match goal with
  | |- context [bind (ai_classifier.classify_task_with_qwen rt question (Some image_context)) _ ?w2] =>
      destruct (classify_task_with_qwen_returns rt question (Some image_context) w2)
        as (task & w3 & E & _);
      pose proof (quiet_classify_task_with_qwen rt question (Some image_context) w2) as L;
      rewrite E in L; unfold world in L; cbn [snd] in L
  end.
  erewrite bind_run by exact E. cbv beta.
  erewrite bind_run by apply time_run. cbv beta zeta.
  erewrite bind_run by apply time_run. cbv beta.
  erewrite bind_run by (apply handle_task_throws; exact Hthrows). cbv beta iota zeta.
  erewrite bind_run by apply time_run. cbv beta zeta.
  erewrite bind_run by apply time_run. cbv beta zeta.
  cbn [probed clock_reads logs_file] in *.
  unfold bind, analyze.append_log, ret. cbn [probed clock_reads logs_file].
  destruct L as [Elogs Lclock]. cbn [probed clock_reads logs_file] in Elogs, Lclock.
  assert (Hlat : (0 <= time_time rt (S (S (S (clock_reads w3))))
                      - time_time rt (clock_reads w))%Q).
  { assert (H := Hclock (clock_reads w) (S (S (S (clock_reads w3))))).
    assert (Hle : (clock_reads w <= S (S (S (clock_reads w3))))%nat) by lia.
    specialize (H Hle). lra. }
  eexists _, _, _. split; [reflexivity|].
  cbn [analyze.analysis_model analyze.analysis_latency analyze.analysis_id
       analyze.analysis_result log_id log_model log_latency log_result].
  split; [reflexivity|].
  split; [exact Hlat|].
  split; [now rewrite Elogs|].
  split; [cbn [analyze.read_logs logs_file]; rewrite length_app, Elogs; simpl; lia|].
  split; [reflexivity|].
  split; [reflexivity|].
  split; [now apply round_nonneg | reflexivity].
Qed.


Lemma handler_fault_is_logged_witness :
  exists body entry w',
    analyze.analyze_image offline "what color is the car" "image/png" "car.png" world0
    = (Ret (analyze.Analyzed body), w')
    /\ analyze.analysis_model body = "error"
    /\ (0 <= analyze.analysis_latency body)%Q
    /\ logs_file w' = Logs (analyze.read_logs (logs_file world0) ++ [entry])%list
    /\ length (analyze.read_logs (logs_file w'))
       = S (length (analyze.read_logs (logs_file world0)))
    /\ log_id entry = analyze.analysis_id body
    /\ log_model entry = "error"
    /\ (0 <= log_latency entry)%Q
    /\ log_result entry = analyze.analysis_result body.
Proof.
  apply (handler_fault_is_logged offline "what color is the car" "image/png"
           "car.png" "/srv/uploads/car.png" "a red stop sign" world0).
  - simpl. tauto.
  - reflexivity.
  - intros url image_path question. eexists. reflexivity.
  - intros i j Hij. simpl. rewrite <- Zle_Qle. lia.
Defined.

Lemma find_fresh (logs rest : list LogEntry) (entry : LogEntry) :
  ~ In (log_id entry) (map log_id logs) ->
  find (fun e => String.eqb (log_id e) (log_id entry)) (logs ++ entry :: rest)%list
  = Some entry.
Proof.
  induction logs as [|e logs IH]; intro H; simpl.
  - now rewrite String.eqb_refl.
  - destruct (String.eqb_spec (log_id e) (log_id entry)) as [E|_].
    + elim H. left. exact E.
    + apply IH. intro Hin. apply H. now right.
Qed.

Lemma find_unknown (logs : list LogEntry) (result_id : string) :
  ~ In result_id (map log_id logs) ->
  find (fun e => String.eqb (log_id e) result_id) logs = None.
Proof.
  induction logs as [|e logs IH]; intro H; simpl; [reflexivity|].
  destruct (String.eqb_spec (log_id e) result_id) as [E|_].
  - elim H. now left.
  - apply IH. intro Hin. apply H. now right.
Qed.

(** A request that is analyzed appends one row, which carries the id, the
    task, the model and the result of the answer. *)
Lemma analyze_image_appends (rt : Runtime)
  (question content_type filename : string) (w w' : World) (body : analyze.Analysis) :
  analyze.analyze_image rt question content_type filename w
  = (Ret (analyze.Analyzed body), w') ->
  exists entry,
    logs_file w' = Logs (analyze.read_logs (logs_file w) ++ [entry])%list
    /\ log_id entry = uuid4 rt
    /\ analyze.analysis_id body = uuid4 rt
    /\ log_task entry = analyze.analysis_task body
    /\ log_model entry = analyze.analysis_model body
    /\ log_result entry = analyze.analysis_result body.
Proof.
  unfold analyze.analyze_image.
  erewrite bind_run by apply time_run. cbv beta.
  destruct (negb _); [intro H; discriminate|].
  unfold lift at 1.
  destruct (save_and_caption rt filename) as [[file_path image_context]|e];
    [|intro H; discriminate].
  erewrite bind_run by reflexivity. cbv beta iota.
  erewrite bind_run by apply time_run. cbv beta.
  match goal with
  | |- context [bind (ai_classifier.classify_task_with_qwen rt question (Some image_context)) _ ?w2] =>
      destruct (classify_task_with_qwen_returns rt question (Some image_context) w2)
        as (task & w3 & E & _);
      pose proof (quiet_classify_task_with_qwen rt question (Some image_context) w2) as L;
      rewrite E in L; unfold world in L; cbn [snd] in L
  end.
  erewrite bind_run by exact E. cbv beta.
  erewrite bind_run by apply time_run. cbv beta zeta.
  erewrite bind_run by apply time_run. cbv beta.
  match goal with
  | |- context [bind (analyze.handle_task rt task file_path question) _ ?w5] =>
      destruct (handle_task_returns rt task file_path question w5)
        as (result & model_used & Eh & _)
  end.
  erewrite bind_run by exact Eh. cbv beta iota zeta.
  erewrite bind_run by apply time_run. cbv beta zeta.
  erewrite bind_run by apply time_run. cbv beta zeta.
  unfold bind, analyze.append_log, ret.
  cbn [probed clock_reads logs_file] in *.
  destruct L as [Elogs _]. cbn [probed clock_reads logs_file] in Elogs.
  intro H. injection H as <- <-.
  eexists. cbn [logs_file]. rewrite Elogs.
  split; [reflexivity|]. repeat split.
Qed.



(* ================================================================== *)
(** * Further properties of the normalizer and the keyword classifiers *)
(* ================================================================== *)

Lemma lower_char_idempotent (c : ascii) :
  Py.lower_char (Py.lower_char c) = Py.lower_char c.
Proof. destruct c as [[] [] [] [] [] [] [] []]; reflexivity. Qed.

Lemma lower_idempotent (s : string) : Py.lower (Py.lower s) = Py.lower s.
Proof.
  induction s as [|c t IH]; simpl; [reflexivity|].
  now rewrite lower_char_idempotent, IH.
Qed.

Lemma strip_idempotent (s : string) : strip (strip s) = strip s.
Proof.
  induction s as [|c t IH]; [reflexivity|].
  cbn [strip]. destruct (existsb (Ascii.eqb c) punctuation) eqn:E; [exact IH|].
  cbn [strip]. now rewrite E, IH.
Qed.

Lemma normal_form_lower (s : string) : normal_form (Py.lower s) = normal_form s.
Proof.
  rewrite <- !clean_normal_form. unfold qwen_model.clean.
  now rewrite lower_idempotent.
Qed.

Lemma normal_form_strip (s : string) : normal_form (strip s) = normal_form s.
Proof. unfold normal_form. now rewrite strip_idempotent. Qed.

Lemma parse_task_of_normal_form (r1 r2 : string) :
  normal_form r1 = normal_form r2 ->
  qwen_model.parse_task_from_response r1 = qwen_model.parse_task_from_response r2.
Proof.
  intro H. unfold qwen_model.parse_task_from_response.
  now rewrite !clean_normal_form, H.
Qed.

Lemma parse_task_fixes_labels :
  Forall (fun label => qwen_model.parse_task_from_response label = label)
    qwen_model.valid_tasks.
Proof. repeat constructor. Qed.

(** X1. The normalizer maps each of the eight labels to itself, so it is
    idempotent; and it does not see the case of the letters nor the four
    punctuation characters. *)
Theorem parse_task_from_response_idempotent :
  Forall (fun label => qwen_model.parse_task_from_response label = label)
    qwen_model.valid_tasks
  /\ (forall response,
        qwen_model.parse_task_from_response
          (qwen_model.parse_task_from_response response)
        = qwen_model.parse_task_from_response response)
  /\ (forall response,
        qwen_model.parse_task_from_response (Py.lower response)
        = qwen_model.parse_task_from_response response)
  /\ (forall response,
        qwen_model.parse_task_from_response (strip response)
        = qwen_model.parse_task_from_response response).
Proof.
  split; [exact parse_task_fixes_labels|]. split; [|split].
  - intro response.
    pose proof (parse_task_in_vocabulary response) as Hin.
    pose proof parse_task_fixes_labels as Hfix.
    rewrite Forall_forall in Hfix. now apply Hfix.
  - intro response. apply parse_task_of_normal_form, normal_form_lower.
  - intro response. apply parse_task_of_normal_form, normal_form_strip.
Qed.

Lemma any_in_app (a b : list string) (text : string) :
  Py.any_in (a ++ b)%list text = Py.any_in a text || Py.any_in b text.
Proof. unfold Py.any_in. apply existsb_app. Qed.

Lemma any_in_false (keywords : list string) (text : string) :
  Py.any_in keywords text = false <->
  forall k, In k keywords -> ~ Py.occurs k text.
Proof.
  split.
  - intros H k Hin Hocc.
    assert (E : Py.any_in keywords text = true) by (apply any_in_true; now exists k).
    congruence.
  - intro H. destruct (Py.any_in keywords text) eqn:E; [|reflexivity].
    apply any_in_true in E. destruct E as (k & Hin & Hocc). now elim (H k Hin).
Qed.

(** X2. The keyword classifier always answers one of the eight labels, and
    the normalizer leaves its answer as it is.  On a question of ASCII
    characters it answers Other exactly when no keyword of any group
    occurs in the lower-cased question and the question does not start
    with what, where or how. *)
Theorem mock_classify_task_other_iff (question : string) :
  In (ai_classifier.mock_classify_task question) qwen_model.valid_tasks
  /\ qwen_model.parse_task_from_response (ai_classifier.mock_classify_task question)
     = ai_classifier.mock_classify_task question
  /\ (Py.isascii question = true ->
      (ai_classifier.mock_classify_task question = "Other"
       <-> (forall k, In k mock_keywords -> ~ Py.occurs k (Py.lower question))
           /\ question_word (Py.lower question) = false)).
Proof.
  assert (Hin : In (ai_classifier.mock_classify_task question) qwen_model.valid_tasks).
  { unfold ai_classifier.mock_classify_task.
    repeat match goal with
           | |- context [if ?b then _ else _] => destruct b
           end; simpl; tauto. }
  split; [exact Hin|]. split.
  { pose proof parse_task_fixes_labels as Hfix.
    rewrite Forall_forall in Hfix. now apply Hfix. }
  intros _.
  rewrite <- any_in_false. unfold mock_keywords, question_word.
  rewrite !any_in_app.
  unfold ai_classifier.mock_classify_task.
  destruct (Py.any_in ai_classifier.medical_keywords _);
    [split; [discriminate | intros [H _]; discriminate]|].
  destruct (Py.any_in ai_classifier.ocr_keywords _);
    [split; [discriminate | intros [H _]; discriminate]|].
  destruct (Py.any_in ai_classifier.classification_keywords _);
    [split; [discriminate | intros [H _]; discriminate]|].
  destruct (Py.any_in ai_classifier.object_keywords _);
    [split; [discriminate | intros [H _]; discriminate]|].
  destruct (Py.any_in ai_classifier.style_keywords _);
    [split; [discriminate | intros [H _]; discriminate]|].
  destruct (Py.any_in ai_classifier.caption_keywords _);
    [split; [discriminate | intros [H _]; discriminate]|].
  destruct (Py.any_in ai_classifier.vqa_keywords _);
    [split; [discriminate | intros [H _]; discriminate]|].
  destruct (_ || _ || _); split; try discriminate; auto.
  intros [_ H]. discriminate.
Qed.

Lemma mock_classify_task_other_iff_witness :
  ai_classifier.mock_classify_task "Thanks a lot" = "Other".
Proof.
  apply (proj2 (proj2 (mock_classify_task_other_iff "Thanks a lot")) eq_refl).
  split; [|reflexivity].
  apply any_in_false. reflexivity.
Defined.

(** X3. The rule-based fallback of the Cerebras client answers one of the
    eight labels when the prompt holds [classify] or [task] in letters of
    either case.  A prompt of ASCII characters that holds neither is
    answered a text that starts with [Fallback response:] and quotes the
    first 100 characters of the prompt.  A prompt that holds [classify] is
    never answered Object Detection, Style Transfer, Medical Diagnosis or
    Other: the test of the fourth branch holds for it. *)
Theorem fallback_response_cases (prompt : string) (error_msg : option string) :
  (Py.occurs "classify" (Py.lower prompt) \/ Py.occurs "task" (Py.lower prompt) ->
   In (cerebras_qwen._fallback_response prompt error_msg) qwen_model.valid_tasks)
  /\ (Py.isascii prompt = true ->
      ~ Py.occurs "classify" (Py.lower prompt) ->
      ~ Py.occurs "task" (Py.lower prompt) ->
      cerebras_qwen._fallback_response prompt error_msg
      = "Fallback response: I'm currently using a simplified response system. Your prompt was: '"
          ++ Py.take 100 prompt ++ "...'"
      /\ Py.startswith (cerebras_qwen._fallback_response prompt error_msg)
           "Fallback response:" = true)
  /\ (Py.occurs "classify" (Py.lower prompt) ->
      In (cerebras_qwen._fallback_response prompt error_msg)
        ["OCR"; "Image Captioning"; "Visual QA"; "Image Classification"]).
Proof.
  unfold cerebras_qwen._fallback_response.
  split; [|split].
  - intros H.
    replace (Py.contains "classify" (Py.lower prompt) || Py.contains "task" (Py.lower prompt))
      with true.
    + repeat match goal with
             | |- context [if ?b then _ else _] => destruct b
             end; simpl; tauto.
    + symmetry. apply orb_true_iff.
      destruct H as [H|H]; [left|right]; now apply contains_occurs.
  - intros _ H1 H2.
    replace (Py.contains "classify" (Py.lower prompt)) with false.
    + replace (Py.contains "task" (Py.lower prompt)) with false.
      * split; reflexivity.
      * symmetry. destruct (Py.contains "task" (Py.lower prompt)) eqn:E; [|reflexivity].
        elim H2. now apply contains_occurs.
    + symmetry. destruct (Py.contains "classify" (Py.lower prompt)) eqn:E; [|reflexivity].
      elim H1. now apply contains_occurs.
  - intro H. apply contains_occurs in H. rewrite H. cbn [orb].
    assert (E : Py.any_in ["classify"; "category"; "type"] (Py.lower prompt) = true).
    { unfold Py.any_in. cbn [existsb]. now rewrite H. }
    rewrite E.
    repeat match goal with
           | |- context [if ?b then _ else _] => destruct b
           end; simpl; tauto.
Qed.

Lemma fallback_response_cases_witness :
  In (cerebras_qwen._fallback_response "Please classify this photo of a dog" None)
    ["OCR"; "Image Captioning"; "Visual QA"; "Image Classification"]
  /\ Py.startswith (cerebras_qwen._fallback_response "Hello there" None)
       "Fallback response:" = true.
Proof.
  split.
  - apply (proj2 (proj2 (fallback_response_cases "Please classify this photo of a dog"
                           None))).
    exists "please ", " this photo of a dog". reflexivity.
  - apply (proj1 (proj2 (fallback_response_cases "Hello there" None)) eq_refl).
    + intro H. apply contains_occurs in H. discriminate.
    + intro H. apply contains_occurs in H. discriminate.
Defined.

(* ================================================================== *)
(** * Further properties of the cascade *)
(* ================================================================== *)

Lemma returns_try_except_body {A : Type} (body : M A) (caught : exn -> bool)
  (handler : exn -> M A) (w : World) (Q : A -> Prop) :
  returns body w Q -> returns (try_except body caught handler) w Q.
Proof.
  intros (a & w1 & E & Ha). exists a, w1. unfold try_except. now rewrite E.
Qed.

(** A [try] that catches only the exceptions of [requests] returns when
    its body returns or raises one of them. *)
Lemma returns_try_except_request {A : Type} (body : M A) (handler : exn -> M A)
  (w : World) (Q : A -> Prop) :
  match body w with
  | (Ret a, _) => Q a
  | (Raise e, _) => is_RequestException e = true
  end ->
  (forall e w', returns (handler e) w' Q) ->
  returns (try_except body is_RequestException handler) w Q.
Proof.
  unfold returns, try_except. intros Hb Hh.
  destruct (body w) as [[a|e] w1]; [now exists a, w1|].
  rewrite Hb. apply Hh.
Qed.

Lemma returns_lift {A : Type} (r : result A) (a : A) (w : World) (Q : A -> Prop) :
  r = Ret a -> Q a -> returns (lift r) w Q.
Proof. intros -> H. now exists a, w. Qed.

Lemma prompt_template_is_prompt_of (question image : string) :
  ai_classifier.prompt_template_format question image
  = cerebras_qwen.prompt_of question image.
Proof. reflexivity. Qed.

(** With well-formed settings and a status 200 whose body is a JSON
    object, [call_qwen_model_api] returns the answer read out of it. *)
Lemma call_qwen_model_api_answer (rt : Runtime) (prompt text : string)
  (fields : list (string * pyval)) (w : World) :
  qwen_settings_parse rt ->
  requests_post rt (qwen_api_url rt) prompt = Response 200 text (Ret (JDict fields)) ->
  qwen_model.call_qwen_model_api rt prompt w = (Ret (api_answer fields), w).
Proof.
  intros ((n1 & E1) & (x & E2) & (n2 & E3)) Hpost.
  unfold qwen_model.call_qwen_model_api, try_except, bind, lift, ret.
  unfold qwen_api_url in Hpost.
  rewrite E1, E2, E3, Hpost. cbn [Z.eqb Pos.eqb get].
  unfold api_answer. reflexivity.
Qed.

Lemma cascade_api_run (rt : Runtime)
  (question : string) (image_context : option string) (w : World)
  (text : string) (fields : list (string * pyval)) (answer : string) :
  cerebras_selected rt = false ->
  qwen_settings_parse rt ->
  requests_post rt (qwen_api_url rt)
    (ai_classifier.prompt_template_format question
       (cerebras_qwen.image_or_default image_context))
  = Response 200 text (Ret (JDict fields)) ->
  api_answer fields = PStr answer ->
  Py.startswith answer "Error:" = false ->
  ai_classifier.classify_task_with_qwen rt question image_context w
  = (Ret (qwen_model.parse_task_from_response answer), tick (tick w)).
Proof.
  intros Hsel Hcfg Hpost Hanswer Hprefix.
  unfold ai_classifier.classify_task_with_qwen.
  erewrite bind_run by apply time_run. cbv beta zeta.
  unfold cerebras_selected in Hsel. rewrite Hsel.
  unfold ai_classifier.qwen_tiers. cbv zeta.
  unfold try_except, bind at 1 2 3.
  rewrite (call_qwen_model_api_answer rt _ text fields _ Hcfg Hpost).
  rewrite Hanswer. unfold bind, lift, as_str, ret. rewrite Hprefix.
  reflexivity.
Qed.

(** X4. With the Cerebras tier not selected, well-formed settings and a
    Qwen API that answers 200 with a JSON object, the cascade returns the
    normalizer's label for the answer read out of the body (its field
    [response], else [text], else the words "No response text"), provided
    that answer is a string that does not start with [Error:]; it takes
    two clock readings and nothing else from the world.  A body with
    neither field gives Other. *)
Theorem cascade_answers_from_qwen_api (rt : Runtime)
  (question : string) (image_context : option string) (w : World)
  (text : string) (fields : list (string * pyval)) :
  cerebras_selected rt = false ->
  qwen_settings_parse rt ->
  requests_post rt (qwen_api_url rt)
    (ai_classifier.prompt_template_format question
       (cerebras_qwen.image_or_default image_context))
  = Response 200 text (Ret (JDict fields)) ->
  (forall answer,
      api_answer fields = PStr answer ->
      Py.startswith answer "Error:" = false ->
      ai_classifier.classify_task_with_qwen rt question image_context w
      = (Ret (qwen_model.parse_task_from_response answer), tick (tick w)))
  /\ (assoc "response" fields = None ->
      assoc "text" fields = None ->
      value (ai_classifier.classify_task_with_qwen rt question image_context w)
      = Ret "Other").
Proof.
  intros Hsel Hcfg Hpost.
  split.
  - intros answer Hanswer Hprefix. now apply (cascade_api_run rt _ _ w text fields).
  - intros H1 H2.
    rewrite (cascade_api_run rt _ _ w text fields "No response text");
      try assumption; try reflexivity.
    unfold api_answer. now rewrite H1, H2.
Qed.

Lemma cascade_answers_from_qwen_api_witness :
  ai_classifier.classify_task_with_qwen terse_api "what color is the car" None world0
  = (Ret "Visual QA", tick (tick world0)).
Proof.
  refine (proj1 (cascade_answers_from_qwen_api terse_api "what color is the car" None
                   world0 "" [("text", PStr "It is Visual QA.")] _ _ _)
            "It is Visual QA." _ _); try reflexivity.
  repeat split; eexists; reflexivity.
Defined.

(** X5. With the Cerebras tier not selected and the Qwen API failing, the
    cascade returns the normalizer's label for the text of the local
    model. *)
Theorem cascade_answers_from_local_model (rt : Runtime)
  (question : string) (image_context : option string) (w : World) (answer : string) :
  cerebras_selected rt = false ->
  qwen_api_fails rt ->
  qwen_local rt (ai_classifier.prompt_template_format question
                   (cerebras_qwen.image_or_default image_context))
  = Ret answer ->
  value (ai_classifier.classify_task_with_qwen rt question image_context w)
  = Ret (qwen_model.parse_task_from_response answer).
Proof.
  intros Hsel Hapi Hlocal.
  enough (H : returns (ai_classifier.classify_task_with_qwen rt question image_context) w
                (fun task => task = qwen_model.parse_task_from_response answer)).
  { destruct H as (task & w1 & E & ->). now rewrite E. }
  unfold ai_classifier.classify_task_with_qwen.
  eapply returns_bind; [apply returns_time|]. intros start_time w1 _.
  cbv zeta. unfold cerebras_selected in Hsel. rewrite Hsel.
  unfold ai_classifier.qwen_tiers. cbv zeta.
  eapply returns_bind
    with (P := fun task => task = qwen_model.parse_task_from_response answer).
  - apply returns_try_except_body.
    eapply returns_bind with (P := fun returned => returned = None).
    + apply returns_try_except_any.
      * eapply ensures_bind; [now apply call_qwen_model_api_fails|].
        intros v w2 (s & -> & Hs).
        unfold lift, as_str, ensures, bind. rewrite Hs. reflexivity.
      * intros e w2. now apply returns_ret.
    + intros returned w2 ->.
      unfold qwen_model.call_qwen_model_local.
      eapply returns_bind with (P := fun r => r = answer).
      * eapply returns_lift; [exact Hlocal | reflexivity].
      * intros r w3 ->. now apply returns_ret.
  - intros task w2 ->.
    eapply returns_bind; [apply returns_time|].
    intros now w3 _. now apply returns_ret.
Qed.

Lemma cascade_answers_from_local_model_witness :
  value (ai_classifier.classify_task_with_qwen local_only "find the cars" None world0)
  = Ret "Object Detection".
Proof.
  refine (cascade_answers_from_local_model local_only "find the cars" None world0
            "Task: Object Detection" _ _ _).
  - reflexivity.
  - intros url prompt. exact I.
  - reflexivity.
Defined.

Lemma find_working_endpoint_returns (rt : Runtime)
  (config : cerebras_qwen.CerebrasConfig) (w : World) :
  returns (cerebras_qwen._find_working_endpoint rt config) w (fun _ => True).
Proof.
  unfold cerebras_qwen._find_working_endpoint.
  destruct (try_urls_spec rt
              (cerebras_qwen.api_url config :: cerebras_qwen.fallback_urls config) w)
    as [(pre & url & post & _ & _ & _ & Hrun) | (_ & Hrun)];
    unfold returns; rewrite Hrun; eexists _, _; split; eauto.
Qed.

(** When no completion request is answered with status 200, [generate]
    returns a failure, whatever the probes say. *)
Lemma generate_fails (rt : Runtime) (config : cerebras_qwen.CerebrasConfig)
  (prompt : string) (w : World) :
  cerebras_never_completes rt ->
  returns (cerebras_qwen.generate rt config prompt) w
    (fun g => exists error latency model, g = cerebras_qwen.Failure error latency model).
Proof.
  intro Hnever. unfold cerebras_qwen.generate.
  eapply returns_bind; [apply returns_time|]. intros start_time w1 _.
  eapply returns_bind; [apply find_working_endpoint_returns|]. intros working_url w2 _.
  destruct (cerebras_qwen.found working_url) as [url|].
  - apply returns_try_except_request.
    + specialize (Hnever url prompt).
      destruct (session_post rt url prompt) as [e|status text body].
      * exact Hnever.
      * apply Z.eqb_neq in Hnever. unfold bind, time, ret. rewrite Hnever. eauto.
    + intros e w3.
      eapply returns_bind; [apply returns_time|]. intros now w4 _.
      apply returns_ret. eauto.
  - eapply returns_bind; [apply returns_time|]. intros now w3 _.
    apply returns_ret. eauto.
Qed.

(** X6. Whenever the Cerebras client gets no completion with status 200
    (every completion request is refused with another status or fails
    with an exception of [requests]) and its numeric settings are
    well-formed, [classify_task_with_cerebras_qwen] answers OCR for every
    question and image context, whatever the probes answer; so does the
    cascade when the tier is selected. *)
Theorem cerebras_without_completion_answers_ocr (rt : Runtime)
  (question : string) (image_context : option string) (w : World) :
  cerebras_settings_parse rt ->
  cerebras_never_completes rt ->
  value (cerebras_qwen.classify_task_with_cerebras_qwen rt question image_context w)
  = Ret "OCR"
  /\ (cerebras_selected rt = true ->
      value (ai_classifier.classify_task_with_qwen rt question image_context w)
      = Ret "OCR").
Proof.
  intros Hcfg Hnever.
  assert (Htier : forall w0,
             returns (cerebras_qwen.classify_task_with_cerebras_qwen rt question
                        image_context) w0 (fun task => task = "OCR")).
  { intro w0. unfold cerebras_qwen.classify_task_with_cerebras_qwen. cbv zeta.
    eapply returns_bind with (P := fun v => v = PStr "OCR").
    - unfold cerebras_qwen.call_cerebras_qwen.
      destruct (get_cerebras_config_parses rt w0 Hcfg) as (config & Econfig & _).
      eapply returns_bind with (P := fun c => True);
        [exists config, w0; split; [exact Econfig | exact I]|].
      intros config' w1 _.
      eapply returns_bind; [apply find_working_endpoint_returns|].
      intros working_url w2 _.
      destruct (cerebras_qwen.found working_url) as [url|].
      + eapply returns_bind; [now apply generate_fails|].
        intros g w3 (error & latency & model & ->).
        apply returns_ret. now rewrite fallback_response_prompt.
      + apply returns_ret. now rewrite fallback_response_prompt.
    - intros v w1 ->.
      eapply returns_bind with (P := fun r => r = "OCR").
      + eapply returns_lift; reflexivity.
      + intros r w2 ->. now apply returns_ret. }
  split.
  - destruct (Htier w) as (task & w1 & E & ->). now rewrite E.
  - intro Hsel.
    unfold ai_classifier.classify_task_with_qwen.
    erewrite bind_run by apply time_run. cbv beta zeta.
    unfold cerebras_selected in Hsel. rewrite Hsel.
    destruct (Htier (mkWorld (probed w) (S (clock_reads w)) (logs_file w)))
      as (task & w1 & E & ->).
    unfold try_except, bind, time, ret. rewrite E. reflexivity.
Qed.

Lemma cerebras_without_completion_answers_ocr_witness :
  value (ai_classifier.classify_task_with_qwen unauthorized_cerebras
           "describe this picture" (Some "a dog on a beach") world0) = Ret "OCR".
Proof.
  refine (proj2 (cerebras_without_completion_answers_ocr unauthorized_cerebras
                   "describe this picture" (Some "a dog on a beach") world0 _ _) _).
  - repeat split; eexists; reflexivity.
  - intros url prompt. simpl. discriminate.
  - reflexivity.
Defined.

Lemma response_text_label (prompt : string) :
  In (qwen_api.response_text prompt) qwen_model.valid_tasks.
Proof.
  unfold qwen_api.response_text.
  repeat match goal with
         | |- context [if ?b then _ else _] => destruct b
         end; simpl; tauto.
Qed.

(** On a prompt built from the classifier's template [predict] answers
    OCR: the template itself holds [ocr]. *)
Lemma response_text_prompt (question image : string) :
  qwen_api.response_text
    (Py.lower (ai_classifier.prompt_template_format question image)) = "OCR".
Proof.
  unfold qwen_api.response_text.
  replace (Py.any_in ["text"; "read"; "extract"; "ocr"; "words"]
             (Py.lower (ai_classifier.prompt_template_format question image)))
    with true; [reflexivity|].
  symmetry. apply any_in_true. exists "ocr". split; [simpl; tauto|].
  rewrite prompt_template_is_prompt_of. apply prompt_mentions_ocr.
Qed.

(** X7. [predict] never raises: the 500 of its handler is out of reach.
    Its response is one of the eight labels, which the normalizer leaves
    as it is; its model is [qwen-api]; its latency is not negative when
    the clock does not run backwards.  On every prompt built from the
    classifier's template its response is OCR. *)
Theorem predict_answers_label (rt : Runtime) (request : qwen_api.QwenRequest) (w : World) :
  (exists reply,
      qwen_api.predict rt request w = (Ret reply, tick (tick w))
      /\ In (qwen_api.response reply) qwen_model.valid_tasks
      /\ qwen_model.parse_task_from_response (qwen_api.response reply)
         = qwen_api.response reply
      /\ qwen_api.model reply = "qwen-api"
      /\ (clock_monotone rt -> (0 <= qwen_api.latency reply)%Q))
  /\ (forall question image,
        qwen_api.prompt request = ai_classifier.prompt_template_format question image ->
        exists reply w',
          qwen_api.predict rt request w = (Ret reply, w')
          /\ qwen_api.response reply = "OCR").
Proof.
  assert (E : qwen_api.predict rt request w
              = (Ret (qwen_api.mkQwenResponse
                        (qwen_api.response_text (Py.lower (qwen_api.prompt request)))
                        (round_ (time_time rt (S (clock_reads w))
                                 - time_time rt (clock_reads w)) 4)
                        "qwen-api"),
                 tick (tick w))) by reflexivity.
  split.
  - eexists. split; [exact E|]. cbn [qwen_api.response qwen_api.model qwen_api.latency].
    split; [apply response_text_label|]. split; [|split; [reflexivity|]].
    + pose proof parse_task_fixes_labels as Hfix. rewrite Forall_forall in Hfix.
      apply Hfix, response_text_label.
    + intro Hclock. apply round_nonneg.
      pose proof (Hclock (clock_reads w) (S (clock_reads w)) (Nat.le_succ_diag_r _)).
      lra.
  - intros question image Hprompt. eexists _, _. split; [exact E|].
    cbn [qwen_api.response]. rewrite Hprompt. apply response_text_prompt.
Qed.

Lemma predict_answers_label_witness :
  exists reply w',
    qwen_api.predict offline
      (qwen_api.mkQwenRequest
         (ai_classifier.prompt_template_format "what color is the car" "a red car")
         None None) world0 = (Ret reply, w')
    /\ qwen_api.response reply = "OCR".
Proof.
  refine (proj2 (predict_answers_label offline
                   (qwen_api.mkQwenRequest
                      (ai_classifier.prompt_template_format "what color is the car"
                         "a red car") None None) world0)
            "what color is the car" "a red car" _).
  reflexivity.
Defined.

(** X8. In the default deployment, where the Qwen API of the cascade is
    the application's own [/qwen/predict], the cascade (Cerebras tier not
    selected, settings well-formed) answers OCR for every question and
    image context. *)
Theorem self_served_cascade_answers_ocr (rt : Runtime)
  (question : string) (image_context : option string) (w : World) :
  cerebras_selected rt = false ->
  qwen_settings_parse rt ->
  served_by_predict rt ->
  ai_classifier.classify_task_with_qwen rt question image_context w
  = (Ret "OCR", tick (tick w)).
Proof.
  intros Hsel Hcfg Hserved.
  set (prompt := ai_classifier.prompt_template_format question
                   (cerebras_qwen.image_or_default image_context)).
  destruct (Hserved (qwen_api_url rt) prompt) as (text & latency & Hpost).
  unfold prompt in Hpost. rewrite response_text_prompt in Hpost.
  exact (cascade_api_run rt question image_context w text
           [("response", PStr "OCR"); ("latency", latency); ("model", PStr "qwen-api")]
           "OCR" Hsel Hcfg Hpost eq_refl eq_refl).
Qed.

Lemma self_served_cascade_answers_ocr_witness :
  ai_classifier.classify_task_with_qwen self_served "describe this picture"
    (Some "a dog on a beach") world0
  = (Ret "OCR", tick (tick world0)).
Proof.
  apply (self_served_cascade_answers_ocr self_served "describe this picture"
           (Some "a dog on a beach") world0).
  - reflexivity.
  - repeat split; eexists; reflexivity.
  - intros url prompt. eexists _, _. reflexivity.
Defined.

(* ================================================================== *)
(** * The chat client and the connectivity report *)
(* ================================================================== *)

Lemma last_user_skip (skipped : list chat_message) (m : chat_message)
  (rest : list chat_message) :
  no_user skipped ->
  role m = Some "user" ->
  cerebras_qwen.last_user (skipped ++ m :: rest)%list
  = match content m with Some c => c | None => "" end.
Proof.
  intros Hskip Hrole. induction skipped as [|x skipped IH]; simpl.
  - now rewrite Hrole.
  - assert (Hx : role x <> Some "user") by (apply Hskip; now left).
    destruct (role x) as [r|].
    + destruct (String.eqb_spec r "user") as [->|_]; [now elim Hx|].
      apply IH. intros y Hy. apply Hskip. now right.
    + apply IH. intros y Hy. apply Hskip. now right.
Qed.

Lemma last_user_none (messages : list chat_message) :
  no_user messages -> cerebras_qwen.last_user messages = "".
Proof.
  intro H. induction messages as [|x messages IH]; simpl; [reflexivity|].
  assert (Hx : role x <> Some "user") by (apply H; now left).
  assert (Hrest : no_user messages) by (intros y Hy; apply H; now right).
  destruct (role x) as [r|]; [|now apply IH].
  destruct (String.eqb_spec r "user") as [->|_]; [now elim Hx | now apply IH].
Qed.

(** X9. The fallback of the chat client always answers a text that starts
    with [Fallback response:].  When the last message from the user has a
    content of ASCII characters, it quotes the first 100 characters of
    that content; when that message has no content or an empty one, or no
    message is from the user, it answers the general text, whatever
    earlier messages hold. *)
Theorem fallback_chat_response_cases
  (messages : list chat_message) (error_msg : option string) :
  Py.startswith (cerebras_qwen._fallback_chat_response messages error_msg)
    "Fallback response:" = true
  /\ (forall before m after c,
        messages = (before ++ m :: after)%list ->
        role m = Some "user" -> no_user after ->
        content m = Some c -> c <> "" -> Py.isascii c = true ->
        cerebras_qwen._fallback_chat_response messages error_msg
        = "Fallback response: I'm currently using a simplified response system. Your message was: '"
            ++ Py.take 100 c ++ "...'")
  /\ (forall before m after,
        messages = (before ++ m :: after)%list ->
        role m = Some "user" -> no_user after ->
        content m = None \/ content m = Some "" ->
        cerebras_qwen._fallback_chat_response messages error_msg
        = "Fallback response: I'm currently using a simplified response system.")
  /\ (no_user messages ->
      cerebras_qwen._fallback_chat_response messages error_msg
      = "Fallback response: I'm currently using a simplified response system.").
Proof.
  unfold cerebras_qwen._fallback_chat_response. cbv zeta.
  assert (Hrev : forall before m after,
             messages = (before ++ m :: after)%list ->
             role m = Some "user" -> no_user after ->
             cerebras_qwen.last_user (rev messages)
             = match content m with Some c => c | None => "" end).
  { intros before m after -> Hrole Hafter.
    rewrite rev_app_distr. cbn [rev]. rewrite <- app_assoc. cbn [app].
    apply last_user_skip; [|exact Hrole].
    intros y Hy. apply Hafter. now apply in_rev. }
  split; [|split; [|split]].
  - destruct (Py.truthy _); reflexivity.
  - intros before m after c E Hrole Hafter Hc Hne _.
    rewrite (Hrev before m after E Hrole Hafter), Hc.
    destruct c; [now elim Hne | reflexivity].
  - intros before m after E Hrole Hafter Hc.
    rewrite (Hrev before m after E Hrole Hafter).
    destruct Hc as [-> | ->]; reflexivity.
  - intro Hnone. rewrite last_user_none; [reflexivity|].
    intros y Hy. apply Hnone. now apply in_rev.
Qed.

Lemma fallback_chat_response_cases_witness :
  cerebras_qwen._fallback_chat_response conversation None
  = "Fallback response: I'm currently using a simplified response system. Your message was: '"
      ++ Py.take 100 "What is in this image?" ++ "...'".
Proof.
  refine (proj1 (proj2 (fallback_chat_response_cases conversation None))
            [mkMessage (Some "system") (Some "You are a helpful assistant.")]
            (mkMessage (Some "user") (Some "What is in this image?"))
            [mkMessage (Some "assistant") (Some "A red stop sign.")]
            "What is in this image?" _ _ _ _ _ _).
  - reflexivity.
  - reflexivity.
  - intros y [<-|[]]. discriminate.
  - reflexivity.
  - discriminate.
  - reflexivity.
Defined.

(** The first probe of a reachable primary URL ends the search. *)
Lemma find_working_endpoint_primary (rt : Runtime)
  (config : cerebras_qwen.CerebrasConfig) (w : World) :
  reachable rt (probed w) (cerebras_qwen.api_url config) ->
  cerebras_qwen._find_working_endpoint rt config w
  = (Ret (Some (cerebras_qwen.api_url config)),
     after_probes w [cerebras_qwen.api_url config]).
Proof.
  intro Hreach. unfold cerebras_qwen._find_working_endpoint.
  cbn [cerebras_qwen.try_urls]. unfold bind.
  destruct (test_endpoint_connectivity_spec rt (cerebras_qwen.api_url config) w)
    as (ok & -> & Hok).
  apply Hok in Hreach. now rewrite Hreach.
Qed.

Lemma get_cerebras_config_primary (rt : Runtime) (w : World) :
  cerebras_settings_parse rt ->
  exists config,
    cerebras_qwen.get_cerebras_config rt w = (Ret config, w)
    /\ cerebras_qwen.api_url config = cerebras_primary rt.
Proof.
  intros ((n1 & E1) & (x & E2) & (n2 & E3)).
  unfold cerebras_qwen.get_cerebras_config, bind, lift, ret.
  rewrite E1, E2, E3. eexists. split; reflexivity.
Qed.

(** The chat client on a reachable primary URL: the value of the [try]. *)
Lemma call_cerebras_qwen_chat_primary (rt : Runtime) (host : Host)
  (messages : list chat_message) (w : World)
  (text : string) (body : result jvalue) (status_code : Z) :
  cerebras_settings_parse rt ->
  Py.truthy (cerebras_primary rt) = true ->
  reachable rt (probed w) (cerebras_primary rt) ->
  chat_post host (cerebras_primary rt) messages = ChatResponse status_code text body ->
  cerebras_qwen.call_cerebras_qwen_chat rt host messages w
  = try_except
      (if (status_code =? 200)%Z then
         bind (lift body) (fun result =>
         bind (lift (jget result "choices" (JArray [JObject []]))) (fun choices =>
         bind (lift (jfirst choices)) (fun choice =>
         bind (lift (jget choice "message" (JObject []))) (fun message =>
         lift (jget message "content" (JString ""))))))
       else
         ret (JString (cerebras_qwen._fallback_chat_response messages
                (Some ("API call failed with status " ++ Py.str_int status_code
                         ++ ": " ++ text)))))
      is_RequestException
      (fun e =>
         ret (JString (cerebras_qwen._fallback_chat_response messages
                (Some match e with
                      | ConnectionError m => "Connection error - " ++ m
                      | Timeout m => "Request timeout - " ++ m
                      | _ => "Request failed - " ++ str_exn e
                      end))))
      (after_probes w [cerebras_primary rt]).
Proof.
  intros Hcfg Htruthy Hreach Hpost.
  unfold cerebras_qwen.call_cerebras_qwen_chat.
  destruct (get_cerebras_config_primary rt w Hcfg) as (config & Econfig & Eurl).
  erewrite bind_run by exact Econfig. cbv beta.
  rewrite <- Eurl in Hreach.
  erewrite bind_run by (apply find_working_endpoint_primary; exact Hreach).
  cbv beta. cbn [cerebras_qwen.found]. rewrite Eurl, Htruthy, Hpost.
  reflexivity.
Qed.

(** X10. On a reachable primary URL whose completion is answered with
    status 200 and a JSON object, the chat client returns
    [choices[0].message.content].  A body without [choices] gives the
    empty string; a body whose [choices] is the empty list raises an
    [IndexError], which the client does not catch. *)
Theorem call_cerebras_qwen_chat_reads_content (rt : Runtime) (host : Host)
  (messages : list chat_message) (w : World)
  (text : string) (fields : list (string * jvalue)) :
  cerebras_settings_parse rt ->
  Py.truthy (cerebras_primary rt) = true ->
  reachable rt (probed w) (cerebras_primary rt) ->
  chat_post host (cerebras_primary rt) messages
  = ChatResponse 200 text (Ret (JObject fields)) ->
  (forall choice_fields more message_fields answer,
      assoc "choices" fields = Some (JArray (JObject choice_fields :: more)) ->
      assoc "message" choice_fields = Some (JObject message_fields) ->
      assoc "content" message_fields = Some answer ->
      value (cerebras_qwen.call_cerebras_qwen_chat rt host messages w) = Ret answer)
  /\ (assoc "choices" fields = None ->
      value (cerebras_qwen.call_cerebras_qwen_chat rt host messages w)
      = Ret (JString ""))
  /\ (assoc "choices" fields = Some (JArray []) ->
      value (cerebras_qwen.call_cerebras_qwen_chat rt host messages w)
      = Raise (Exception "IndexError: list index out of range")).
Proof.
  intros Hcfg Htruthy Hreach Hpost.
  rewrite (call_cerebras_qwen_chat_primary rt host messages w text _ 200
             Hcfg Htruthy Hreach Hpost).
  cbn [Z.eqb Pos.eqb]. unfold try_except, bind, lift. cbn [jget].
  split; [|split].
  - intros choice_fields more message_fields answer H1 H2 H3.
    rewrite H1. cbn [jfirst jget]. rewrite H2. cbn [jget]. now rewrite H3.
  - intro H1. rewrite H1. reflexivity.
  - intro H1. rewrite H1. reflexivity.
Qed.

Lemma call_cerebras_qwen_chat_reads_content_witness :
  value (cerebras_qwen.call_cerebras_qwen_chat busy_cerebras mute_host conversation world0)
  = Raise (Exception "IndexError: list index out of range").
Proof.
  refine (proj2 (proj2 (call_cerebras_qwen_chat_reads_content busy_cerebras mute_host
                          conversation world0 "" [("choices", JArray [])] _ _ _ _)) _).
  - repeat split; eexists; reflexivity.
  - reflexivity.
  - exists 200%Z, "", (Raise (Exception "no body")). split; [reflexivity | lia].
  - reflexivity.
  - reflexivity.
Defined.

Lemma try_urls_first (rt : Runtime) (pre : list string) (url : string)
  (post : list string) (w : World) :
  (forall i u, nth_error pre i = Some u ->
               ~ reachable rt (probed w ++ firstn i pre)%list u) ->
  reachable rt (probed w ++ pre)%list url ->
  cerebras_qwen.try_urls rt (pre ++ url :: post)%list w
  = (Ret (Some url), after_probes w (pre ++ [url])%list).
Proof.
  revert w. induction pre as [|u pre IH]; intros w Hpre Hreach;
    cbn [app cerebras_qwen.try_urls]; unfold bind.
  - destruct (test_endpoint_connectivity_spec rt url w) as (ok & -> & Hok).
    rewrite app_nil_r in Hreach. apply Hok in Hreach. now rewrite Hreach.
  - destruct (test_endpoint_connectivity_spec rt u w) as (ok & -> & Hok).
    destruct ok.
    + elim (Hpre 0%nat u eq_refl). cbn [firstn]. rewrite app_nil_r. now apply Hok.
    + rewrite IH.
      * now rewrite after_probes_app.
      * intros i v Hv. cbn [after_probes probed]. rewrite <- app_assoc.
        exact (Hpre (S i) v Hv).
      * cbn [after_probes probed]. now rewrite <- app_assoc.
Qed.

Lemma try_urls_none (rt : Runtime) (urls : list string) (w : World) :
  (forall i u, nth_error urls i = Some u ->
               ~ reachable rt (probed w ++ firstn i urls)%list u) ->
  cerebras_qwen.try_urls rt urls w = (Ret None, after_probes w urls).
Proof.
  intro Hnone.
  destruct (try_urls_spec rt urls w)
    as [(pre & url & post & E & _ & Hu & _) | (_ & Hrun)]; [|exact Hrun].
  elim (Hnone (length pre) url).
  - rewrite E, nth_error_app2 by lia. now rewrite Nat.sub_diag.
  - rewrite E, firstn_app, firstn_all, Nat.sub_diag. cbn [firstn].
    now rewrite app_nil_r.
Qed.

(** The chat client once its search has settled on an endpoint: the
    value of the [try] on that endpoint, or the fallback at once when the
    endpoint is the empty string. *)
Lemma call_cerebras_qwen_chat_first (rt : Runtime) (host : Host)
  (messages : list chat_message) (w : World) (url : string) :
  cerebras_settings_parse rt ->
  first_reachable rt w url ->
  exists w1,
    cerebras_qwen.call_cerebras_qwen_chat rt host messages w
    = match cerebras_qwen.found (Some url) with
      | None => ret (JString (cerebras_qwen._fallback_chat_response messages None)) w1
      | Some url =>
          try_except
            (match chat_post host url messages with
             | ChatFault e => raise e
             | ChatResponse status_code text body =>
                 if (status_code =? 200)%Z then
                   bind (lift body) (fun result =>
                   bind (lift (jget result "choices" (JArray [JObject []])))
                     (fun choices =>
                   bind (lift (jfirst choices)) (fun choice =>
                   bind (lift (jget choice "message" (JObject []))) (fun message =>
                   lift (jget message "content" (JString ""))))))
                 else
                   ret (JString (cerebras_qwen._fallback_chat_response messages
                          (Some ("API call failed with status "
                                   ++ Py.str_int status_code ++ ": " ++ text))))
             end)
            is_RequestException
            (fun e =>
               ret (JString (cerebras_qwen._fallback_chat_response messages
                      (Some match e with
                            | ConnectionError m => "Connection error - " ++ m
                            | Timeout m => "Request timeout - " ++ m
                            | _ => "Request failed - " ++ str_exn e
                            end))))
            w1
      end.
Proof.
  intros Hcfg (pre & post & Eurls & Hpre & Hreach).
  unfold cerebras_qwen.call_cerebras_qwen_chat.
  destruct (get_cerebras_config_parses rt w Hcfg) as (config & Econfig & Ecand).
  erewrite bind_run by exact Econfig. cbv beta.
  unfold cerebras_qwen._find_working_endpoint. rewrite Ecand, Eurls.
  erewrite bind_run by (apply try_urls_first; [exact Hpre | exact Hreach]).
  cbv beta. eexists.
  destruct (cerebras_qwen.found (Some url)); reflexivity.
Qed.

(** X11. The chat client turns every failure of the network into the
    text of its fallback (in which the error message does not appear).
    With well-formed settings it answers that text when no candidate URL
    answers the probe, and, whichever candidate (the primary URL or a
    fallback URL) is the first to answer the probe, when the completion
    request to that candidate is answered with a status other than 200 or
    raises an exception of [requests], or the decoding of its body raises
    one.  It never raises an exception of [requests]. *)
Theorem call_cerebras_qwen_chat_falls_back (rt : Runtime) (host : Host)
  (messages : list chat_message) (w : World) :
  cerebras_settings_parse rt ->
  (none_reachable rt w ->
   value (cerebras_qwen.call_cerebras_qwen_chat rt host messages w)
   = Ret (JString (cerebras_qwen._fallback_chat_response messages None)))
  /\ (forall url status_code text body,
        first_reachable rt w url ->
        chat_post host url messages = ChatResponse status_code text body ->
        status_code <> 200%Z ->
        value (cerebras_qwen.call_cerebras_qwen_chat rt host messages w)
        = Ret (JString (cerebras_qwen._fallback_chat_response messages None)))
  /\ (forall url e,
        first_reachable rt w url ->
        (chat_post host url messages = ChatFault e
         \/ exists text, chat_post host url messages = ChatResponse 200 text (Raise e)) ->
        is_RequestException e = true ->
        value (cerebras_qwen.call_cerebras_qwen_chat rt host messages w)
        = Ret (JString (cerebras_qwen._fallback_chat_response messages None)))
  /\ (forall e w',
        cerebras_qwen.call_cerebras_qwen_chat rt host messages w = (Raise e, w') ->
        is_RequestException e = false).
Proof.
  intro Hcfg. split; [|split; [|split]].
  - intro Hnone. unfold cerebras_qwen.call_cerebras_qwen_chat.
    destruct (get_cerebras_config_parses rt w Hcfg) as (config & Econfig & Eurls).
    erewrite bind_run by exact Econfig. cbv beta.
    unfold cerebras_qwen._find_working_endpoint. rewrite Eurls.
    erewrite bind_run by (apply try_urls_none; exact Hnone).
    reflexivity.
  - intros url status_code text body Hfirst Hpost Hne.
    destruct (call_cerebras_qwen_chat_first rt host messages w url Hcfg Hfirst)
      as (w1 & ->).
    destruct (cerebras_qwen.found (Some url)) as [u|] eqn:Efound; [|reflexivity].
    assert (u = url) as ->.
    { cbn [cerebras_qwen.found] in Efound. destruct (Py.truthy url); congruence. }
    rewrite Hpost. apply Z.eqb_neq in Hne. rewrite Hne. reflexivity.
  - intros url e Hfirst Hpost He.
    destruct (call_cerebras_qwen_chat_first rt host messages w url Hcfg Hfirst)
      as (w1 & ->).
    destruct (cerebras_qwen.found (Some url)) as [u|] eqn:Efound; [|reflexivity].
    assert (u = url) as ->.
    { cbn [cerebras_qwen.found] in Efound. destruct (Py.truthy url); congruence. }
    destruct Hpost as [-> | (text & ->)].
    + unfold try_except, raise. rewrite He. reflexivity.
    + cbn [Z.eqb Pos.eqb]. unfold try_except, bind, lift. rewrite He.
      reflexivity.
  - intros e w' Hrun. unfold cerebras_qwen.call_cerebras_qwen_chat in Hrun.
    destruct (get_cerebras_config_parses rt w Hcfg) as (config & Econfig & _).
    erewrite bind_run in Hrun by exact Econfig. cbv beta in Hrun.
    destruct (find_working_endpoint_returns rt config w) as (url & w1 & Efind & _).
    erewrite bind_run in Hrun by exact Efind. cbv beta in Hrun.
    destruct (cerebras_qwen.found url) as [u|]; [|discriminate].
    unfold try_except in Hrun.
    match type of Hrun with
    | context [match ?body with _ => _ end] => destruct body as [[a|e0] w2]
    end; [discriminate|].
    destruct (is_RequestException e0) eqn:E0; [discriminate|].
    now injection Hrun as <- _.
Qed.

Lemma call_cerebras_qwen_chat_falls_back_witness :
  first_reachable second_cerebras world0 "https://api.cerebras.com/v1/completions"
  /\ value (cerebras_qwen.call_cerebras_qwen_chat second_cerebras down_host
              conversation world0)
     = Ret (JString (cerebras_qwen._fallback_chat_response conversation None)).
Proof.
  assert (Hcfg : cerebras_settings_parse second_cerebras)
    by (repeat split; eexists; reflexivity).
  assert (Hfirst : first_reachable second_cerebras world0
                     "https://api.cerebras.com/v1/completions").
  { exists ["https://api.cerebras.com/v1/chat/completions"],
      ["https://api.cerebras.com/chat/completions";
       "https://api.cerebras.com/completions";
       "https://cerebras-api.com/v1/chat/completions";
       "https://cerebras-api.com/v1/completions"].
    split; [reflexivity|]. split.
    - intros [|[|i]] u Hu; try discriminate. injection Hu as <-.
      intros (s & t & b & H & _). discriminate.
    - exists 200%Z, "", (Raise (Exception "no body")). split; [reflexivity | lia]. }
  split; [exact Hfirst|].
  refine (proj1 (proj2 (call_cerebras_qwen_chat_falls_back second_cerebras down_host
                          conversation world0 Hcfg))
            "https://api.cerebras.com/v1/completions" 503%Z "overloaded"
            (Raise (Exception "no body")) Hfirst eq_refl _).
  discriminate.
Defined.

(** One entry of the report and one probe of the prober: the same request,
    the same verdict, the same world. *)
Lemma test_one_agrees (rt : Runtime) (url : string) (w : World) :
  exists t,
    cerebras_qwen.test_one rt url w = (Ret t, after_probes w [url])
    /\ cerebras_qwen.test_url t = url
    /\ cerebras_qwen._test_endpoint_connectivity rt url w
       = (Ret (cerebras_qwen.test_reachable t
               && match cerebras_qwen.test_status_code t with
                  | Some status_code => (status_code <? 500)%Z
                  | None => false
                  end),
          after_probes w [url]).
Proof.
  unfold cerebras_qwen.test_one, cerebras_qwen._test_endpoint_connectivity, after_probes.
  destruct (session_head rt (probed w) url) as [e|status text body].
  - destruct e; eexists; (split; [reflexivity|]); split; reflexivity.
  - eexists. split; [reflexivity|]. split; reflexivity.
Qed.

Lemma test_each_agrees (rt : Runtime) (urls : list string) (w : World) :
  exists found_url tests,
    cerebras_qwen.test_each rt urls w
    = (Ret (found_url, tests), world (cerebras_qwen.try_urls rt urls w))
    /\ value (cerebras_qwen.try_urls rt urls w) = Ret found_url
    /\ probed (world (cerebras_qwen.try_urls rt urls w))
       = (probed w ++ map cerebras_qwen.test_url tests)%list
    /\ (found_url = None -> map cerebras_qwen.test_url tests = urls)
    /\ (forall url, found_url = Some url ->
          exists earlier last status_code,
            tests = (earlier ++ [last])%list
            /\ cerebras_qwen.test_url last = url
            /\ cerebras_qwen.test_status_code last = Some status_code
            /\ (status_code < 500)%Z).
Proof.
  revert w. induction urls as [|url rest IH]; intro w.
  - exists None, []. cbn. unfold ret, value, world. cbn.
    rewrite app_nil_r. repeat split; try reflexivity. discriminate.
  - cbn [cerebras_qwen.test_each cerebras_qwen.try_urls]. unfold bind.
    destruct (test_one_agrees rt url w) as (t & -> & Hurl & ->).
    destruct (cerebras_qwen.test_reachable t && _) eqn:Ework.
    + exists (Some url), [t]. unfold ret, value, world. cbn [fst snd map].
      repeat split; try discriminate.
      * unfold after_probes. cbn. now rewrite Hurl.
      * intros u Hu. injection Hu as <-.
        apply andb_true_iff in Ework. destruct Ework as [_ Hst].
        destruct (cerebras_qwen.test_status_code t) as [status|] eqn:Est; [|discriminate].
        exists [], t, status. repeat split; auto. now apply Z.ltb_lt.
    + destruct (IH (after_probes w [url]))
        as (found_url & tests & -> & Hval & Hprobed & Hnone & Hsome).
      exists found_url, (t :: tests). unfold ret. cbn [map].
      split; [reflexivity|]. split; [exact Hval|]. split; [|split].
      * rewrite Hprobed. unfold after_probes. cbn [probed].
        rewrite <- app_assoc. cbn. now rewrite Hurl.
      * intro H. rewrite Hurl. f_equal. now apply Hnone.
      * intros u Hu. destruct (Hsome u Hu) as (earlier & last & status & -> & H1 & H2 & H3).
        exists (t :: earlier), last, status. repeat split; auto.
Qed.

(** X12. The connectivity report agrees with the prober.  With
    well-formed settings [test_cerebras_connectivity] returns a report
    whose working endpoint is the URL [_find_working_endpoint] returns on
    the same configuration, after the same probes; its tests are the
    probes issued, in order; when it names a working endpoint, the last
    test is the one of that endpoint and shows a status below 500; when it
    names none, every candidate was tested. *)
Theorem test_cerebras_connectivity_agrees (rt : Runtime) (w : World) :
  cerebras_settings_parse rt ->
  exists config report w',
    cerebras_qwen.get_cerebras_config rt w = (Ret config, w)
    /\ cerebras_qwen.test_cerebras_connectivity rt w = (Ret report, w')
    /\ cerebras_qwen._find_working_endpoint rt config w
       = (Ret (cerebras_qwen.working_endpoint report), w')
    /\ probed w' = (probed w ++ map cerebras_qwen.test_url (cerebras_qwen.all_tests report))%list
    /\ (cerebras_qwen.working_endpoint report = None ->
        map cerebras_qwen.test_url (cerebras_qwen.all_tests report) = cerebras_candidates rt)
    /\ (forall url,
          cerebras_qwen.working_endpoint report = Some url ->
          exists earlier last status_code,
            cerebras_qwen.all_tests report = (earlier ++ [last])%list
            /\ cerebras_qwen.test_url last = url
            /\ cerebras_qwen.test_status_code last = Some status_code
            /\ (status_code < 500)%Z).
Proof.
  intro Hcfg.
  destruct (get_cerebras_config_parses rt w Hcfg) as (config & Econfig & Eurls).
  destruct (test_each_agrees rt
              (cerebras_qwen.api_url config :: cerebras_qwen.fallback_urls config) w)
    as (found_url & tests & Etests & Hval & Hprobed & Hnone & Hsome).
  exists config. eexists _, _. split; [exact Econfig|]. split.
  - unfold cerebras_qwen.test_cerebras_connectivity.
    erewrite bind_run by exact Econfig. cbv beta.
    erewrite bind_run by exact Etests. cbv beta iota. reflexivity.
  - cbn [cerebras_qwen.working_endpoint cerebras_qwen.all_tests].
    split; [|split; [exact Hprobed|split]].
    + unfold cerebras_qwen._find_working_endpoint.
      unfold value, world in *.
      destruct (cerebras_qwen.try_urls rt _ w) as [r w1]. cbn [fst snd] in *.
      now rewrite Hval.
    + intro H. rewrite <- Eurls. now apply Hnone.
    + exact Hsome.
Qed.

Lemma test_cerebras_connectivity_agrees_witness :
  exists config report w',
    cerebras_qwen.get_cerebras_config flaky world0 = (Ret config, world0)
    /\ cerebras_qwen.test_cerebras_connectivity flaky world0 = (Ret report, w')
    /\ cerebras_qwen._find_working_endpoint flaky config world0
       = (Ret (cerebras_qwen.working_endpoint report), w')
    /\ probed w' = (probed world0 ++ map cerebras_qwen.test_url (cerebras_qwen.all_tests report))%list
    /\ (cerebras_qwen.working_endpoint report = None ->
        map cerebras_qwen.test_url (cerebras_qwen.all_tests report) = cerebras_candidates flaky)
    /\ (forall url,
          cerebras_qwen.working_endpoint report = Some url ->
          exists earlier last status_code,
            cerebras_qwen.all_tests report = (earlier ++ [last])%list
            /\ cerebras_qwen.test_url last = url
            /\ cerebras_qwen.test_status_code last = Some status_code
            /\ (status_code < 500)%Z).
Proof.
  apply (test_cerebras_connectivity_agrees flaky world0).
  repeat split; eexists; reflexivity.
Defined.

(** On the flaky deployment the report names the third candidate and
    lists three tests. *)
Example test_cerebras_connectivity_flaky :
  value (cerebras_qwen.test_cerebras_connectivity flaky world0)
  = Ret (cerebras_qwen.mkConnectivity
           "https://api.cerebras.com/v1/chat/completions"
           ["https://api.cerebras.com/v1/completions";
            "https://api.cerebras.com/chat/completions";
            "https://api.cerebras.com/completions";
            "https://cerebras-api.com/v1/chat/completions";
            "https://cerebras-api.com/v1/completions"]
           (Some "https://api.cerebras.com/chat/completions")
           [cerebras_qwen.mkTest "https://api.cerebras.com/v1/chat/completions" true (Some 503%Z) None;
            cerebras_qwen.mkTest "https://api.cerebras.com/v1/completions" false None
              (Some "Timeout: timed out after 5 seconds");
            cerebras_qwen.mkTest "https://api.cerebras.com/chat/completions" true (Some 404%Z) None]).
Proof. reflexivity. Qed.

(* ================================================================== *)
(** * Further properties of the analyze request and the log *)
(* ================================================================== *)

(** An accepted request whose upload is saved and captioned is analyzed:
    the answer and the row written. *)
Lemma analyze_image_analyzes (rt : Runtime)
  (question content_type filename file_path image_context : string) (w : World) :
  In content_type ["image/jpeg"; "image/png"] ->
  save_and_caption rt filename = Ret (file_path, image_context) ->
  exists body entry w',
    analyze.analyze_image rt question content_type filename w
    = (Ret (analyze.Analyzed body), w')
    /\ logs_file w' = Logs (analyze.read_logs (logs_file w) ++ [entry])%list
    /\ analyze.analysis_id body = uuid4 rt
    /\ analyze.analysis_question body = question
    /\ analyze.analysis_filename body = analyze.basename file_path
    /\ entry = mkLogEntry (uuid4 rt) (now_isoformat rt) (analyze.analysis_task body)
                 (analyze.analysis_model body)
                 (round_ (analyze.analysis_latency body) 2)
                 (analyze.analysis_result body).
Proof.
  intros Hct Hsave.
  unfold analyze.analyze_image.
  erewrite bind_run by apply time_run. cbv beta.
  assert (Ect : existsb (String.eqb content_type) ["image/jpeg"; "image/png"] = true).
  { apply existsb_exists. exists content_type. split; [exact Hct | apply String.eqb_refl]. }
  rewrite Ect. cbn [negb].
  erewrite bind_run by (unfold lift; rewrite Hsave; reflexivity). cbv beta iota.
  erewrite bind_run by apply time_run. cbv beta.
  match goal with
  | |- context [bind (ai_classifier.classify_task_with_qwen rt question (Some image_context)) _ ?w2] =>
      destruct (classify_task_with_qwen_returns rt question (Some image_context) w2)
        as (task & w3 & E & _);
      pose proof (quiet_classify_task_with_qwen rt question (Some image_context) w2) as L;
      rewrite E in L; unfold world in L; cbn [snd] in L
  end.
  erewrite bind_run by exact E. cbv beta.
  erewrite bind_run by apply time_run. cbv beta zeta.
  erewrite bind_run by apply time_run. cbv beta.
  match goal with
  | |- context [bind (analyze.handle_task rt task file_path question) _ ?w5] =>
      destruct (handle_task_returns rt task file_path question w5)
        as (result & model_used & Eh & _)
  end.
  erewrite bind_run by exact Eh. cbv beta iota zeta.
  erewrite bind_run by apply time_run. cbv beta zeta.
  erewrite bind_run by apply time_run. cbv beta zeta.
  unfold bind, analyze.append_log, ret.
  cbn [probed clock_reads logs_file] in *.
  destruct L as [Elogs _]. cbn [probed clock_reads logs_file] in Elogs.
  eexists _, _, _. split; [reflexivity|].
  cbn [logs_file analyze.analysis_id analyze.analysis_question analyze.analysis_filename
       analyze.analysis_task analyze.analysis_model analyze.analysis_latency
       analyze.analysis_result log_id].
  rewrite Elogs. repeat split.
Qed.

(** X13. The three outcomes of [analyze_image].  A content type other
    than [image/jpeg] and [image/png] is answered with status 400 after
    one clock reading: nothing is classified, probed or logged.  When
    saving or captioning the upload raises, the request raises the same
    exception and no row is written.  Otherwise the request is analyzed:
    it never raises, answers with the fresh id, the question and the base
    name of the saved file, and appends exactly the row of that answer,
    the latency rounded to two places. *)
Theorem analyze_image_outcomes (rt : Runtime)
  (question content_type filename : string) (w : World) :
  (~ In content_type ["image/jpeg"; "image/png"] ->
   analyze.analyze_image rt question content_type filename w
   = (Ret (analyze.JSONResponse 400 "Only JPG and PNG images are allowed"), tick w))
  /\ (forall e,
        In content_type ["image/jpeg"; "image/png"] ->
        save_and_caption rt filename = Raise e ->
        analyze.analyze_image rt question content_type filename w = (Raise e, tick w))
  /\ (forall file_path image_context,
        In content_type ["image/jpeg"; "image/png"] ->
        save_and_caption rt filename = Ret (file_path, image_context) ->
        exists body entry w',
          analyze.analyze_image rt question content_type filename w
          = (Ret (analyze.Analyzed body), w')
          /\ logs_file w' = Logs (analyze.read_logs (logs_file w) ++ [entry])%list
          /\ analyze.analysis_id body = uuid4 rt
          /\ analyze.analysis_question body = question
          /\ analyze.analysis_filename body = analyze.basename file_path
          /\ entry = mkLogEntry (uuid4 rt) (now_isoformat rt)
                       (analyze.analysis_task body) (analyze.analysis_model body)
                       (round_ (analyze.analysis_latency body) 2)
                       (analyze.analysis_result body)).
Proof.
  split; [|split].
  - intro Hct. unfold analyze.analyze_image.
    erewrite bind_run by apply time_run. cbv beta.
    assert (Ect : existsb (String.eqb content_type) ["image/jpeg"; "image/png"] = false).
    { destruct (existsb _ _) eqn:E; [|reflexivity].
      apply existsb_exists in E. destruct E as (x & Hx & Heq).
      apply String.eqb_eq in Heq. subst x. now elim Hct. }
    rewrite Ect. reflexivity.
  - intros e Hct Hsave. unfold analyze.analyze_image.
    erewrite bind_run by apply time_run. cbv beta.
    assert (Ect : existsb (String.eqb content_type) ["image/jpeg"; "image/png"] = true).
    { apply existsb_exists. exists content_type. split; [exact Hct | apply String.eqb_refl]. }
    rewrite Ect. cbn [negb]. unfold bind, lift. rewrite Hsave. reflexivity.
  - intros file_path image_context Hct Hsave.
    now apply analyze_image_analyzes with (image_context := image_context).
Qed.

Lemma analyze_image_outcomes_witness :
  analyze.analyze_image offline "what color is the car" "image/gif" "car.gif" world0
  = (Ret (analyze.JSONResponse 400 "Only JPG and PNG images are allowed"), tick world0).
Proof.
  apply (proj1 (analyze_image_outcomes offline "what color is the car" "image/gif"
                  "car.gif" world0)).
  simpl. intros [H|[H|[]]]; discriminate.
Defined.

(** X14. What an analyzed request does to [logs.json].  Afterwards the
    file is a JSON list, so [get_result] cannot fail to decode it.  A file
    that was a list keeps all its rows, in order, before the new one; a
    file that did not decode is replaced by the one new row.  When the ids
    of the rows were distinct and the id drawn is fresh, they are distinct
    afterwards, and every row written before is still the row [get_result]
    returns for its id. *)
Theorem analyze_image_keeps_log (rt : Runtime)
  (question content_type filename : string) (w w' : World) (body : analyze.Analysis) :
  analyze.analyze_image rt question content_type filename w
  = (Ret (analyze.Analyzed body), w') ->
  (exists rows, logs_file w' = Logs rows)
  /\ (forall result_id e w'',
        analyze.get_result result_id w' = (Raise e, w'') ->
        exists detail, e = HTTPException 404 detail)
  /\ (forall rows, logs_file w = Logs rows ->
        exists entry, logs_file w' = Logs (rows ++ [entry])%list)
  /\ (logs_file w = Corrupt -> exists entry, logs_file w' = Logs [entry])
  /\ (NoDup (ids (logs_file w)) -> ~ In (uuid4 rt) (ids (logs_file w)) ->
      NoDup (ids (logs_file w'))
      /\ forall earlier, In earlier (analyze.read_logs (logs_file w)) ->
           analyze.get_result (log_id earlier) w' = (Ret earlier, w')).
Proof.
  intro Hrun.
  destruct (analyze_image_appends rt question content_type filename w w' body Hrun)
    as (entry & Hlogs & Hid & _).
  split; [eauto|]. split; [|split; [|split]].
  - intros result_id e w'' Hget. unfold analyze.get_result in Hget. rewrite Hlogs in Hget.
    destruct (find _ _); [discriminate|]. injection Hget as <- _. eauto.
  - intros rows Hrows. exists entry. rewrite Hlogs, Hrows. reflexivity.
  - intro Hcorrupt. exists entry. rewrite Hlogs, Hcorrupt. reflexivity.
  - intros Hnodup Hfresh. unfold ids in *. rewrite Hlogs. cbn [analyze.read_logs].
    set (old := analyze.read_logs (logs_file w)) in *.
    split.
    + rewrite map_app. cbn [map]. rewrite Hid.
      apply NoDup_app_remove_l with (l := []). cbn [app].
      rewrite <- (app_nil_r (map log_id old ++ [uuid4 rt])).
      apply NoDup_app; [| constructor | intros x _ []].
      apply NoDup_app; [exact Hnodup | repeat constructor; intros [] |].
      intros x Hx [<-|[]]. now elim Hfresh.
    + intros earlier Hin. unfold analyze.get_result. rewrite Hlogs.
      apply in_split in Hin. destruct Hin as (l1 & l2 & Eold).
      rewrite Eold, <- app_assoc. cbn [app].
      rewrite find_fresh; [reflexivity|].
      rewrite Eold, map_app in Hnodup. cbn [map] in Hnodup.
      apply NoDup_remove_2 in Hnodup. intro Hin. apply Hnodup.
      apply in_or_app. now left.
Qed.

Lemma analyze_image_keeps_log_witness :
  exists rows,
    logs_file (world (analyze.analyze_image offline "what color is the car"
                        "image/png" "car.png" world0)) = Logs rows.
Proof.
  refine (proj1 (analyze_image_keeps_log offline "what color is the car" "image/png"
                   "car.png" world0
                   (world (analyze.analyze_image offline "what color is the car"
                             "image/png" "car.png" world0))
                   (analyze.mkAnalysis "0b4f6c1e" "Other" "what color is the car" "car.png"
                      (PStr "Task handling failed due to an error")
                      (inject_Z 7 - inject_Z 0) "error") _)).
  reflexivity.
Defined.

Lemma find_sound (logs : list LogEntry) (result_id : string) (entry : LogEntry) :
  find (fun e => String.eqb (log_id e) result_id) logs = Some entry ->
  exists before after,
    logs = (before ++ entry :: after)%list
    /\ log_id entry = result_id
    /\ ~ In result_id (map log_id before).
Proof.
  induction logs as [|e logs IH]; simpl; [discriminate|].
  destruct (String.eqb_spec (log_id e) result_id) as [E|Hne].
  - intro H. injection H as <-. exists [], logs. repeat split; auto.
  - intro H. destruct (IH H) as (before & after & -> & Hid & Hnot).
    exists (e :: before), after. repeat split; auto.
    intros [H1|H1]; [now elim Hne | now elim Hnot].
Qed.

(** X15. [get_result] reads and changes nothing else.  The row it returns
    carries the id asked for and is the first such row of the file; among
    rows of distinct ids it is the only one.  It raises the 404 of
    [HTTPException] when the file is absent or no row carries the id, and
    an exception that is not an [HTTPException] when the file does not
    decode. *)
Theorem get_result_first_row (result_id : string) (w : World) :
  world (analyze.get_result result_id w) = w
  /\ (forall entry,
        value (analyze.get_result result_id w) = Ret entry ->
        exists before after,
          logs_file w = Logs (before ++ entry :: after)%list
          /\ log_id entry = result_id
          /\ ~ In result_id (map log_id before)
          /\ (NoDup (ids (logs_file w)) -> ~ In result_id (map log_id after)))
  /\ (logs_file w = Missing ->
      value (analyze.get_result result_id w)
      = Raise (HTTPException 404 "No results found"))
  /\ (forall rows,
        logs_file w = Logs rows -> ~ In result_id (map log_id rows) ->
        value (analyze.get_result result_id w)
        = Raise (HTTPException 404 ("Result not found for ID: " ++ result_id)))
  /\ (logs_file w = Corrupt ->
      exists msg, value (analyze.get_result result_id w) = Raise (Exception msg)).
Proof.
  unfold analyze.get_result, value, world.
  split; [|split; [|split; [|split]]].
  - destruct (logs_file w) as [| |rows]; try reflexivity.
    destruct (find _ rows); reflexivity.
  - intros entry H. destruct (logs_file w) as [| |rows] eqn:E; try discriminate.
    destruct (find _ rows) as [found|] eqn:Efind; [|discriminate].
    cbn [fst] in H. injection H as ->.
    destruct (find_sound rows result_id entry Efind) as (before & after & -> & Hid & Hnot).
    exists before, after. repeat split; auto.
    unfold ids. cbn [analyze.read_logs]. rewrite map_app. cbn [map].
    intros Hnodup Hin. apply NoDup_remove_2 in Hnodup. apply Hnodup.
    apply in_or_app. right. now rewrite Hid.
  - intros ->. reflexivity.
  - intros rows -> Hnot. now rewrite find_unknown.
  - intros ->. eexists. reflexivity.
Qed.

Lemma get_result_first_row_witness :
  value (analyze.get_result "0b4f6c1e" world0)
  = Raise (HTTPException 404 "No results found").
Proof.
  apply (proj1 (proj2 (proj2 (get_result_first_row "0b4f6c1e" world0)))).
  reflexivity.
Defined.

(** X16. What [handle_task] makes of the handler's answer, the routing
    having chosen an endpoint and a model.  A status other than 200 is
    not an error to it: the result is the text "Task handling failed with
    status" and the status, and the model stays the routed one.  A status
    200 with a JSON object gives the field [result], or the words "Task
    completed successfully" when the field is absent.  Only when the
    call raises, or the body is not a JSON object, the answer is the
    error text with the model [error]. *)
Theorem handle_task_answers (rt : Runtime)
  (task image_path question endpoint model_used : string) (w : World) :
  analyze.route task (randbelow rt 2) = Ret (endpoint, model_used) ->
  let url := "http://localhost:8000/task/" ++ endpoint in
  let run := analyze.handle_task rt task image_path question w in
  (forall status_code text body,
      client_post rt url image_path question = Response status_code text body ->
      status_code <> 200%Z ->
      run = (Ret (PStr ("Task handling failed with status " ++ Py.str_int status_code),
                  model_used), w))
  /\ (forall text fields,
        client_post rt url image_path question = Response 200 text (Ret (JDict fields)) ->
        run = (Ret (match assoc "result" fields with
                    | Some result => result
                    | None => PStr "Task completed successfully"
                    end, model_used), w))
  /\ (forall e text,
        client_post rt url image_path question = Fault e
        \/ client_post rt url image_path question = Response 200 text (Raise e)
        \/ client_post rt url image_path question = Response 200 text (Ret JOther) ->
        run = (Ret (PStr "Task handling failed due to an error", "error"), w)).
Proof.
  intro Hroute. cbv zeta.
  unfold analyze.handle_task, try_except, bind, lift. rewrite Hroute. cbv beta iota.
  split; [|split].
  - intros status_code text body -> Hne. apply Z.eqb_neq in Hne. now rewrite Hne.
  - intros text fields ->. reflexivity.
  - intros e text [-> | [-> | ->]]; reflexivity.
Qed.

Lemma handle_task_answers_witness :
  analyze.handle_task overloaded "Visual QA" "/srv/uploads/car.png"
    "what color is the car" world0
  = (Ret (PStr "Task handling failed with status 503", "pytesseract"), world0).
Proof.
  refine (proj1 (handle_task_answers overloaded "Visual QA" "/srv/uploads/car.png"
                   "what color is the car" "vqa" "pytesseract" world0 _)
            503%Z "Service Unavailable" (Raise (Exception "JSONDecodeError")) _ _).
  - reflexivity.
  - reflexivity.
  - discriminate.
Defined.

(* ================================================================== *)
(** * The task handlers *)
(* ================================================================== *)

Lemma truthy_nonempty (s : string) : Py.truthy s = true -> s <> "".
Proof. destruct s; [discriminate | discriminate]. Qed.

Lemma join_nonempty (sep first : string) (rest : list string) :
  first <> "" -> Py.join sep (first :: rest) <> "".
Proof.
  intro H. unfold Py.join. destruct first as [|c t]; [now elim H|].
  destruct rest; simpl; discriminate.
Qed.

Lemma meaningful_some (detected_text : pyobj) (s : string) :
  tasks.meaningful detected_text = Some s ->
  detected_text = OStr s
  /\ s <> ""
  /\ (1 < String.length (Py.strip s))%nat
  /\ ~ Py.occurs banned_text (Py.lower s).
Proof.
  unfold tasks.meaningful. destruct detected_text as [|t| | |]; try discriminate.
  destruct (Py.truthy t) eqn:E1; [|discriminate].
  destruct (Py.truthy (Py.strip t)) eqn:E2; [|discriminate].
  destruct (1 <? String.length (Py.strip t))%nat eqn:E3; [|discriminate].
  destruct (Py.contains "naotoeeeeeeiee" (Py.lower t)) eqn:E4; [discriminate|].
  cbn [andb negb]. intro H. injection H as <-.
  split; [reflexivity|]. split; [now apply truthy_nonempty|].
  split; [now apply Nat.ltb_lt|].
  intro Hocc. apply contains_occurs in Hocc. unfold banned_text in Hocc. congruence.
Qed.

Lemma simocr_line_texts (line : list pyobj) :
  map tasks.result_text (tasks.simocr_line_results line) = tasks.ocr_line_parts line.
Proof.
  induction line as [|item rest IH]; [reflexivity|].
  cbn [tasks.simocr_line_results tasks.ocr_line_parts].
  destruct (tasks.detection item) as [[[bbox t] c]|]; [|exact IH].
  destruct (tasks.meaningful t); [|exact IH].
  cbn [map tasks.result_text]. now rewrite IH.
Qed.

Lemma ocr_line_parts_meaningful (line : list pyobj) :
  Forall (fun s => s <> "" /\ (1 < String.length (Py.strip s))%nat
                   /\ ~ Py.occurs banned_text (Py.lower s))
    (tasks.ocr_line_parts line).
Proof.
  induction line as [|item rest IH]; [constructor|].
  cbn [tasks.ocr_line_parts].
  destruct (tasks.detection item) as [[[bbox t] c]|]; [|exact IH].
  destruct (tasks.meaningful t) as [s|] eqn:E; [|exact IH].
  constructor; [|exact IH].
  destruct (meaningful_some t s E) as (_ & H1 & H2 & H3). auto.
Qed.

Lemma ocr_handlers_texts (lines : list (option (list pyobj))) :
  map tasks.result_text (tasks.simocr_text_results lines) = tasks.ocr_text_parts lines
  /\ Forall (fun s => s <> "" /\ (1 < String.length (Py.strip s))%nat
                      /\ ~ Py.occurs banned_text (Py.lower s))
       (tasks.ocr_text_parts lines).
Proof.
  split.
  - induction lines as [|[line|] rest IH]; [reflexivity| |exact IH].
    cbn [tasks.simocr_text_results tasks.ocr_text_parts].
    now rewrite map_app, simocr_line_texts, IH.
  - induction lines as [|[line|] rest IH]; [constructor| |exact IH].
    cbn [tasks.ocr_text_parts]. apply Forall_app. split; [|exact IH].
    apply ocr_line_parts_meaningful.
Qed.

(** X17. The two OCR handlers keep the same detections of a PaddleOCR
    result, in the same order.  When the texts of the detections are of
    ASCII characters, every text kept is a string with more than one
    character once stripped and does not hold the banned string.  A
    detection whose text and confidence come as a tuple is dropped by
    both.  And [ocr_task] looks at the detections only when the first
    line holds some: otherwise its text is "No text found in image",
    whatever the later lines hold. *)
Theorem ocr_handlers_keep_same_detections (lines : list (option (list pyobj))) :
  map tasks.result_text (tasks.simocr_text_results lines) = tasks.ocr_text_parts lines
  /\ (ascii_texts lines ->
      Forall (fun s => s <> "" /\ (1 < String.length (Py.strip s))%nat
                       /\ ~ Py.occurs banned_text (Py.lower s))
        (tasks.ocr_text_parts lines))
  /\ (forall line, Forall tuple_detection line -> tasks.ocr_line_parts line = [])
  /\ (forall later,
        tasks.paddle_text (Some (None :: later)) = "No text found in image"
        /\ tasks.paddle_text (Some (Some [] :: later)) = "No text found in image").
Proof.
  split; [|split; [|split]].
  - apply ocr_handlers_texts.
  - intros _. apply ocr_handlers_texts.
  - intros line Hall. induction Hall as [|item rest (bbox & t & c & ->) _ IH];
      [reflexivity | exact IH].
  - intro later. split; reflexivity.
Qed.

Lemma ocr_handlers_keep_same_detections_witness :
  ascii_texts sign_lines
  /\ Forall (fun s => s <> "" /\ (1 < String.length (Py.strip s))%nat
                      /\ ~ Py.occurs banned_text (Py.lower s))
       (tasks.ocr_text_parts sign_lines).
Proof.
  assert (H : ascii_texts sign_lines).
  { intros line item bbox s confidence [E|[]] Hin Hdet. injection E as <-.
    destruct Hin as [<-|[<-|[<-|[]]]]; cbn in Hdet; try discriminate;
      injection Hdet as _ <- _; reflexivity. }
  split; [exact H|].
  exact (proj1 (proj2 (ocr_handlers_keep_same_detections sign_lines)) H).
Defined.

(** On the sample lines only the sign is kept. *)
Example ocr_text_parts_sign : tasks.ocr_text_parts sign_lines = ["STOP"].
Proof. reflexivity. Qed.


Lemma record_quietly_returns (host : Host) (model_name : string) (latency : Q)
  (task : string) (w : World) :
  tasks.record_quietly host model_name latency task w = (Ret tt, w).
Proof.
  unfold tasks.record_quietly, try_except, lift, ret.
  destruct (metrics_post host model_name latency task) as [[]|e]; reflexivity.
Qed.



Lemma latency_nonneg (rt : Runtime) (n : nat) (ndigits : nat) :
  clock_monotone rt ->
  (0 <= round_ (time_time rt (S n) - time_time rt n) ndigits)%Q.
Proof.
  intro Hclock. apply round_nonneg.
  pose proof (Hclock n (S n) (Nat.le_succ_diag_r n)). lra.
Qed.

(** X19. The handlers behind [/task/ocr], [/task/simocr], [/task/caption]
    and [/task/vqa] always reply: whatever the libraries and services
    raise, none of them raises.  The reply of an OCR handler is a text
    that is not empty; the model named is [pytesseract] or [PaddleOCR]
    for [ocr_task] (the latter only when PaddleOCR returned),
    [PaddleOCR (Simple)] for [simocr_task] and [BLIP-2] for the other two;
    the latency is not negative when the clock does not run backwards. *)
Theorem handlers_always_reply (rt : Runtime) (host : Host)
  (request : tasks.TaskRequest) (w : World) :
  (exists reply w' s,
      tasks.ocr_task rt host request w = (Ret reply, w')
      /\ tasks.reply_result reply = PStr s /\ s <> ""
      /\ (tasks.reply_model_name reply = "pytesseract"
          \/ tasks.reply_model_name reply = "PaddleOCR"
             /\ exists r, paddle_ocr host (tasks.image_path request) = Ret r)
      /\ (clock_monotone rt -> (0 <= tasks.reply_latency reply)%Q))
  /\ (exists reply w' s,
        tasks.simocr_task rt host request w = (Ret reply, w')
        /\ tasks.reply_result reply = PStr s /\ s <> ""
        /\ tasks.reply_model_name reply = "PaddleOCR (Simple)"
        /\ (clock_monotone rt -> (0 <= tasks.reply_latency reply)%Q))
  /\ (exists reply w' s,
        tasks.caption_task rt host request w = (Ret reply, w')
        /\ tasks.reply_result reply = PStr s
        /\ tasks.reply_model_name reply = "BLIP-2"
        /\ (clock_monotone rt -> (0 <= tasks.reply_latency reply)%Q))
  /\ (exists reply w' s,
        tasks.vqa_task rt host request w = (Ret reply, w')
        /\ tasks.reply_result reply = PStr s
        /\ tasks.reply_model_name reply = "BLIP-2"
        /\ (clock_monotone rt -> (0 <= tasks.reply_latency reply)%Q)).
Proof.
  split; [|split; [|split]].
  - unfold tasks.ocr_task.
    erewrite bind_run by apply time_run. cbv beta zeta.
    destruct (path_exists host (tasks.image_path request)); cbn [negb].
    + unfold try_except, bind, lift, ret, raise, time, any_exception.
      cbn [probed clock_reads logs_file].
      destruct (image_open host (tasks.image_path request)) as [[]|e].
      * destruct (Py.truthy (Py.strip (tasks.first_text host _ tasks.psm_modes))) eqn:Etext.
        -- rewrite record_quietly_returns.
           eexists _, _, _. split; [reflexivity|].
           cbn [tasks.reply_result tasks.reply_model_name tasks.reply_latency].
           split; [reflexivity|]. split; [now apply truthy_nonempty|].
           split; [now left | now apply latency_nonneg].
        -- destruct (paddle_ocr host (tasks.image_path request)) as [r|e] eqn:Epaddle.
           ++ rewrite record_quietly_returns.
              eexists _, _, _. split; [reflexivity|].
              cbn [tasks.reply_result tasks.reply_model_name tasks.reply_latency].
              split; [reflexivity|]. split.
              { destruct (Py.truthy (Py.strip (tasks.paddle_text r))) eqn:E;
                  [now apply truthy_nonempty | discriminate]. }
              split; [right; split; eauto | now apply latency_nonneg].
           ++ eexists _, _, _. split; [reflexivity|].
              cbn [tasks.reply_result tasks.reply_model_name tasks.reply_latency].
              split; [reflexivity|]. split; [discriminate|].
              split; [now left | now apply latency_nonneg].
      * destruct (paddle_ocr host (tasks.image_path request)) as [r|e'] eqn:Epaddle.
        -- rewrite record_quietly_returns.
           eexists _, _, _. split; [reflexivity|].
           cbn [tasks.reply_result tasks.reply_model_name tasks.reply_latency].
           split; [reflexivity|]. split.
           { destruct (Py.truthy (Py.strip (tasks.paddle_text r))) eqn:E;
               [now apply truthy_nonempty | discriminate]. }
           split; [right; split; eauto | now apply latency_nonneg].
        -- eexists _, _, _. split; [reflexivity|].
           cbn [tasks.reply_result tasks.reply_model_name tasks.reply_latency].
           split; [reflexivity|]. split; [discriminate|].
           split; [now left | now apply latency_nonneg].
    + unfold try_except, ret.
      eexists _, _, _. split; [reflexivity|].
      cbn [tasks.reply_result tasks.reply_model_name tasks.reply_latency].
      split; [reflexivity|]. split; [discriminate|].
      split; [now left | intros _; apply Qle_refl].
  - unfold tasks.simocr_task.
    erewrite bind_run by apply time_run. cbv beta zeta.
    unfold try_except, bind, lift, ret, raise, time, any_exception.
    cbn [probed clock_reads logs_file].
    destruct (path_exists host (tasks.image_path request)); cbn [negb].
    + destruct (paddle_ocr host (tasks.image_path request)) as [r|e].
      * eexists _, _, _. split; [reflexivity|].
        cbn [tasks.reply_result tasks.reply_model_name tasks.reply_latency].
        split; [reflexivity|]. split; [|split; [reflexivity | now apply latency_nonneg]].
        destruct r as [[|line lines]|]; try discriminate.
        destruct (tasks.simocr_text_results (line :: lines)) as [|t ts] eqn:E;
          [discriminate|].
        cbn [map]. apply join_nonempty.
        assert (Hin : In (tasks.result_text t)
                        (map tasks.result_text (tasks.simocr_text_results (line :: lines))))
          by (rewrite E; now left).
        destruct (ocr_handlers_texts (line :: lines)) as [Hmap Hall].
        rewrite Hmap in Hin. rewrite Forall_forall in Hall.
        now destruct (Hall _ Hin).
      * eexists _, _, _. split; [reflexivity|].
        cbn [tasks.reply_result tasks.reply_model_name tasks.reply_latency].
        split; [reflexivity|]. split; [discriminate|].
        split; [reflexivity | now apply latency_nonneg].
    + eexists _, _, _. split; [reflexivity|].
      cbn [tasks.reply_result tasks.reply_model_name tasks.reply_latency].
      split; [reflexivity|]. split; [discriminate|].
      split; [reflexivity | now apply latency_nonneg].
  - unfold tasks.caption_task.
    erewrite bind_run by apply time_run. cbv beta zeta.
    unfold try_except, bind, lift, ret, time, any_exception.
    cbn [probed clock_reads logs_file].
    destruct (blip_caption host (tasks.image_path request)) as [caption|e];
      eexists _, _, _; (split; [reflexivity|]);
      cbn [tasks.reply_result tasks.reply_model_name tasks.reply_latency];
      (split; [reflexivity|]); (split; [reflexivity | now apply latency_nonneg]).
  - unfold tasks.vqa_task.
    erewrite bind_run by apply time_run. cbv beta zeta.
    unfold try_except, bind, lift, ret, time, any_exception.
    cbn [probed clock_reads logs_file].
    destruct (blip_answer host (tasks.image_path request) (tasks.question request))
      as [answer|e];
      eexists _, _, _; (split; [reflexivity|]);
      cbn [tasks.reply_result tasks.reply_model_name tasks.reply_latency];
      (split; [reflexivity|]); (split; [reflexivity | now apply latency_nonneg]).
Qed.

Lemma handlers_always_reply_witness :
  exists reply w',
    tasks.caption_task offline bare_host
      (tasks.mkTaskRequest "/srv/uploads/sign.png" "") world0 = (Ret reply, w')
    /\ (0 <= tasks.reply_latency reply)%Q.
Proof.
  destruct (handlers_always_reply offline bare_host
              (tasks.mkTaskRequest "/srv/uploads/sign.png" "") world0)
    as (_ & _ & (reply & w' & s & E & _ & _ & Hlat) & _).
  exists reply, w'. split; [exact E|].
  apply Hlat. intros i j Hij. simpl. rewrite <- Zle_Qle. lia.
Defined.

(** X20. A missing image file.  [ocr_task] replies "Image file not found"
    with latency 0 under the model [pytesseract], after one clock reading
    and without calling a library.  [simocr_task] raises a 404 for it
    inside its own [try], so the 404 never leaves the handler: the reply
    is "No text detected in image" under [PaddleOCR (Simple)]. *)
Theorem ocr_handlers_missing_file (rt : Runtime) (host : Host)
  (request : tasks.TaskRequest) (w : World) :
  path_exists host (tasks.image_path request) = false ->
  tasks.ocr_task rt host request w
  = (Ret (tasks.mkTaskReply (PStr "Image file not found") 0 "pytesseract"), tick w)
  /\ tasks.simocr_task rt host request w
     = (Ret (tasks.mkTaskReply (PStr "No text detected in image")
               (round_ (time_time rt (S (clock_reads w)) - time_time rt (clock_reads w)) 4)
               "PaddleOCR (Simple)"),
        tick (tick w)).
Proof.
  intro Hmissing. unfold tasks.ocr_task, tasks.simocr_task.
  split; erewrite bind_run by apply time_run; cbv beta zeta;
    rewrite Hmissing; reflexivity.
Qed.

Lemma ocr_handlers_missing_file_witness :
  tasks.ocr_task offline bare_host (tasks.mkTaskRequest "nonexistent.png" "") world0
  = (Ret (tasks.mkTaskReply (PStr "Image file not found") 0 "pytesseract"), tick world0).
Proof.
  apply (proj1 (ocr_handlers_missing_file offline bare_host
                  (tasks.mkTaskRequest "nonexistent.png" "") world0 eq_refl)).
Defined.

(* ================================================================== *)
(** * Sorting *)
(* ================================================================== *)

Lemma insert_by_perm {A : Type} (key : A -> Q) (x : A) (l : list A) :
  Permutation.Permutation (x :: l) (insert_by key x l).
Proof.
  induction l as [|y l IH]; simpl; [apply Permutation.Permutation_refl|].
  destruct (Qle_bool (key x) (key y)); [apply Permutation.Permutation_refl|].
  eapply Permutation.perm_trans; [apply Permutation.perm_swap|].
  now apply Permutation.perm_skip.
Qed.

Lemma sorted_by_perm {A : Type} (key : A -> Q) (l : list A) :
  Permutation.Permutation l (sorted_by key l).
Proof.
  induction l as [|x l IH]; simpl; [constructor|].
  eapply Permutation.perm_trans; [|apply insert_by_perm].
  now apply Permutation.perm_skip.
Qed.

Lemma insert_by_sorted {A : Type} (key : A -> Q) (x : A) (l : list A) :
  Sorted.StronglySorted (fun a b => (key a <= key b)%Q) l ->
  Sorted.StronglySorted (fun a b => (key a <= key b)%Q) (insert_by key x l).
Proof.
  induction 1 as [|y l Hsorted IH Hall]; simpl; [repeat constructor|].
  destruct (Qle_bool (key x) (key y)) eqn:E.
  - apply Qle_bool_iff in E. constructor; [now constructor|].
    constructor; [exact E|].
    eapply Forall_impl; [|exact Hall]. intros z Hz. cbv beta in Hz.
    eapply Qle_trans; eassumption.
  - assert (Hyx : (key y <= key x)%Q).
    { apply Qlt_le_weak. apply Qnot_le_lt. intro H. apply Qle_bool_iff in H. congruence. }
    constructor; [exact IH|].
    apply (Permutation.Permutation_Forall (insert_by_perm key x l)).
    now constructor.
Qed.

Lemma sorted_by_sorted {A : Type} (key : A -> Q) (l : list A) :
  Sorted.StronglySorted (fun a b => (key a <= key b)%Q) (sorted_by key l).
Proof.
  induction l as [|x l IH]; simpl; [constructor | now apply insert_by_sorted].
Qed.

(* ================================================================== *)
(** * The leaderboard of the log *)
(* ================================================================== *)

Lemma assoc_in {V : Type} (k : string) (v : V) (d : list (string * V)) :
  assoc k d = Some v -> In (k, v) d.
Proof.
  induction d as [|[k0 v0] d IH]; simpl; [discriminate|].
  destruct (String.eqb_spec k0 k) as [->|_].
  - intro H. injection H as ->. now left.
  - intro H. right. now apply IH.
Qed.

Lemma in_assoc {V : Type} (k : string) (v : V) (d : list (string * V)) :
  NoDup (map fst d) -> In (k, v) d -> assoc k d = Some v.
Proof.
  induction d as [|[k0 v0] d IH]; simpl; [contradiction|].
  intros Hnodup [H|H].
  - injection H as -> ->. now rewrite String.eqb_refl.
  - apply NoDup_cons_iff in Hnodup. destruct Hnodup as [Hnot Hnodup].
    destruct (String.eqb_spec k0 k) as [->|_].
    + elim Hnot. apply in_map_iff. now exists (k, v).
    + now apply IH.
Qed.

Lemma assoc_count_run (fl : FloatArith) (k model : string) (latency : Q)
  (d : list (string * leaderboard.Stats)) :
  assoc k (leaderboard.count_run fl model latency d)
  = if String.eqb model k
    then Some match assoc model d with
              | Some s =>
                  leaderboard.mkStats (leaderboard.stats_model s)
                    (fadd fl (leaderboard.total_latency s) latency)
                    (S (leaderboard.runs s))
              | None => leaderboard.mkStats model (fadd fl 0 latency) 1
              end
    else assoc k d.
Proof.
  induction d as [|[k0 s0] d IH]; cbn [leaderboard.count_run assoc].
  - destruct (String.eqb model k); reflexivity.
  - destruct (String.eqb_spec k0 model) as [->|Hne]; cbn [assoc].
    + destruct (String.eqb_spec model k) as [->|_]; reflexivity.
    + rewrite IH. destruct (String.eqb_spec model k) as [->|_].
      * destruct (String.eqb_spec k0 k) as [->|_]; [now elim Hne | reflexivity].
      * reflexivity.
Qed.

Lemma keys_count_run (fl : FloatArith) (k model : string) (latency : Q)
  (d : list (string * leaderboard.Stats)) :
  In k (map fst (leaderboard.count_run fl model latency d))
  <-> k = model \/ In k (map fst d).
Proof.
  induction d as [|[k0 s0] d IH]; cbn [leaderboard.count_run map fst In].
  - intuition.
  - destruct (String.eqb_spec k0 model) as [->|Hne]; cbn [map fst In].
    + intuition.
    + rewrite IH. intuition.
Qed.

Lemma nodup_count_run (fl : FloatArith) (model : string) (latency : Q)
  (d : list (string * leaderboard.Stats)) :
  NoDup (map fst d) -> NoDup (map fst (leaderboard.count_run fl model latency d)).
Proof.
  induction d as [|[k0 s0] d IH]; cbn [leaderboard.count_run map fst]; intro H.
  - repeat constructor. intros [].
  - apply NoDup_cons_iff in H. destruct H as [Hnot Hnodup].
    destruct (String.eqb_spec k0 model) as [->|Hne]; cbn [map fst].
    + now constructor.
    + constructor; [|now apply IH].
      rewrite keys_count_run. intros [->|H]; [now elim Hne | now elim Hnot].
Qed.

Lemma runs_count_run (fl : FloatArith) (model : string) (latency : Q)
  (d : list (string * leaderboard.Stats)) :
  list_sum (map (fun e => leaderboard.runs (snd e))
              (leaderboard.count_run fl model latency d))
  = S (list_sum (map (fun e => leaderboard.runs (snd e)) d)).
Proof.
  induction d as [|[k0 s0] d IH]; cbn [leaderboard.count_run map list_sum fold_right];
    [reflexivity|].
  destruct (String.eqb k0 model); cbn [map snd leaderboard.runs list_sum fold_right].
  - reflexivity.
  - unfold list_sum in IH. rewrite IH. lia.
Qed.

Lemma group_snoc (fl : FloatArith) (logs : list LogEntry) (log : LogEntry) :
  leaderboard.group fl (logs ++ [log])
  = leaderboard.count_run fl (log_model log) (log_latency log)
      (leaderboard.group fl logs).
Proof. unfold leaderboard.group. now rewrite fold_left_app. Qed.

Lemma runs_of_snoc (k : string) (logs : list LogEntry) (log : LogEntry) :
  runs_of k (logs ++ [log])
  = (runs_of k logs + if String.eqb (log_model log) k then 1 else 0)%nat.
Proof.
  unfold runs_of, rows_of_model. rewrite filter_app, length_app. cbn [filter].
  destruct (String.eqb (log_model log) k); reflexivity.
Qed.

Lemma total_of_snoc (fl : FloatArith) (k : string) (logs : list LogEntry)
  (log : LogEntry) :
  total_of fl k (logs ++ [log])
  = if String.eqb (log_model log) k then fadd fl (total_of fl k logs) (log_latency log)
    else total_of fl k logs.
Proof.
  unfold total_of, rows_of_model. rewrite filter_app. cbn [filter].
  destruct (String.eqb (log_model log) k).
  - now rewrite map_app, fold_left_app.
  - now rewrite app_nil_r.
Qed.

(** The [dict] built from a log: one key for each model of the log, in
    the order of first appearance, with the number of its rows and the sum
    of their latencies. *)
Lemma group_spec (fl : FloatArith) (logs : list LogEntry) :
  NoDup (map fst (leaderboard.group fl logs))
  /\ (forall k,
        assoc k (leaderboard.group fl logs)
        = if (runs_of k logs =? 0)%nat then None
          else Some (leaderboard.mkStats k (total_of fl k logs) (runs_of k logs)))
  /\ (forall k, In k (map fst (leaderboard.group fl logs)) <-> In k (map log_model logs))
  /\ list_sum (map (fun e => leaderboard.runs (snd e)) (leaderboard.group fl logs))
     = length logs.
Proof.
  induction logs as [|log logs (Hnodup & Hassoc & Hkeys & Hsum)] using rev_ind.
  - repeat split; try reflexivity; try constructor; intros [].
  - rewrite group_snoc. split; [now apply nodup_count_run|]. split; [|split].
    + intro k. rewrite assoc_count_run, runs_of_snoc, total_of_snoc.
      destruct (String.eqb_spec (log_model log) k) as [->|Hne].
      * rewrite Hassoc.
        destruct (runs_of k logs) as [|n] eqn:En.
        -- cbn. f_equal. f_equal.
           unfold total_of, rows_of_model.
           unfold runs_of, rows_of_model in En.
           apply length_zero_iff_nil in En. now rewrite En.
        -- cbn [Nat.eqb leaderboard.stats_model leaderboard.total_latency
                leaderboard.runs].
           replace (S n + 1)%nat with (S (S n)) by lia. reflexivity.
      * rewrite Hassoc, Nat.add_0_r. reflexivity.
    + intro k. rewrite keys_count_run, Hkeys, map_app, in_app_iff. cbn [map In].
      intuition.
    + rewrite runs_count_run, Hsum, length_app. cbn [length]. lia.
Qed.


Lemma list_sum_perm (l l' : list nat) :
  Permutation.Permutation l l' -> list_sum l = list_sum l'.
Proof.
  induction 1 as [|x l l' _ IH|x y l|l l' l'' _ IH1 _ IH2]; cbn [list_sum fold_right] in *;
    unfold list_sum in *; lia.
Qed.

Lemma rows_of_models (fl : FloatArith) (d : list (string * leaderboard.Stats)) :
  map leaderboard.row_model (leaderboard.rows_of fl d) = map fst d.
Proof. unfold leaderboard.rows_of. rewrite map_map. reflexivity. Qed.

Lemma rows_of_runs (fl : FloatArith) (d : list (string * leaderboard.Stats)) :
  map leaderboard.row_runs (leaderboard.rows_of fl d)
  = map (fun e => leaderboard.runs (snd e)) d.
Proof. unfold leaderboard.rows_of. rewrite map_map. reflexivity. Qed.

(** A row made from the grouped log counts the rows of its model and
    averages their latencies in the arithmetic of [float]. *)
Lemma rows_of_group (fl : FloatArith) (kept : list LogEntry) (row : leaderboard.Row) :
  In row (leaderboard.rows_of fl (leaderboard.group fl kept)) ->
  leaderboard.row_runs row = runs_of (leaderboard.row_model row) kept
  /\ (1 <= leaderboard.row_runs row)%nat
  /\ leaderboard.average_latency row
     = fround fl
         (fdiv fl (total_of fl (leaderboard.row_model row) kept)
            (inject_Z (Z.of_nat (runs_of (leaderboard.row_model row) kept)))) 2.
Proof.
  destruct (group_spec fl kept) as (Hnodup & Hassoc & _ & _).
  unfold leaderboard.rows_of. rewrite in_map_iff. intros ([k s] & <- & Hin).
  apply in_assoc in Hin; [|exact Hnodup]. rewrite Hassoc in Hin.
  cbn [fst snd leaderboard.row_model leaderboard.row_runs leaderboard.average_latency].
  destruct (Nat.eqb_spec (runs_of k kept) 0) as [|Hpos]; [discriminate|].
  injection Hin as <-. cbn [leaderboard.runs leaderboard.total_latency].
  split; [reflexivity | split; [lia | reflexivity]].
Qed.

(** On a log that decodes, [get_leaderboard] answers with the sorted rows
    and leaves the world as it was. *)
Lemma get_leaderboard_run (fl : FloatArith) (task : option string) (w : World)
  (logs : list LogEntry) :
  logs_file w = Logs logs ->
  leaderboard.get_leaderboard fl task w
  = (Ret (sorted_by leaderboard.average_latency
            (leaderboard.rows_of fl
               (leaderboard.group fl (leaderboard.filter_task task logs)))),
     w).
Proof.
  intro Hlogs. unfold leaderboard.get_leaderboard, try_except, leaderboard.leaderboard_of.
  now rewrite Hlogs.
Qed.

(** X21. The leaderboard of a log that decodes.  The answer has one row
    for each model named by a row of the log that passes the task filter
    and no other row; the [runs] of a row is the number of those log rows
    of its model, so it is at least 1 and the [runs] add up to the number
    of log rows kept; its [average_latency] is what Python's [round] to 2
    places makes of the quotient of the sum of their latencies, added as
    [float]s in the order of the log starting from 0, by that number.
    The log is not changed. *)
Theorem get_leaderboard_groups_by_model (fl : FloatArith) (task : option string)
  (w : World) (logs : list LogEntry) :
  logs_file w = Logs logs ->
  let kept := leaderboard.filter_task task logs in
  exists rows,
    leaderboard.get_leaderboard fl task w = (Ret rows, w)
    /\ NoDup (map leaderboard.row_model rows)
    /\ (forall model,
          In model (map leaderboard.row_model rows) <-> In model (map log_model kept))
    /\ (forall row, In row rows ->
          leaderboard.row_runs row = runs_of (leaderboard.row_model row) kept
          /\ (1 <= leaderboard.row_runs row)%nat
          /\ leaderboard.average_latency row
             = fround fl
                 (fdiv fl (total_of fl (leaderboard.row_model row) kept)
                    (inject_Z (Z.of_nat (leaderboard.row_runs row)))) 2)
    /\ list_sum (map leaderboard.row_runs rows) = length kept.
Proof.
  intros Hlogs kept. eexists.
  split; [exact (get_leaderboard_run fl task w logs Hlogs)|].
  fold kept.
  set (unsorted := leaderboard.rows_of fl (leaderboard.group fl kept)).
  pose proof (sorted_by_perm leaderboard.average_latency unsorted) as Hperm.
  destruct (group_spec fl kept) as (Hnodup & _ & Hkeys & Hsum).
  split; [|split; [|split]].
  - apply (Permutation.Permutation_NoDup (Permutation.Permutation_map _ Hperm)).
    unfold unsorted. now rewrite rows_of_models.
  - intro model. rewrite <- Hkeys, <- (rows_of_models fl). fold unsorted. split.
    + apply Permutation.Permutation_in, Permutation.Permutation_sym,
        Permutation.Permutation_map, Hperm.
    + apply Permutation.Permutation_in, Permutation.Permutation_map, Hperm.
  - intros row Hin.
    apply (Permutation.Permutation_in _ (Permutation.Permutation_sym Hperm)) in Hin.
    destruct (rows_of_group fl kept row Hin) as (Hruns & Hpos & Havg).
    rewrite Hruns at 3. auto.
  - rewrite <- (list_sum_perm _ _ (Permutation.Permutation_map _ Hperm)).
    unfold unsorted. now rewrite rows_of_runs.
Qed.

Lemma get_leaderboard_groups_by_model_witness :
  logs_file sample_world = Logs sample_logs
  /\ exists rows,
       leaderboard.get_leaderboard exact_arithmetic (Some "OCR") sample_world
       = (Ret rows, sample_world)
       /\ NoDup (map leaderboard.row_model rows)
       /\ list_sum (map leaderboard.row_runs rows) = 2%nat.
Proof.
  split; [reflexivity|].
  destruct (get_leaderboard_groups_by_model exact_arithmetic (Some "OCR") sample_world
              sample_logs eq_refl)
    as (rows & Hrun & Hnodup & _ & _ & Hsum).
  exists rows. repeat split; assumption.
Defined.

(** X22. The rows of the leaderboard are in ascending order of
    [average_latency]: each row is at most as slow as every row after it,
    so the first row has the smallest average. *)
Theorem get_leaderboard_fastest_first (fl : FloatArith) (task : option string)
  (w : World) (rows : list leaderboard.Row) :
  leaderboard.get_leaderboard fl task w = (Ret rows, w) ->
  Sorted.StronglySorted
    (fun faster slower =>
       (leaderboard.average_latency faster <= leaderboard.average_latency slower)%Q)
    rows
  /\ forall first rest row,
       rows = (first :: rest)%list -> In row rows ->
       (leaderboard.average_latency first <= leaderboard.average_latency row)%Q.
Proof.
  intro Hrun.
  assert (Hsorted : Sorted.StronglySorted
            (fun faster slower =>
               (leaderboard.average_latency faster
                <= leaderboard.average_latency slower)%Q) rows).
  { unfold leaderboard.get_leaderboard, try_except, leaderboard.leaderboard_of in Hrun.
    destruct (logs_file w); try discriminate.
    injection Hrun as <-. apply sorted_by_sorted. }
  split; [exact Hsorted|].
  intros first rest row -> [<-|Hin]; [apply Qle_refl|].
  apply Sorted.StronglySorted_inv in Hsorted. destruct Hsorted as [_ Hall].
  rewrite Forall_forall in Hall. now apply Hall.
Qed.


Lemma get_leaderboard_fastest_first_witness :
  exists rows,
    leaderboard.get_leaderboard exact_arithmetic None sample_world
    = (Ret rows, sample_world)
    /\ Sorted.StronglySorted
         (fun faster slower =>
            (leaderboard.average_latency faster <= leaderboard.average_latency slower)%Q)
         rows.
Proof.
  eexists. split; [reflexivity|].
  exact (proj1 (get_leaderboard_fastest_first exact_arithmetic None sample_world _
                  eq_refl)).
Defined.

(** X23. A log that is absent or does not decode.  [get_leaderboard] then
    raises an [HTTPException] of status 500, whatever the task filter, and
    changes nothing; for a file that does not decode the detail is
    [Invalid JSON in logs file].  For the absent file [get_result] of
    [analyze.py], which reads the same file, raises status 404 instead. *)
Theorem get_leaderboard_unreadable_log (fl : FloatArith) (task : option string)
  (result_id : string) (w : World) :
  (forall logs, logs_file w <> Logs logs) ->
  (exists detail,
     leaderboard.get_leaderboard fl task w = (Raise (HTTPException 500 detail), w))
  /\ (logs_file w = Corrupt ->
      leaderboard.get_leaderboard fl task w
      = (Raise (HTTPException 500 "Invalid JSON in logs file"), w))
  /\ (logs_file w = Missing ->
      analyze.get_result result_id w = (Raise (HTTPException 404 "No results found"), w)).
Proof.
  intro Hnot.
  unfold leaderboard.get_leaderboard, try_except, leaderboard.leaderboard_of,
    analyze.get_result.
  destruct (logs_file w) as [| |logs]; cbn.
  - split; [eexists; reflexivity|]. split; [discriminate | reflexivity].
  - split; [eexists; reflexivity|]. split; [reflexivity | discriminate].
  - now elim (Hnot logs).
Qed.

Lemma get_leaderboard_unreadable_log_witness :
  (forall logs, logs_file world0 <> Logs logs)
  /\ exists detail,
       leaderboard.get_leaderboard exact_arithmetic (Some "OCR") world0
       = (Raise (HTTPException 500 detail), world0).
Proof.
  assert (H : forall logs, logs_file world0 <> Logs logs) by (intros logs; discriminate).
  split; [exact H|].
  exact (proj1 (get_leaderboard_unreadable_log exact_arithmetic (Some "OCR") "a1"
                  world0 H)).
Defined.

Lemma filter_filter {A : Type} (f g : A -> bool) (l : list A) :
  filter g (filter f l) = filter (fun x => f x && g x) l.
Proof.
  induction l as [|x l IH]; [reflexivity|]. cbn [filter].
  destruct (f x); cbn [filter andb]; [|exact IH]. destruct (g x); now rewrite IH.
Qed.

(** X24. The task filter.  An empty [task] filters nothing: the answer is
    that of a request without [task].  For any other [task] the [runs] of
    a row count the rows of the log with that task and the model of the
    row; a task that no row of the log has gives the empty list, not an
    error. *)
Theorem get_leaderboard_task_filter (fl : FloatArith) (task : string) (w : World)
  (logs : list LogEntry) :
  logs_file w = Logs logs ->
  (task = "" ->
   leaderboard.get_leaderboard fl (Some task) w = leaderboard.get_leaderboard fl None w)
  /\ (task <> "" ->
      exists rows,
        leaderboard.get_leaderboard fl (Some task) w = (Ret rows, w)
        /\ (forall row, In row rows ->
              leaderboard.row_runs row
              = length (filter (fun log =>
                                  String.eqb (log_task log) task
                                  && String.eqb (log_model log) (leaderboard.row_model row))
                          logs))
        /\ ((forall log, In log logs -> log_task log <> task) -> rows = [])).
Proof.
  intro Hlogs. split.
  - intros ->. now rewrite !(get_leaderboard_run fl _ w logs Hlogs).
  - intro Hne. eexists.
    split; [exact (get_leaderboard_run fl (Some task) w logs Hlogs)|].
    assert (Hkept : leaderboard.filter_task (Some task) logs
                    = filter (fun log => String.eqb (log_task log) task) logs).
    { unfold leaderboard.filter_task. destruct task; [now elim Hne | reflexivity]. }
    rewrite Hkept. split.
    + intros row Hin.
      apply (Permutation.Permutation_in _
               (Permutation.Permutation_sym (sorted_by_perm _ _))) in Hin.
      destruct (rows_of_group fl _ row Hin) as (-> & _).
      unfold runs_of, rows_of_model. now rewrite filter_filter.
    + intro Hnone.
      replace (filter (fun log => String.eqb (log_task log) task) logs)
        with (@nil LogEntry); [reflexivity|].
      symmetry. clear Hlogs Hkept.
      induction logs as [|log rest IH]; [reflexivity|]. cbn [filter].
      destruct (String.eqb_spec (log_task log) task) as [E|_].
      * elim (Hnone log); [now left | exact E].
      * apply IH. intros l Hl. apply Hnone. now right.
Qed.

Lemma get_leaderboard_task_filter_witness :
  logs_file sample_world = Logs sample_logs
  /\ leaderboard.get_leaderboard exact_arithmetic (Some "Style Transfer") sample_world
     = (Ret [], sample_world).
Proof.
  split; [reflexivity|].
  destruct (proj2 (get_leaderboard_task_filter exact_arithmetic "Style Transfer"
                     sample_world sample_logs eq_refl))
    as (rows & Hrun & _ & Hnone); [discriminate|].
  rewrite Hrun. f_equal. f_equal. apply Hnone.
  intros log [<-|[<-|[<-|[<-|[]]]]]; discriminate.
Defined.

(** X25. An analyzed request is on the leaderboard.  After [analyze_image]
    has answered a request, the leaderboard without a task filter and the
    leaderboard of the request's task both have a row for the model the
    answer names, with at least one run; without a filter its [runs] is
    one more than the number of rows the log had for that model. *)
Theorem analyzed_request_is_on_leaderboard (fl : FloatArith) (rt : Runtime)
  (question content_type filename : string) (w w' : World) (body : analyze.Analysis)
  (task : option string) :
  analyze.analyze_image rt question content_type filename w
  = (Ret (analyze.Analyzed body), w') ->
  task = None \/ task = Some (analyze.analysis_task body) ->
  exists rows row,
    leaderboard.get_leaderboard fl task w' = (Ret rows, w')
    /\ In row rows
    /\ leaderboard.row_model row = analyze.analysis_model body
    /\ (1 <= leaderboard.row_runs row)%nat
    /\ (task = None ->
        leaderboard.row_runs row
        = S (runs_of (analyze.analysis_model body) (analyze.read_logs (logs_file w)))).
Proof.
  intros Hrun Htask.
  destruct (analyze_image_appends rt question content_type filename w w' body Hrun)
    as (entry & Hlogs & _ & _ & Etask & Emodel & _).
  set (old := analyze.read_logs (logs_file w)) in *.
  set (kept := leaderboard.filter_task task (old ++ [entry])%list).
  assert (Hkept : In entry kept).
  { unfold kept, leaderboard.filter_task.
    destruct Htask as [->| ->]; [apply in_or_app; right; now left|].
    destruct (Py.truthy _); [|apply in_or_app; right; now left].
    apply filter_In. split; [apply in_or_app; right; now left|].
    rewrite Etask. apply String.eqb_refl. }
  assert (Hmodel : In (analyze.analysis_model body)
                     (map leaderboard.row_model
                        (leaderboard.rows_of fl (leaderboard.group fl kept)))).
  { rewrite rows_of_models. apply (proj1 (proj2 (proj2 (group_spec fl kept)))).
    rewrite <- Emodel. now apply in_map. }
  apply in_map_iff in Hmodel. destruct Hmodel as (row & Erow & Hin).
  destruct (rows_of_group fl kept row Hin) as (Hruns & Hpos & _).
  exists (sorted_by leaderboard.average_latency
            (leaderboard.rows_of fl (leaderboard.group fl kept))), row.
  split; [exact (get_leaderboard_run fl task w' _ Hlogs)|].
  split; [exact (Permutation.Permutation_in _ (sorted_by_perm _ _) Hin)|].
  split; [exact Erow|]. split; [exact Hpos|].
  intros ->. rewrite Hruns, Erow. unfold kept. cbn [leaderboard.filter_task].
  rewrite runs_of_snoc, Emodel, String.eqb_refl. lia.
Qed.

Lemma analyzed_request_is_on_leaderboard_witness :
  exists rows row,
    leaderboard.get_leaderboard exact_arithmetic None
      (world (analyze.analyze_image offline "what color is the car" "image/png"
                "car.png" world0))
    = (Ret rows,
       world (analyze.analyze_image offline "what color is the car" "image/png"
                "car.png" world0))
    /\ In row rows
    /\ leaderboard.row_model row = "error"
    /\ leaderboard.row_runs row = 1%nat.
Proof.
  destruct (analyzed_request_is_on_leaderboard exact_arithmetic offline
              "what color is the car" "image/png" "car.png" world0
              (world (analyze.analyze_image offline "what color is the car"
                        "image/png" "car.png" world0))
              (analyze.mkAnalysis "0b4f6c1e" "Other" "what color is the car" "car.png"
                 (PStr "Task handling failed due to an error")
                 (inject_Z 7 - inject_Z 0) "error")
              None eq_refl (or_introl eq_refl))
    as (rows & row & Hrun & Hin & Emodel & _ & Hruns).
  exists rows, row. repeat split; try assumption. exact (Hruns eq_refl).
Defined.


(* ================================================================== *)
(** * The metrics kept in memory *)
(* ================================================================== *)





Lemma assoc_put (k : string) (metric : metrics.ModelMetric)
  (d : list (string * metrics.ModelMetric)) :
  assoc k (metrics.put metric d)
  = if String.eqb (metrics.model_name metric) k then Some metric else assoc k d.
Proof.
  induction d as [|[k0 m0] d IH]; cbn [metrics.put assoc].
  - destruct (String.eqb _ k); reflexivity.
  - destruct (String.eqb_spec k0 (metrics.model_name metric)) as [->|Hne]; cbn [assoc].
    + destruct (String.eqb (metrics.model_name metric) k); reflexivity.
    + rewrite IH. destruct (String.eqb_spec (metrics.model_name metric) k) as [<-|_];
        [|reflexivity].
      destruct (String.eqb_spec k0 (metrics.model_name metric)); [now elim Hne | reflexivity].
Qed.

Lemma keys_put (k : string) (metric : metrics.ModelMetric)
  (d : list (string * metrics.ModelMetric)) :
  In k (map fst (metrics.put metric d))
  <-> k = metrics.model_name metric \/ In k (map fst d).
Proof.
  induction d as [|[k0 m0] d IH]; cbn [metrics.put map fst In].
  - intuition.
  - destruct (String.eqb_spec k0 (metrics.model_name metric)) as [->|Hne]; cbn [map fst In].
    + intuition.
    + rewrite IH. intuition.
Qed.

Lemma nodup_put (metric : metrics.ModelMetric) (d : list (string * metrics.ModelMetric)) :
  NoDup (map fst d) -> NoDup (map fst (metrics.put metric d)).
Proof.
  induction d as [|[k0 m0] d IH]; cbn [metrics.put map fst]; intro H.
  - repeat constructor. intros [].
  - apply NoDup_cons_iff in H. destruct H as [Hnot Hnodup].
    destruct (String.eqb_spec k0 (metrics.model_name metric)) as [->|Hne]; cbn [map fst].
    + now constructor.
    + constructor; [|now apply IH].
      rewrite keys_put. intros [->|H]; [now elim Hne | now elim Hnot].
Qed.

(** The [dict] [model_fastest] after the loop over any list of metrics:
    its keys are the model names of the list, and the value under a name is
    a metric of the list with that name that no metric of that name
    beats. *)
Lemma keep_fastest_spec (seen : list metrics.ModelMetric) :
  let d := fold_left metrics.keep_fastest seen [] in
  NoDup (map fst d)
  /\ (forall k, In k (map fst d) <-> In k (map metrics.model_name seen))
  /\ (forall k metric,
        assoc k d = Some metric ->
        In metric seen
        /\ metrics.model_name metric = k
        /\ forall other, In other seen -> metrics.model_name other = k ->
             (metrics.latency metric <= metrics.latency other)%Q).
Proof.
  induction seen as [|x seen (Hnodup & Hkeys & Hfast)] using rev_ind; cbn zeta.
  - split; [constructor|]. split; [reflexivity | discriminate].
  - rewrite fold_left_app. cbn [fold_left]. cbn zeta in *.
    set (d := fold_left metrics.keep_fastest seen []) in *.
    assert (Hput :
              (forall other, In other seen ->
                 metrics.model_name other = metrics.model_name x ->
                 (metrics.latency x <= metrics.latency other)%Q) ->
              NoDup (map fst (metrics.put x d))
              /\ (forall k, In k (map fst (metrics.put x d))
                            <-> In k (map metrics.model_name (seen ++ [x])))
              /\ (forall k metric,
                    assoc k (metrics.put x d) = Some metric ->
                    In metric (seen ++ [x])
                    /\ metrics.model_name metric = k
                    /\ forall other, In other (seen ++ [x]) ->
                         metrics.model_name other = k ->
                         (metrics.latency metric <= metrics.latency other)%Q)).
    { intro Hbeats. split; [now apply nodup_put|]. split.
      - intro k. rewrite keys_put, Hkeys, map_app, in_app_iff. cbn [map In]. intuition.
      - intros k metric. rewrite assoc_put.
        destruct (String.eqb_spec (metrics.model_name x) k) as [<-|Hne].
        + intro H. injection H as <-. split; [apply in_or_app; right; now left|].
          split; [reflexivity|].
          intros other Hin Hname. apply in_app_or in Hin.
          destruct Hin as [Hin|[<-|[]]]; [now apply Hbeats | apply Qle_refl].
        + intro H. destruct (Hfast k metric H) as (Hin & Hname & Hmin).
          split; [apply in_or_app; now left|]. split; [exact Hname|].
          intros other Hother Hk. apply in_app_or in Hother.
          destruct Hother as [Hother|[<-|[]]]; [now apply Hmin | now elim Hne]. }
    unfold metrics.keep_fastest.
    destruct (assoc (metrics.model_name x) d) as [known|] eqn:Eknown.
    + destruct (Hfast _ _ Eknown) as (Hin & Hname & Hmin).
      destruct (Qle_bool (metrics.latency known) (metrics.latency x)) eqn:Ele; cbn [negb].
      * apply Qle_bool_iff in Ele.
        split; [exact Hnodup|]. split.
        -- intro k. rewrite Hkeys, map_app, in_app_iff. cbn [map In].
           split; [now left|]. intros [H|[<-|[]]]; [exact H|].
           apply Hkeys. apply assoc_in in Eknown.
           apply in_map_iff. now exists (metrics.model_name x, known).
        -- intros k metric H. destruct (Hfast k metric H) as (Hin' & Hname' & Hmin').
           split; [apply in_or_app; now left|]. split; [exact Hname'|].
           intros other Hother Hk. apply in_app_or in Hother.
           destruct Hother as [Hother|[<-|[]]]; [now apply Hmin'|].
           assert (metric = known) as -> by congruence. exact Ele.
      * apply Hput. intros other Hother Hk.
        apply Qle_trans with (metrics.latency known); [|now apply Hmin].
        apply Qlt_le_weak, Qnot_le_lt. intro Hle. apply Qle_bool_iff in Hle. congruence.
    + apply Hput. intros other Hother Hk.
      assert (Hkey : In (metrics.model_name x) (map fst d)).
      { apply Hkeys. rewrite <- Hk. now apply in_map. }
      apply in_map_iff in Hkey. destruct Hkey as ([k0 m0] & Ek0 & Hin0).
      cbn [fst] in Ek0. subst k0. apply in_assoc in Hin0; [congruence | exact Hnodup].
Qed.



(** The values of [model_fastest] in [get_leaderboard]: one metric for
    each model recorded, filed under its own name, and the fastest of its
    model. *)
Lemma model_fastest_spec (model_metrics : list metrics.ModelMetric) :
  let d := fold_left metrics.keep_fastest (sorted_by metrics.latency model_metrics) [] in
  NoDup (map metrics.model_name (map snd d))
  /\ (forall k, In k (map metrics.model_name (map snd d))
                <-> In k (map metrics.model_name model_metrics))
  /\ (forall metric,
        In metric (map snd d) ->
        In metric model_metrics
        /\ forall other, In other model_metrics ->
             metrics.model_name other = metrics.model_name metric ->
             (metrics.latency metric <= metrics.latency other)%Q).
Proof.
  cbn zeta.
  pose proof (sorted_by_perm metrics.latency model_metrics) as Hperm.
  destruct (keep_fastest_spec (sorted_by metrics.latency model_metrics))
    as (Hnodup & Hkeys & Hfast). cbn zeta in *.
  set (d := fold_left metrics.keep_fastest (sorted_by metrics.latency model_metrics) [])
    in *.
  assert (Hfiled : map metrics.model_name (map snd d) = map fst d).
  { rewrite map_map. apply map_ext_in. intros [k m] Hin. cbn [fst snd].
    apply in_assoc in Hin; [|exact Hnodup]. now destruct (Hfast k m Hin) as (_ & -> & _). }
  rewrite Hfiled. split; [exact Hnodup|]. split.
  - intro k. rewrite Hkeys. split.
    + apply Permutation.Permutation_in, Permutation.Permutation_sym,
        Permutation.Permutation_map, Hperm.
    + apply Permutation.Permutation_in, Permutation.Permutation_map, Hperm.
  - intros metric Hin. apply in_map_iff in Hin. destruct Hin as ([k m] & <- & Hin).
    cbn [snd]. apply in_assoc in Hin; [|exact Hnodup].
    destruct (Hfast k m Hin) as (Hseen & Hname & Hmin).
    split; [exact (Permutation.Permutation_in _ (Permutation.Permutation_sym Hperm) Hseen)|].
    intros other Hother Hk. apply Hmin; [|congruence].
    exact (Permutation.Permutation_in _ Hperm Hother).
Qed.


(** X27. The [limit] of the leaderboard of metrics.  With [n] models
    recorded, a [limit] of 0 or more gives the smaller of [limit] and [n]
    rows, and a negative [limit] does not fail: it gives [n + limit] rows,
    or none when that is negative.  When [limit] is at least [n], every
    model recorded has a row. *)
Theorem metrics_leaderboard_limit (limit : Z) (model_metrics : list metrics.ModelMetric) :
  let rows := metrics.get_leaderboard limit model_metrics in
  let n := length (models_of model_metrics) in
  length rows
  = (if (0 <=? limit)%Z then Nat.min (Z.to_nat limit) n else n - Z.to_nat (- limit))%nat
  /\ ((Z.of_nat n <= limit)%Z ->
      forall metric, In metric model_metrics ->
        In (metrics.model_name metric) (map metrics.fastest_model_name rows)).
Proof.
  cbn zeta. unfold metrics.get_leaderboard.
  destruct (model_fastest_spec model_metrics) as (Hnodup & Hkeys & _). cbn zeta in *.
  set (values := map snd (fold_left metrics.keep_fastest
                            (sorted_by metrics.latency model_metrics) [])) in *.
  pose proof (sorted_by_perm metrics.latency values) as Hperm.
  assert (Hn : length (sorted_by metrics.latency values)
               = length (models_of model_metrics)).
  { rewrite <- (Permutation.Permutation_length Hperm),
      <- (length_map metrics.model_name values).
    apply Permutation.Permutation_length, Permutation.NoDup_Permutation;
      [exact Hnodup | apply NoDup_nodup|].
    intro k. unfold models_of. now rewrite nodup_In, Hkeys. }
  split.
  - rewrite length_map. unfold Py.slice_to.
    destruct (0 <=? limit)%Z eqn:Esign; rewrite length_firstn, Hn; [reflexivity|].
    apply Z.leb_gt in Esign. lia.
  - intros Hall metric Hin. rewrite map_map. cbn [metrics.fastest_model_name].
    unfold Py.slice_to.
    replace (0 <=? limit)%Z with true by (symmetry; apply Z.leb_le; lia).
    rewrite firstn_all2 by (rewrite Hn; lia).
    apply (Permutation.Permutation_in _ (Permutation.Permutation_map _ Hperm)).
    apply Hkeys. now apply in_map.
Qed.

Lemma metrics_leaderboard_limit_witness :
  length (metrics.get_leaderboard (-1) sample_metrics) = 2%nat
  /\ (3 <= 3)%Z
  /\ In "PaddleOCR" (map metrics.fastest_model_name (metrics.get_leaderboard 3 sample_metrics)).
Proof.
  split; [exact (proj1 (metrics_leaderboard_limit (-1) sample_metrics))|].
  split; [lia|].
  refine (proj2 (metrics_leaderboard_limit 3 sample_metrics) _
            (metrics.mkModelMetric "PaddleOCR" (320 # 100) 2 "OCR") _).
  - cbn. lia.
  - right. now left.
Defined.


Lemma assoc_none {V : Type} (k : string) (d : list (string * V)) :
  assoc k d = None <-> ~ In k (map fst d).
Proof.
  induction d as [|[k0 v0] d IH]; cbn [assoc map fst In]; [intuition|].
  destruct (String.eqb_spec k0 k) as [->|Hne].
  - split; [discriminate | intro H; elim H; now left].
  - rewrite IH. intuition.
Qed.

Lemma assoc_tally (fl : FloatArith) (k : string) (metric : metrics.ModelMetric)
  (stats : list (string * metrics.Running)) :
  assoc k (metrics.tally fl metric stats)
  = if String.eqb (metrics.model_name metric) k
    then Some match assoc k stats with
              | Some r =>
                  metrics.mkRunning (S (metrics.count r))
                    (fadd fl (metrics.total_latency r) (metrics.latency metric))
                    (metrics.min_ (metrics.min_latency r) (metrics.latency metric))
                    (metrics.max_ (metrics.max_latency r) (metrics.latency metric))
              | None =>
                  metrics.mkRunning 1 (fadd fl 0 (metrics.latency metric))
                    (metrics.min_ metrics.Inf (metrics.latency metric))
                    (metrics.max_ 0 (metrics.latency metric))
              end
    else assoc k stats.
Proof.
  induction stats as [|[k0 r0] stats IH]; cbn [metrics.tally assoc].
  - destruct (String.eqb _ k); reflexivity.
  - destruct (String.eqb_spec k0 (metrics.model_name metric)) as [->|Hne]; cbn [assoc].
    + destruct (String.eqb (metrics.model_name metric) k); reflexivity.
    + rewrite IH. destruct (String.eqb_spec (metrics.model_name metric) k) as [<-|_];
        [|reflexivity].
      destruct (String.eqb_spec k0 (metrics.model_name metric)); [now elim Hne | reflexivity].
Qed.

Lemma keys_tally (fl : FloatArith) (k : string) (metric : metrics.ModelMetric)
  (stats : list (string * metrics.Running)) :
  In k (map fst (metrics.tally fl metric stats))
  <-> k = metrics.model_name metric \/ In k (map fst stats).
Proof.
  induction stats as [|[k0 r0] stats IH]; cbn [metrics.tally map fst In].
  - intuition.
  - destruct (String.eqb_spec k0 (metrics.model_name metric)) as [->|Hne]; cbn [map fst In].
    + intuition.
    + rewrite IH. intuition.
Qed.

Lemma nodup_tally (fl : FloatArith) (metric : metrics.ModelMetric)
  (stats : list (string * metrics.Running)) :
  NoDup (map fst stats) -> NoDup (map fst (metrics.tally fl metric stats)).
Proof.
  induction stats as [|[k0 r0] stats IH]; cbn [metrics.tally map fst]; intro H.
  - repeat constructor. intros [].
  - apply NoDup_cons_iff in H. destruct H as [Hnot Hnodup].
    destruct (String.eqb_spec k0 (metrics.model_name metric)) as [->|Hne]; cbn [map fst].
    + now constructor.
    + constructor; [|now apply IH].
      rewrite keys_tally. intros [->|H]; [now elim Hne | now elim Hnot].
Qed.

(** Counting a metric leaves the entries of the other models as they
    are. *)
Lemma tally_other (fl : FloatArith) (k : string) (r : metrics.Running)
  (metric : metrics.ModelMetric) (stats : list (string * metrics.Running)) :
  k <> metrics.model_name metric ->
  In (k, r) (metrics.tally fl metric stats) <-> In (k, r) stats.
Proof.
  intro Hne. induction stats as [|[k0 r0] stats IH]; cbn [metrics.tally In].
  - split; [|intros []]. intros [H|[]]. injection H as H _. now elim Hne.
  - destruct (String.eqb_spec k0 (metrics.model_name metric)) as [->|_]; cbn [In].
    + split; (intros [H|H]; [|now right]); injection H as H _; now elim Hne.
    + rewrite IH. reflexivity.
Qed.

Lemma metrics_of_snoc (k : string) (seen : list metrics.ModelMetric)
  (metric : metrics.ModelMetric) :
  metrics_of k (seen ++ [metric])
  = (metrics_of k seen
     ++ if String.eqb (metrics.model_name metric) k then [metric] else [])%list.
Proof. unfold metrics_of. rewrite filter_app. reflexivity. Qed.

Lemma min_cases (q x : Q) :
  (metrics.min_ (metrics.Fin q) x = metrics.Fin q /\ (q <= x)%Q)
  \/ (metrics.min_ (metrics.Fin q) x = metrics.Fin x /\ (x <= q)%Q).
Proof.
  unfold metrics.min_. destruct (Qle_bool q x) eqn:E; cbn [negb].
  - left. split; [reflexivity | now apply Qle_bool_iff].
  - right. split; [reflexivity|]. apply Qlt_le_weak, Qnot_le_lt.
    intro H. apply Qle_bool_iff in H. congruence.
Qed.

Lemma max_cases (a x : Q) :
  (metrics.max_ a x = a /\ (x <= a)%Q) \/ (metrics.max_ a x = x /\ (a <= x)%Q).
Proof.
  unfold metrics.max_. destruct (Qle_bool x a) eqn:E; cbn [negb].
  - left. split; [reflexivity | now apply Qle_bool_iff].
  - right. split; [reflexivity|]. apply Qlt_le_weak, Qnot_le_lt.
    intro H. apply Qle_bool_iff in H. congruence.
Qed.

(** The [dict] [stats] after the loop over the metrics. *)
Lemma tally_spec (fl : FloatArith) (seen : list metrics.ModelMetric) :
  let stats := fold_left (fun stats metric => metrics.tally fl metric stats) seen [] in
  NoDup (map fst stats)
  /\ (forall k, In k (map fst stats) <-> In k (map metrics.model_name seen))
  /\ (forall k r, assoc k stats = Some r -> summarises fl r (metrics_of k seen)).
Proof.
  induction seen as [|x seen (Hnodup & Hkeys & Hsum)] using rev_ind; cbn zeta.
  - split; [constructor|]. split; [reflexivity | discriminate].
  - rewrite fold_left_app. cbn [fold_left]. cbn zeta in *.
    set (stats := fold_left (fun stats metric => metrics.tally fl metric stats) seen [])
      in *.
    split; [now apply nodup_tally|]. split.
    + intro k. rewrite keys_tally, Hkeys, map_app, in_app_iff. cbn [map In]. intuition.
    + intros k r. rewrite assoc_tally, metrics_of_snoc.
      destruct (String.eqb_spec (metrics.model_name x) k) as [Ek|_];
        [|rewrite app_nil_r; apply Hsum].
      intro H. injection H as <-.
      destruct (assoc k stats) as [r0|] eqn:Er0.
      * destruct (Hsum k r0 Er0)
          as (Hcount & Hpos & Htotal & (q & Emin & (m & Hm & Em) & Hmin) & Hmax0 & Hmax & Hwho).
        unfold summarises.
        cbn [metrics.count metrics.total_latency metrics.min_latency metrics.max_latency].
        split; [rewrite length_app; cbn [length]; lia|]. split; [lia|].
        split; [rewrite map_app, fold_left_app, <- Htotal; reflexivity|].
        split; [|split; [|split]].
        -- rewrite Emin.
           destruct (min_cases q (metrics.latency x)) as [[-> Hle]|[-> Hle]].
           ++ exists q. split; [reflexivity|]. split.
              ** exists m. split; [apply in_or_app; now left | exact Em].
              ** intros m' Hm'. apply in_app_or in Hm'.
                 destruct Hm' as [Hm'|[<-|[]]]; [now apply Hmin | exact Hle].
           ++ exists (metrics.latency x). split; [reflexivity|]. split.
              ** exists x. split; [apply in_or_app; right; now left | reflexivity].
              ** intros m' Hm'. apply in_app_or in Hm'.
                 destruct Hm' as [Hm'|[<-|[]]]; [|apply Qle_refl].
                 apply Qle_trans with q; [exact Hle | now apply Hmin].
        -- destruct (max_cases (metrics.max_latency r0) (metrics.latency x))
             as [[-> _]|[-> Hle]]; [exact Hmax0|].
           now apply Qle_trans with (metrics.max_latency r0).
        -- intros m' Hm'. apply in_app_or in Hm'.
           destruct (max_cases (metrics.max_latency r0) (metrics.latency x))
             as [[-> Hle]|[-> Hle]];
             destruct Hm' as [Hm'|[<-|[]]];
             [now apply Hmax | exact Hle | | apply Qle_refl].
           apply Qle_trans with (metrics.max_latency r0); [now apply Hmax | exact Hle].
        -- destruct (max_cases (metrics.max_latency r0) (metrics.latency x))
             as [[-> _]|[-> _]].
           ++ destruct Hwho as [Hwho|(m' & Hm' & Em')]; [now left|].
              right. exists m'. split; [apply in_or_app; now left | exact Em'].
           ++ right. exists x. split; [apply in_or_app; right; now left | reflexivity].
      * assert (Hnone : metrics_of k seen = []).
        { apply assoc_none in Er0. unfold metrics_of.
          destruct (filter _ seen) as [|m rest] eqn:Ef; [reflexivity|].
          elim Er0. apply Hkeys.
          assert (Hin : In m (filter (fun metric => String.eqb (metrics.model_name metric) k)
                                seen)) by (rewrite Ef; now left).
          apply filter_In in Hin. destruct Hin as [Hin Hname].
          apply String.eqb_eq in Hname. rewrite <- Hname. now apply in_map. }
        rewrite Hnone. cbn [app]. unfold summarises.
        cbn [metrics.count metrics.total_latency metrics.min_latency metrics.max_latency
             length map fold_left metrics.min_].
        split; [reflexivity|]. split; [lia|]. split; [reflexivity|].
        split; [|split; [|split]].
        -- exists (metrics.latency x). split; [reflexivity|]. split.
           ++ exists x. split; [now left | reflexivity].
           ++ intros m' [<-|[]]. apply Qle_refl.
        -- destruct (max_cases 0 (metrics.latency x)) as [[-> _]|[-> Hle]];
             [apply Qle_refl | exact Hle].
        -- intros m' [<-|[]].
           destruct (max_cases 0 (metrics.latency x)) as [[-> Hle]|[-> _]];
             [exact Hle | apply Qle_refl].
        -- destruct (max_cases 0 (metrics.latency x)) as [[-> _]|[-> _]]; [now left|].
           right. exists x. split; [now left | reflexivity].
Qed.


(** An entry of the answer of [get_model_stats] is the entry of [stats]
    with the average added. *)
Lemma get_model_stats_entry (fl : FloatArith)
  (model_metrics : list metrics.ModelMetric)
  (name : string) (stats : metrics.ModelStats) :
  In (name, stats) (metrics.get_model_stats fl model_metrics) ->
  summarises fl (metrics.running stats) (metrics_of name model_metrics)
  /\ metrics.avg_latency stats
     = fdiv fl (metrics.total_latency (metrics.running stats))
         (inject_Z (Z.of_nat (metrics.count (metrics.running stats)))).
Proof.
  destruct (tally_spec fl model_metrics) as (Hnodup & _ & Hsum). cbn zeta in *.
  unfold metrics.get_model_stats. intro Hin. apply in_map_iff in Hin.
  destruct Hin as ([k r] & E & Hin). cbn [fst snd] in E. injection E as -> <-.
  cbn [metrics.running metrics.avg_latency].
  apply in_assoc in Hin; [|exact Hnodup]. split; [now apply Hsum | reflexivity].
Qed.



(** X29. Recording a metric.  [record_metric] reads the clock once, adds
    one metric with the name, latency and task given at the end of the
    list and touches nothing else.  In the statistics afterwards the model
    has an entry whose [count] is one more than the number of metrics it
    had, and the entries of all other models are the ones from before. *)
Theorem record_metric_updates_one_model (fl : FloatArith) (rt : Runtime)
  (name : string) (latency : Q) (task : string)
  (model_metrics : list metrics.ModelMetric) (w : World) :
  exists metric w',
    metrics.record_metric rt name latency task model_metrics w
    = (Ret ("Metric recorded successfully", (model_metrics ++ [metric])%list), w')
    /\ metric = metrics.mkModelMetric name latency (time_time rt (clock_reads w)) task
    /\ w' = mkWorld (probed w) (S (clock_reads w)) (logs_file w)
    /\ (exists stats,
          In (name, stats) (metrics.get_model_stats fl (model_metrics ++ [metric]))
          /\ metrics.count (metrics.running stats)
             = S (length (metrics_of name model_metrics)))
    /\ forall other stats, other <> name ->
         In (other, stats) (metrics.get_model_stats fl (model_metrics ++ [metric]))
         <-> In (other, stats) (metrics.get_model_stats fl model_metrics).
Proof.
  eexists. eexists. split; [reflexivity|]. split; [reflexivity|]. split; [reflexivity|].
  set (metric := metrics.mkModelMetric name latency (time_time rt (clock_reads w)) task).
  split.
  - destruct (tally_spec fl (model_metrics ++ [metric])) as (_ & Hkeys & _).
    cbn zeta in Hkeys.
    assert (Hkey : In name
                     (map fst (metrics.get_model_stats fl (model_metrics ++ [metric])))).
    { unfold metrics.get_model_stats. rewrite map_map. cbn [fst]. apply Hkeys.
      rewrite map_app. apply in_or_app. right. now left. }
    apply in_map_iff in Hkey. destruct Hkey as ([k stats] & Ek & Hin).
    cbn [fst] in Ek. subst k. exists stats. split; [exact Hin|].
    destruct (get_model_stats_entry fl _ _ _ Hin) as ((-> & _) & _).
    rewrite metrics_of_snoc. cbn [metrics.model_name metric].
    rewrite String.eqb_refl, length_app. cbn [length]. lia.
  - intros other stats Hne. unfold metrics.get_model_stats.
    rewrite fold_left_app. cbn [fold_left]. rewrite !in_map_iff.
    split; intros ([k r] & E & Hin); exists (k, r); (split; [exact E|]);
      cbn [fst] in E; injection E as -> _;
      now apply (tally_other fl other r metric _ Hne).
Qed.
